(** * ssd1306lib: the interrupt-driven I2C engine, the refresh sequencer
      and the rectangle / pixel drawing entry points of [oled.c]

    The development is a shallow embedding of [oled.c].  C integers are
    [Z] with the wrap-around of their type written out, pointers are a
    block and an offset, the statics of the translation unit and the TWI
    registers are fields of one machine state, and every function of the
    source is a function on that state.  The bytes handed to the TWI data
    register are recorded on a wire log, which plays the role of a
    simulated bus. *)

From Stdlib Require Import ZArith List Bool Lia.
Import ListNotations.
Open Scope Z_scope.

(** ** Machine integers *)

Definition u8 (z : Z) : Z := z mod 256.
Definition u16 (z : Z) : Z := z mod 65536.

(** Width in bits of a data pointer of the target.  [oled.c] is AVR code
    ([avr/io.h], [ISR(TWI_vect)]): data pointers are 16 bits wide. *)
Definition PTR_BITS : Z := 16.
Definition uptr (z : Z) : Z := z mod 2 ^ PTR_BITS.

(** ** Memory: blocks and offsets *)

(** The arrays with static storage of [oled.c], and the objects the caller
    owns (frame buffers), numbered. *)
Inductive block : Type :=
| B_cmd_init
| B_cmd_setpage
| B_cmd_setbrightness
| B_cmd_dataprefix
| B_cmdbuffer
| B_ext (n : nat).

Definition block_eqb (a b : block) : bool :=
  match a, b with
  | B_cmd_init, B_cmd_init => true
  | B_cmd_setpage, B_cmd_setpage => true
  | B_cmd_setbrightness, B_cmd_setbrightness => true
  | B_cmd_dataprefix, B_cmd_dataprefix => true
  | B_cmdbuffer, B_cmdbuffer => true
  | B_ext n, B_ext k => Nat.eqb n k
  | _, _ => false
  end.

Inductive ptr : Type :=
| NULL
| Ptr (b : block) (off : Z).

Definition is_null (p : ptr) : bool :=
  match p with NULL => true | Ptr _ _ => false end.

(** [p + k] on a pointer to [uint8_t]. *)
Definition ptr_add (p : ptr) (k : Z) : ptr :=
  match p with NULL => NULL | Ptr b o => Ptr b (o + k) end.

(** Contents of every block, byte by byte.  The source checks no bound, and
    neither does the memory. *)
Definition mem : Type := block -> Z -> Z.

Definition load (m : mem) (p : ptr) : Z :=
  match p with NULL => 0 | Ptr b o => m b o end.

Definition store (m : mem) (p : ptr) (v : Z) : mem :=
  match p with
  | NULL => m
  | Ptr b o => fun b' o' => if block_eqb b b' && (o =? o') then v else m b' o'
  end.

(** Initial contents of the static arrays. *)
Definition _i2c_cmd_init : list Z :=
  [0x80; 0x8D; 0x80; 0x14; 0x80; 0xAF; 0x80; 0x81; 0x80; 0xFF; 0x80; 0xA7].
Definition _i2c_cmd_setpage : list Z := [0x80; 0x00; 0x80; 0x10; 0x80; 0xB0].
Definition _i2c_cmd_setbrightness : list Z := [0x80; 0x81; 0x80; 0xFF].
Definition _i2c_cmd_dataprefix : list Z := [0x40].

(** [OLED_ARR_SIZE(arr)] *)
Definition OLED_ARR_SIZE (arr : list Z) : Z := Z.of_nat (length arr).

Definition static_mem : mem :=
  fun b o =>
    if o <? 0 then 0 else
    match b with
    | B_cmd_init => nth (Z.to_nat o) _i2c_cmd_init 0
    | B_cmd_setpage => nth (Z.to_nat o) _i2c_cmd_setpage 0
    | B_cmd_setbrightness => nth (Z.to_nat o) _i2c_cmd_setbrightness 0
    | B_cmd_dataprefix => nth (Z.to_nat o) _i2c_cmd_dataprefix 0
    | _ => 0
    end.

(** ** The statics of the I2C engine *)

Inductive I2C_State_e : Type :=
| I2C_STATE_IDLE
| I2C_STATE_STOP
| I2C_STATE_SLAVEADDR
| I2C_STATE_WRITEPREFIX
| I2C_STATE_WRITEBYTE.

(** Values of [void ( * )(void * )]: the four callbacks of [oled.c], the null
    pointer a static starts with, and functions of the caller. *)
Inductive callback : Type :=
| Cbk_NULL
| Cbk_empty
| Cbk_unlock
| Cbk_writepage
| Cbk_setwritepage
| Cbk_extern (id : nat).

(** Values of the [void *] argument of a callback: null, the display, or a
    pointer of the caller. *)
Inductive cbk_arg : Type :=
| Arg_NULL
| Arg_oled
| Arg_extern (id : nat).

(** [i2c_prefix_count] is declared [static uint8_t *i2c_prefix_count;]: it
    holds the integer [prefix_len] converted to a pointer, [--] subtracts one
    from the address and [!] tests it against zero.  Its value is the
    address, an integer of [PTR_BITS] bits. *)
Record I2C : Type := mkI2C {
  i2c_devaddr : Z;
  i2c_prefix_ptr : ptr;
  i2c_prefix_count : Z;
  i2c_data_ptr : ptr;
  i2c_data_count : Z;
  i2c_is_fastfail : bool;
  i2c_callback : callback;
  i2c_callback_args : cbk_arg;
  i2c_state : I2C_State_e
}.

(** ** TWI registers ([avr/io.h]) *)

Definition TWINT : Z := 7.
Definition TWSTA : Z := 5.
Definition TWSTO : Z := 4.
Definition TWEN : Z := 2.
Definition TWIE : Z := 0.

Record TWI : Type := mkTWI {
  TWCR : Z;
  TWDR : Z;
  TWBR : Z;
  TWSR : Z
}.

(** ** The display ([struct OLED_s] of oled.h, by the fields [oled.c] uses) *)

Record OLED : Type := mkOLED {
  width : Z;
  height : Z;
  frame_buffer : ptr;
  busy_lock : Z;
  i2c_addr : Z;
  cur_page : Z;
  num_pages : Z
}.

(** ** What the bus sees *)

Inductive bus_event : Type :=
| BusStart
| BusByte (b : Z)
| BusStop.

Record machine : Type := mkMachine {
  i2c : I2C;
  twi : TWI;
  oled : OLED;
  memory : mem;
  wire : list bus_event
}.

Definition set_i2c (g : I2C) (m : machine) : machine :=
  mkMachine g (twi m) (oled m) (memory m) (wire m).
Definition set_twi (t : TWI) (m : machine) : machine :=
  mkMachine (i2c m) t (oled m) (memory m) (wire m).
Definition set_oled (o : OLED) (m : machine) : machine :=
  mkMachine (i2c m) (twi m) o (memory m) (wire m).
Definition set_memory (h : mem) (m : machine) : machine :=
  mkMachine (i2c m) (twi m) (oled m) h (wire m).
Definition emit (e : bus_event) (m : machine) : machine :=
  mkMachine (i2c m) (twi m) (oled m) (memory m) (wire m ++ [e]).

Definition set_TWCR (v : Z) (t : TWI) : TWI := mkTWI v (TWDR t) (TWBR t) (TWSR t).
Definition set_TWDR (v : Z) (t : TWI) : TWI := mkTWI (TWCR t) v (TWBR t) (TWSR t).

Definition set_state (s : I2C_State_e) (g : I2C) : I2C :=
  mkI2C (i2c_devaddr g) (i2c_prefix_ptr g) (i2c_prefix_count g)
        (i2c_data_ptr g) (i2c_data_count g) (i2c_is_fastfail g)
        (i2c_callback g) (i2c_callback_args g) s.

Definition set_cur_page (p : Z) (o : OLED) : OLED :=
  mkOLED (width o) (height o) (frame_buffer o) (busy_lock o) (i2c_addr o) p
         (num_pages o).
Definition set_busy_lock (l : Z) (o : OLED) : OLED :=
  mkOLED (width o) (height o) (frame_buffer o) l (i2c_addr o) (cur_page o)
         (num_pages o).

(** ** [OLED_i2c_tx_shed] *)

(** The body runs inside [ATOMIC_BLOCK]: one step of the machine.  Setting
    [TWSTA] puts a start condition on the bus. *)
Definition OLED_i2c_tx_shed (addr : Z) (prefix : ptr) (prefix_len : Z)
    (bytes : ptr) (bytes_len : Z) (end_cbk : callback) (cbk_args : cbk_arg)
    (fastfail : bool) (m : machine) : bool * machine :=
  match i2c_state (i2c m) with
  | I2C_STATE_IDLE =>
      let g := mkI2C (u8 (Z.shiftl addr 1)) prefix prefix_len bytes bytes_len
                     fastfail end_cbk cbk_args I2C_STATE_SLAVEADDR in
      let t := set_TWCR (Z.lor (TWCR (twi m))
                               (Z.lor (Z.shiftl 1 TWSTA) (Z.shiftl 1 TWINT)))
                        (twi m) in
      (true, emit BusStart (set_twi t (set_i2c g m)))
  | _ => (false, m)
  end.

(** ** [ISR(TWI_vect)] *)

(** The handler up to the call through [i2c_callback]: the new state and,
    when the handler calls back, the function and its argument. *)
Definition ISR_fsm (m : machine) : machine * option (callback * cbk_arg) :=
  let g := i2c m in
  let t := twi m in
  match i2c_state g with
  | I2C_STATE_IDLE
  | I2C_STATE_STOP =>
      let t' := set_TWCR (Z.lor (TWCR t)
                                (Z.lor (Z.shiftl 1 TWSTO) (Z.shiftl 1 TWINT))) t in
      (emit BusStop (set_twi t' (set_i2c (set_state I2C_STATE_IDLE g) m)),
       Some (i2c_callback g, i2c_callback_args g))
  | I2C_STATE_SLAVEADDR =>
      let t' := set_TWCR (u8 (Z.lor (Z.land (TWCR t) (Z.lnot (Z.shiftl 1 TWSTA)))
                                    (Z.shiftl 1 TWINT)))
                         (set_TWDR (i2c_devaddr g) t) in
      let s' := if is_null (i2c_prefix_ptr g) && is_null (i2c_data_ptr g)
                then I2C_STATE_STOP
                else if is_null (i2c_prefix_ptr g) then I2C_STATE_WRITEBYTE
                else I2C_STATE_WRITEPREFIX in
      (emit (BusByte (i2c_devaddr g)) (set_twi t' (set_i2c (set_state s' g) m)),
       None)
  | I2C_STATE_WRITEPREFIX =>
      let b := load (memory m) (i2c_prefix_ptr g) in
      let c := uptr (i2c_prefix_count g - 1) in
      let t' := set_TWCR (Z.lor (TWCR t) (Z.shiftl 1 TWINT)) (set_TWDR b t) in
      let s' := if c =? 0
                then (if is_null (i2c_data_ptr g) then I2C_STATE_STOP
                      else I2C_STATE_WRITEBYTE)
                else I2C_STATE_WRITEPREFIX in
      let g' := mkI2C (i2c_devaddr g) (ptr_add (i2c_prefix_ptr g) 1) c
                      (i2c_data_ptr g) (i2c_data_count g) (i2c_is_fastfail g)
                      (i2c_callback g) (i2c_callback_args g) s' in
      (emit (BusByte b) (set_twi t' (set_i2c g' m)), None)
  | I2C_STATE_WRITEBYTE =>
      let b := load (memory m) (i2c_data_ptr g) in
      let c := u16 (i2c_data_count g - 1) in
      let t' := set_TWCR (Z.lor (TWCR t) (Z.shiftl 1 TWINT)) (set_TWDR b t) in
      let s' := if c =? 0 then I2C_STATE_STOP else I2C_STATE_WRITEBYTE in
      let g' := mkI2C (i2c_devaddr g) (i2c_prefix_ptr g) (i2c_prefix_count g)
                      (ptr_add (i2c_data_ptr g) 1) c (i2c_is_fastfail g)
                      (i2c_callback g) (i2c_callback_args g) s' in
      (emit (BusByte b) (set_twi t' (set_i2c g' m)), None)
  end.

(** The handler [n] times over, without the bodies of the callbacks: the
    state and the calls made, in order. *)
Fixpoint fsm_events (n : nat) (m : machine)
  : machine * list (callback * cbk_arg) :=
  match n with
  | O => (m, [])
  | S k =>
      let (m1, f) := ISR_fsm m in
      let (m2, fs) := fsm_events k m1 in
      (m2, match f with Some c => c :: fs | None => fs end)
  end.

(** ** The busy lock *)

(** Modelled from the spec: [OLED_unlock], [OLED_trylock] and
    [OLED_spinlock] are defined in oled.h, which is not among the sources.
    The lock is the flag [busy_lock], nonzero when free ([__OLED_init] stores
    1 for unlocked); release restores the free value, the try-once acquire
    claims the flag if it is free and fails otherwise. *)
Definition OLED_unlock (m : machine) : machine :=
  set_oled (set_busy_lock 1 (oled m)) m.

Definition OLED_trylock (m : machine) : bool * machine :=
  if busy_lock (oled m) =? 0 then (false, m)
  else (true, set_oled (set_busy_lock 0 (oled m)) m).

(** ** Spinning on a rejected submission *)

(** [while (!attempt) {}] where nothing can change the state between two
    attempts: inside the handler, which runs with interrupts blocked
    ([ISR_BLOCK]).  A rejected attempt is rejected for ever: [None]. *)
Definition spin_in_isr (attempt : machine -> bool * machine) (m : machine)
  : option machine :=
  let (ok, m') := attempt m in if ok then Some m' else None.

(** ** The callbacks *)

Section Callbacks.

(** How [while (!OLED_i2c_tx_shed(...)) {}] proceeds depends on where the
    callback runs: in the handler or in the main program. *)
Variable spin : (machine -> bool * machine) -> machine -> option machine.

Definition OLED_cbk_empty (m : machine) : option machine := Some m.

Definition OLED_cbk_unlock (m : machine) : option machine :=
  Some (OLED_unlock m).

Definition OLED_cbk_writepage (m : machine) : option machine :=
  let o := oled m in
  if num_pages o <=? cur_page o then Some (OLED_unlock m)
  else
    let lineptr := ptr_add (frame_buffer o) (u16 (cur_page o * u16 (width o))) in
    let m1 := set_oled (set_cur_page (u8 (cur_page o + 1)) o) m in
    spin (OLED_i2c_tx_shed (i2c_addr o) (Ptr B_cmd_dataprefix 0)
            (OLED_ARR_SIZE _i2c_cmd_dataprefix) lineptr (width o)
            Cbk_setwritepage Arg_oled true) m1.

Definition OLED_cbk_setwritepage (m : machine) : option machine :=
  let o := oled m in
  let m1 := set_memory
              (store (memory m)
                     (Ptr B_cmd_setpage (OLED_ARR_SIZE _i2c_cmd_setpage - 1))
                     (u8 (Z.lor 0xB0 (cur_page o)))) m in
  spin (OLED_i2c_tx_shed (i2c_addr o) (Ptr B_cmd_setpage 0)
          (OLED_ARR_SIZE _i2c_cmd_setpage) NULL 0
          Cbk_writepage Arg_oled true) m1.

(** A call through a function pointer.  The callbacks of [oled.c] cast their
    argument to [OLED *]; a null function pointer and an argument that is
    not the display are outside the program's behaviour.  So is a function
    of the caller: its code is not part of [oled.c], and nothing is known of
    what it does or of whether it returns, so that an event that calls one
    has no result here.  What is said of events that have a result is
    therefore said of the callbacks of [oled.c]. *)
Definition call_cbk (cb : callback) (arg : cbk_arg) (m : machine)
  : option machine :=
  match cb, arg with
  | Cbk_NULL, _ => None
  | Cbk_empty, _ => OLED_cbk_empty m
  | Cbk_extern _, _ => None
  | Cbk_unlock, Arg_oled => OLED_cbk_unlock m
  | Cbk_writepage, Arg_oled => OLED_cbk_writepage m
  | Cbk_setwritepage, Arg_oled => OLED_cbk_setwritepage m
  | _, _ => None
  end.

End Callbacks.

(** The whole handler: one hardware event. *)
Definition ISR (m : machine) : option machine :=
  let (m', f) := ISR_fsm m in
  match f with
  | None => Some m'
  | Some (cb, arg) => call_cbk spin_in_isr cb arg m'
  end.

(** [n] hardware events in a row. *)
Fixpoint hw_events (n : nat) (m : machine) : option machine :=
  match n with
  | O => Some m
  | S k => match ISR m with Some m1 => hw_events k m1 | None => None end
  end.

(** ** The main program spinning *)

(** [while (!attempt) {}] in the main program: the attempt is rejected while
    a transaction is in flight, whose hardware events interrupt the loop.
    [fuel] bounds the number of events waited for. *)
Fixpoint spin_in_main (fuel : nat) (attempt : machine -> bool * machine)
    (m : machine) : option machine :=
  let (ok, m') := attempt m in
  if ok then Some m'
  else match fuel with
       | O => None
       | S k => match ISR m with
                | Some m1 => spin_in_main k attempt m1
                | None => None
                end
       end.

(** Modelled from the spec: [OLED_spinlock] of oled.h polls until the lock is
    free and claims it.  Between two polls only the handler runs, and only
    while a transaction is in flight: with the lock taken and the bus idle
    the loop never ends ([None]). *)
Fixpoint OLED_spinlock (fuel : nat) (m : machine) : option machine :=
  let (ok, m') := OLED_trylock m in
  if ok then Some m'
  else match fuel with
       | O => None
       | S k =>
           match i2c_state (i2c m) with
           | I2C_STATE_IDLE => None
           | _ => match ISR m with
                  | Some m1 => OLED_spinlock k m1
                  | None => None
                  end
           end
       end.

Definition OLED_cmd_setbrightness (fuel : nat) (level : Z) (m : machine)
  : option machine :=
  let m0 := set_memory
              (store (memory m)
                     (Ptr B_cmd_setbrightness
                          (OLED_ARR_SIZE _i2c_cmd_setbrightness - 1))
                     (u8 level)) m in
  match OLED_spinlock fuel m0 with
  | None => None
  | Some m1 =>
      spin_in_main fuel
        (OLED_i2c_tx_shed (i2c_addr (oled m1)) (Ptr B_cmd_setbrightness 0)
           (OLED_ARR_SIZE _i2c_cmd_setbrightness) NULL 0
           Cbk_unlock Arg_oled true) m1
  end.

Definition OLED_refresh (fuel : nat) (m : machine) : option machine :=
  match OLED_spinlock fuel m with
  | None => None
  | Some m1 =>
      let m2 := set_oled (set_cur_page 0 (oled m1)) m1 in
      OLED_cbk_setwritepage (spin_in_main fuel) m2
  end.

(** ** Initialisation *)

Inductive OLED_err : Type :=
| OLED_EOK
| OLED_EBOUNDS
| OLED_EPARAMS
| OLED_EBUSY.

(** [F_CPU] as oled_test.c defines it. *)
Definition F_CPU : Z := 16000000.

Definition u32 (z : Z) : Z := z mod 2 ^ 32.

(** [for (twps = 0; twps < 4; twps++) { if (twbr <= 255) break; twbr /= 4; }],
    [n] counting the iterations left. *)
Fixpoint twps_loop (n : nat) (twps twbr : Z) : Z * Z :=
  match n with
  | O => (twps, twbr)
  | S k => if twbr <=? 255 then (twps, twbr)
           else twps_loop k (twps + 1) (twbr / 4)
  end.

(** [hz_freq = 0] divides by zero in the source; [Z.div] gives 0 there. *)
Definition I2C_init (hz_freq : Z) (m : machine) : machine :=
  let twbr0 := u32 (F_CPU / u32 (2 * hz_freq) - 8) in
  let (twps, twbr) := twps_loop 4 0 twbr0 in
  let t := twi m in
  let t' := mkTWI (Z.lor (Z.shiftl 1 TWEN) (Z.shiftl 1 TWIE))
                  (TWDR t) (u8 twbr)
                  (Z.lor (Z.land (TWSR t) 0xFC) (Z.land twps 0x03)) in
  set_twi t' (set_i2c (set_state I2C_STATE_IDLE (i2c m)) m).

(** [__OLED_init], with the I2C part that [OLED_I2CWRAP] keeps when
    [OLED_NO_I2C] is not defined. *)
Definition __OLED_init (w h : Z) (fb : ptr) (i2c_freq_hz : Z) (addr : Z)
    (m : machine) : OLED_err * machine :=
  let o := mkOLED w h fb 1 addr 0 8 in
  let m1 := I2C_init i2c_freq_hz (set_oled o m) in
  let (ok, m2) := OLED_i2c_tx_shed (i2c_addr o) (Ptr B_cmd_init 0)
                    (OLED_ARR_SIZE _i2c_cmd_init) NULL 0
                    Cbk_empty Arg_NULL true m1 in
  if ok then (OLED_EOK, m2) else (OLED_EBUSY, m2).

(** The machine at reset: statics zero-initialised or as their initialisers
    say, the lock and the display not yet set up. *)
Definition reset_machine (h : mem) : machine :=
  mkMachine (mkI2C 0 NULL 0 NULL 0 false Cbk_NULL Arg_NULL I2C_STATE_IDLE)
            (mkTWI 0 0 0 0)
            (mkOLED 0 0 NULL 0 0 0 0)
            h [].

(** ** Drawing *)

Definition s16 (z : Z) : Z := (z + 32768) mod 65536 - 32768.

(** Modelled from the spec: [OLED_put_pixel_], the unchecked pixel store, is
    an inline function of oled.h, which is not among the sources.  The frame
    buffer is a bitmap of one bit per pixel in page-major layout, a page being
    a band of 8 pixel rows: the pixel [(x, y)] lives in byte
    [(y / 8) * width + x], at bit [y mod 8]. *)
Definition pixel_ptr (o : OLED) (x y : Z) : ptr :=
  ptr_add (frame_buffer o) ((y / 8) * width o + x).

Definition OLED_put_pixel_ (o : OLED) (x y : Z) (pixel_state : bool) (h : mem)
  : mem :=
  let p := pixel_ptr o x y in
  let mask := Z.shiftl 1 (y mod 8) in
  let b := load h p in
  store h p (u8 (if pixel_state then Z.lor b mask else Z.land b (Z.lnot mask))).

(** Modelled from the spec: reading a pixel's bit back, by the same layout. *)
Definition pixel_bit (o : OLED) (x y : Z) (h : mem) : bool :=
  Z.testbit (load h (pixel_ptr o x y)) (y mod 8).

Definition OLED_put_pixel (o : OLED) (x y : Z) (pixel_state : bool) (h : mem)
  : OLED_err * mem :=
  if (width o <=? x) || (height o <=? y) then (OLED_EBOUNDS, h)
  else (OLED_EOK, OLED_put_pixel_ o x y pixel_state h).

(** [for (uint8_t x = from; x <= to; x++) body], [to] an [int]: the counter
    wraps at 256, so the loop never ends when [to >= 255].  [fuel] bounds the
    iterations; [None] is a loop still running. *)
Fixpoint for_u8 (fuel : nat) (x to : Z) (body : Z -> mem -> option mem)
    (h : mem) : option mem :=
  match fuel with
  | O => None
  | S k =>
      if x <=? to then
        match body x h with
        | Some h1 => for_u8 k (u8 (x + 1)) to body h1
        | None => None
        end
      else Some h
  end.

Section Drawing.

(** [enum OLED_params] and [OLED_put_line] are declared in oled.h and not
    defined in the sources: the two flags and the line drawer are taken as
    they come. *)
Variable OLED_BLACK OLED_FILL : Z.
Variable OLED_put_line : OLED -> Z -> Z -> Z -> Z -> Z -> mem -> mem.

Definition params_max : Z := Z.lor OLED_BLACK OLED_FILL.

(** The limiting of the four coordinates, shared by the two rectangle
    functions: the coordinates after it and [size_errors]. *)
Definition limit_coords (o : OLED) (x_from y_from x_to y_to : Z)
  : Z * Z * Z * Z * Z :=
  let size_errors := 0 in
  let w_max := u8 (width o - 1) in
  let h_max := u8 (height o - 1) in
  let '(x_from, size_errors) :=
    if w_max <? x_from then (w_max, u8 (size_errors + 1))
    else (x_from, size_errors) in
  let '(x_to, size_errors) :=
    if w_max <? x_to then (w_max, u8 (size_errors + 1))
    else (x_to, size_errors) in
  let '(y_from, size_errors) :=
    if h_max <? y_from then (h_max, u8 (size_errors + 1))
    else (y_from, size_errors) in
  let '(y_to, size_errors) :=
    if h_max <? y_to then (h_max, u8 (size_errors + 1))
    else (y_to, size_errors) in
  (x_from, y_from, x_to, y_to, size_errors).

Definition OLED_put_rectangle (fuel : nat) (o : OLED)
    (x_from y_from x_to y_to : Z) (params : Z) (h : mem)
  : option (OLED_err * mem) :=
  if params_max <? params then Some (OLED_EPARAMS, h)
  else
    let pixel_color := negb (Z.land OLED_BLACK params =? 0) in
    let is_fill := negb (Z.land OLED_FILL params =? 0) in
    let '(x_from, y_from, x_to, y_to, size_errors) :=
      limit_coords o x_from y_from x_to y_to in
    if 4 <=? size_errors then Some (OLED_EBOUNDS, h)
    else
      let start_x := if x_to <? x_from then x_to else x_from in
      let start_y := if y_to <? y_from then y_to else y_from in
      let stop_x := if x_from <? x_to then x_to else x_from in
      let stop_y := if y_from <? y_to then y_to else y_from in
      let drawn :=
        if is_fill then
          for_u8 fuel start_x stop_x
            (fun x =>
               for_u8 fuel start_y stop_y
                 (fun y h => Some (OLED_put_pixel_ o x y pixel_color h)))
            h
        else
          match
            for_u8 fuel start_x stop_x
              (fun x h =>
                 Some (OLED_put_pixel_ o x stop_y pixel_color
                         (OLED_put_pixel_ o x start_y pixel_color h)))
              h
          with
          | None => None
          | Some h1 =>
              for_u8 fuel start_y stop_y
                (fun y h =>
                   Some (OLED_put_pixel_ o stop_x y pixel_color
                           (OLED_put_pixel_ o start_x y pixel_color h)))
                h1
          end in
      match drawn with
      | Some h' => Some (OLED_EOK, h')
      | None => None
      end.

(** The [while (x < y)] loop of [drawCircleHelper]; the locals are
    [int16_t]. *)
Fixpoint drawCircle_loop (fuel : nat) (o : OLED) (x0 y0 : Z)
    (cornername : Z) (pixel_color : bool) (f ddF_x ddF_y x y : Z) (h : mem)
  : option mem :=
  match fuel with
  | O => None
  | S k =>
      if x <? y then
        let '(y, ddF_y, f) :=
          if 0 <=? f
          then (s16 (y - 1), s16 (ddF_y + 2), s16 (f + s16 (ddF_y + 2)))
          else (y, ddF_y, f) in
        let x := s16 (x + 1) in
        let ddF_x := s16 (ddF_x + 2) in
        let f := s16 (f + ddF_x) in
        let put a b h := OLED_put_pixel_ o (u8 a) (u8 b) pixel_color h in
        let h := if Z.land cornername 0x4 =? 0 then h
                 else put (x0 + y) (y0 + x) (put (x0 + x) (y0 + y) h) in
        let h := if Z.land cornername 0x2 =? 0 then h
                 else put (x0 + y) (y0 - x) (put (x0 + x) (y0 - y) h) in
        let h := if Z.land cornername 0x8 =? 0 then h
                 else put (x0 - x) (y0 + y) (put (x0 - y) (y0 + x) h) in
        let h := if Z.land cornername 0x1 =? 0 then h
                 else put (x0 - x) (y0 - y) (put (x0 - y) (y0 - x) h) in
        drawCircle_loop k o x0 y0 cornername pixel_color f ddF_x ddF_y x y h
      else Some h
  end.

Definition drawCircleHelper (fuel : nat) (o : OLED) (x0 y0 r : Z)
    (cornername : Z) (params : Z) (h : mem) : option (OLED_err * mem) :=
  if params_max <? params then Some (OLED_EPARAMS, h)
  else
    let pixel_color := negb (Z.land OLED_BLACK params =? 0) in
    match drawCircle_loop fuel o x0 y0 cornername pixel_color
            (s16 (1 - r)) 1 (s16 (-2 * r)) 0 r h with
    | Some h' => Some (OLED_EOK, h')
    | None => None
    end.

(** The [while (x < y)] loop of [fillCircleHelper]. *)
Fixpoint fillCircle_loop (fuel : nat) (o : OLED) (x0 y0 : Z)
    (cornername : Z) (delta : Z) (params : Z) (f ddF_x ddF_y x y : Z)
    (h : mem) : option mem :=
  match fuel with
  | O => None
  | S k =>
      if x <? y then
        let '(y, ddF_y, f) :=
          if 0 <=? f
          then (s16 (y - 1), s16 (ddF_y + 2), s16 (f + s16 (ddF_y + 2)))
          else (y, ddF_y, f) in
        let x := s16 (x + 1) in
        let ddF_x := s16 (ddF_x + 2) in
        let f := s16 (f + ddF_x) in
        let line a b c d h :=
          OLED_put_line o a b c d (Z.lor OLED_FILL params) h in
        let h := if Z.land cornername 0x1 =? 0 then h
                 else line (x0 + y) (y0 - x) (x0 + y)
                           (y0 - x + (2 * x + 1 + delta) - 1)
                        (line (x0 + x) (y0 - y) (x0 + x)
                              (y0 - y + (2 * y + 1 + delta) - 1) h) in
        let h := if Z.land cornername 0x2 =? 0 then h
                 else line (x0 - y) (y0 - x) (x0 - y)
                           (y0 - x + (2 * x + 1 + delta) - 1)
                        (line (x0 - x) (y0 - y) (x0 - x)
                              (y0 - y + (2 * y + 1 + delta) - 1) h) in
        fillCircle_loop k o x0 y0 cornername delta params f ddF_x ddF_y x y h
      else Some h
  end.

Definition fillCircleHelper (fuel : nat) (o : OLED) (x0 y0 r : Z)
    (cornername : Z) (delta : Z) (params : Z) (h : mem)
  : option (OLED_err * mem) :=
  if params_max <? params then Some (OLED_EPARAMS, h)
  else
    match fillCircle_loop fuel o x0 y0 cornername delta params
            (s16 (1 - r)) 1 (s16 (-2 * r)) 0 r h with
    | Some h' => Some (OLED_EOK, h')
    | None => None
    end.

(** The memory a helper leaves, whatever it returns. *)
Definition after (r : option (OLED_err * mem)) : option mem :=
  match r with Some (_, h) => Some h | None => None end.

Definition bind (a : option mem) (k : mem -> option mem) : option mem :=
  match a with Some h => k h | None => None end.

Definition bool_param (b : bool) : Z := if b then 1 else 0.

Definition OLED_put_roundRect (fuel : nat) (o : OLED)
    (x_from y_from x_to y_to r : Z) (params : Z) (h : mem)
  : option (OLED_err * mem) :=
  if params_max <? params then Some (OLED_EPARAMS, h)
  else
    let pixel_color := negb (Z.land OLED_BLACK params =? 0) in
    let is_fill := negb (Z.land OLED_FILL params =? 0) in
    let '(x_from, y_from, x_to, y_to, size_errors) :=
      limit_coords o x_from y_from x_to y_to in
    if 4 <=? size_errors then Some (OLED_EBOUNDS, h)
    else
      let start_x := x_from in
      let start_y := y_from in
      let stop_x := x_to in
      let stop_y := y_to in
      let color := bool_param pixel_color in
      let drawn :=
        if is_fill then
          bind (for_u8 fuel (u8 (start_x + r)) (stop_x + r)
                  (fun x =>
                     for_u8 fuel start_y (stop_y + 2 * r)
                       (fun y h => Some (OLED_put_pixel_ o x y pixel_color h)))
                  h)
            (fun h1 =>
          bind (after (fillCircleHelper fuel o
                         (s16 (start_x + stop_x - r - 1)) (s16 (start_y + r))
                         r 1 (s16 (stop_y - 2 * r - 1)) color h1))
            (fun h2 =>
          after (fillCircleHelper fuel o
                   (s16 (start_x + r)) (s16 (start_y + r))
                   r 2 (s16 (stop_y - 2 * r - 1)) color h2)))
        else
          bind (for_u8 fuel start_x stop_x
                  (fun x h =>
                     Some (OLED_put_pixel_ o (u8 (x + r)) (u8 (stop_y + r * 2))
                             pixel_color
                             (OLED_put_pixel_ o (u8 (x + r)) start_y
                                pixel_color h)))
                  h)
            (fun h1 =>
          bind (for_u8 fuel start_y stop_y
                  (fun y h =>
                     Some (OLED_put_pixel_ o (u8 (stop_x + 2 * r)) (u8 (y + r))
                             pixel_color
                             (OLED_put_pixel_ o start_x (u8 (y + r))
                                pixel_color h)))
                  h1)
            (fun h2 =>
          bind (after (drawCircleHelper fuel o
                         (s16 (x_from + r)) (s16 (start_y + r)) r 1 color h2))
            (fun h3 =>
          bind (after (drawCircleHelper fuel o
                         (s16 (start_x + stop_x - r - 1)) (s16 (start_y + r))
                         r 2 color h3))
            (fun h4 =>
          bind (after (drawCircleHelper fuel o
                         (s16 (start_x + stop_x - r - 1))
                         (s16 (start_y + stop_y - r - 1)) r 4 color h4))
            (fun h5 =>
          after (drawCircleHelper fuel o
                   (s16 (start_x + r)) (s16 (start_y + stop_y - r - 1))
                   r 8 color h5)))))) in
      match drawn with
      | Some h' => Some (OLED_EOK, h')
      | None => None
      end.

End Drawing.

(** ** Concrete machines *)

(** A 128 x 64 display at address 0x3C over an all-zero caller-owned buffer,
    as oled_test.c sets it up. *)
Definition demo_fb : ptr := Ptr (B_ext 0) 0.

Definition demo_init : OLED_err * machine :=
  __OLED_init 128 64 demo_fb 200000 0x3C (reset_machine static_mem).

(** The bus right after initialisation: the bring-up sequence is in
    flight. *)
Definition demo_busy : machine := snd demo_init.

(** A data-only transaction on an idle bus, after its address event: the
    handler is in WriteByte. *)
Definition demo_data : machine :=
  fst (ISR_fsm (snd (OLED_i2c_tx_shed 0x3C NULL 0 demo_fb 3 Cbk_empty Arg_NULL
                       true (reset_machine static_mem)))).

(** ** The transitions as the specification words them *)

Definition after_slaveaddr (g : I2C) : I2C_State_e :=
  if is_null (i2c_prefix_ptr g) && is_null (i2c_data_ptr g) then I2C_STATE_STOP
  else if is_null (i2c_prefix_ptr g) then I2C_STATE_WRITEBYTE
  else I2C_STATE_WRITEPREFIX.

Definition after_prefix (c : Z) (g : I2C) : I2C_State_e :=
  if c =? 0
  then (if is_null (i2c_data_ptr g) then I2C_STATE_STOP else I2C_STATE_WRITEBYTE)
  else I2C_STATE_WRITEPREFIX.

Definition after_byte (c : Z) : I2C_State_e :=
  if c =? 0 then I2C_STATE_STOP else I2C_STATE_WRITEBYTE.


(** The bytes a pointer designates, as the bus sees them. *)
Definition bytes_at (h : mem) (p : ptr) (n : nat) : list bus_event :=
  map (fun i => BusByte (load h (ptr_add p (Z.of_nat i)))) (seq 0 n).

(** A length that fits its pointer: no byte behind a null pointer, at least
    one and fewer than [bound] behind another. *)
Definition well_sized (p : ptr) (n bound : Z) : Prop :=
  if is_null p then n = 0 else 1 <= n < bound.

(** The number of bytes the handler sends from a pointer submitted with
    length [n]: none from a null pointer; otherwise it decrements before it
    tests, so that a count of zero wraps around the 16 bits of its
    variable. *)
Definition sent_count (p : ptr) (n : Z) : Z :=
  if is_null p then 0 else if n =? 0 then 65536 else n.

(** ** What the bus sees of a refresh *)

(** The select-page transaction for page [p], from start to stop. *)
Definition select_page_frame (dev : Z) (p : Z) : list bus_event :=
  [BusStart; BusByte dev; BusByte 0x80; BusByte 0x00; BusByte 0x80;
   BusByte 0x10; BusByte 0x80; BusByte (u8 (Z.lor 0xB0 p)); BusStop].

(** The transfer of page [p]: the data-mode prefix and [w] bytes of the
    buffer [fb], from [p * w] on. *)
Definition page_data_frame (dev : Z) (h : mem) (fb : ptr) (w : Z) (p : Z)
  : list bus_event :=
  BusStart :: BusByte dev :: BusByte 0x40
    :: bytes_at h (ptr_add fb (p * w)) (Z.to_nat w) ++ [BusStop].

(** Pages [0 .. n-1], each selected and then transferred. *)
Definition pages_frames (dev : Z) (h : mem) (fb : ptr) (w : Z) (n : nat)
  : list bus_event :=
  flat_map (fun i => select_page_frame dev (Z.of_nat i)
                     ++ page_data_frame dev h fb w (Z.of_nat i))
           (seq 0 n).

(** The static command arrays hold their initialisers, the last byte of the
    select-page command apart, which is patched before every use. *)
Definition statics_intact (h : mem) : Prop :=
  h B_cmd_setpage 0 = 0x80 /\ h B_cmd_setpage 1 = 0x00
  /\ h B_cmd_setpage 2 = 0x80 /\ h B_cmd_setpage 3 = 0x10
  /\ h B_cmd_setpage 4 = 0x80 /\ h B_cmd_dataprefix 0 = 0x40.

(** The machine right after [OLED_cbk_setwritepage] has submitted the
    select-page command for page [p] of a refresh of the display [o0] (lock
    taken) over the memory [h0]. *)
Definition at_page (o0 : OLED) (h0 : mem) (p : Z) (m : machine) : Prop :=
  i2c m = mkI2C (u8 (Z.shiftl (i2c_addr o0) 1)) (Ptr B_cmd_setpage 0) 6 NULL 0
                true Cbk_writepage Arg_oled I2C_STATE_SLAVEADDR
  /\ oled m = set_cur_page p (set_busy_lock 0 o0)
  /\ memory m B_cmd_setpage 5 = u8 (Z.lor 0xB0 p)
  /\ (forall b o, (b, o) <> (B_cmd_setpage, 5) -> memory m b o = h0 b o).

(** The lock is held after each of the first [n] hardware events. *)
Definition held_through (n : nat) (m : machine) : Prop :=
  forall j, (j <= n)%nat ->
    exists mj, hw_events j m = Some mj /\ busy_lock (oled mj) = 0.

(** The demo display once the bring-up sequence has gone out (14 events):
    bus idle, lock free. *)
Definition demo_idle : machine :=
  match hw_events 14 demo_busy with Some m => m | None => demo_busy end.

(** The same with the lock already taken by the caller. *)
Definition demo_locked : machine :=
  set_oled (set_busy_lock 0 (oled demo_idle)) demo_idle.

(** A display of 128 x 32 pixels, initialised like the demo display. *)
Definition demo_init_32 : OLED_err * machine :=
  __OLED_init 128 32 demo_fb 200000 0x3C (reset_machine static_mem).

(** ** Concrete drawing *)

(** A display of 16 x 16 pixels over the caller's block 0, and the flag
    values [OLED_BLACK = 1], [OLED_FILL = 2]. *)
Definition small_oled : OLED := mkOLED 16 16 (Ptr (B_ext 0) 0) 1 0x3C 0 8.

(** A line drawer that draws nothing, to stand for [OLED_put_line] where its
    result does not matter. *)
Definition no_line : OLED -> Z -> Z -> Z -> Z -> Z -> mem -> mem :=
  fun _ _ _ _ _ _ h => h.

(** The number of the four coordinates that lie outside the display. *)
Definition out_of_range (o : OLED) (x_from y_from x_to y_to : Z) : Z :=
  (if width o <=? x_from then 1 else 0) + (if width o <=? x_to then 1 else 0)
  + (if height o <=? y_from then 1 else 0) + (if height o <=? y_to then 1 else 0).

(** What a drawn rectangle looks like: with the fill flag every pixel of the
    area has the colour, without it the pixels of the four sides have. *)
Definition rect_painted (o : OLED) (sx ex sy ey : Z) (fill c : bool) (h : mem)
  : Prop :=
  if fill then
    forall x y, sx <= x <= ex -> sy <= y <= ey -> pixel_bit o x y h = c
  else
    (forall x, sx <= x <= ex ->
       pixel_bit o x sy h = c /\ pixel_bit o x ey h = c)
    /\ (forall y, sy <= y <= ey ->
          pixel_bit o sx y h = c /\ pixel_bit o ex y h = c).

(** * Further definitions *)

(** The lock is held and a transaction is in flight after each of the first
    [n] hardware events. *)
Definition busy_through (n : nat) (m : machine) : Prop :=
  forall j, (j <= n)%nat ->
    exists mj, hw_events j m = Some mj
               /\ busy_lock (oled mj) = 0
               /\ i2c_state (i2c mj) <> I2C_STATE_IDLE.

(** The brightness command with its last byte patched to [level], from start
    to stop. *)
Definition brightness_frame (dev : Z) (level : Z) : list bus_event :=
  [BusStart; BusByte dev; BusByte 0x80; BusByte 0x81; BusByte 0x80;
   BusByte (u8 level); BusStop].

(** The bring-up sequence, from start to stop. *)
Definition init_frame (dev : Z) : list bus_event :=
  BusStart :: BusByte dev :: map BusByte _i2c_cmd_init ++ [BusStop].

(** The first three bytes of the brightness command hold their
    initialisers. *)
Definition brightness_intact (h : mem) : Prop :=
  h B_cmd_setbrightness 0 = 0x80 /\ h B_cmd_setbrightness 1 = 0x81
  /\ h B_cmd_setbrightness 2 = 0x80.

(** The bring-up sequence holds its initialisers. *)
Definition init_intact (h : mem) : Prop :=
  bytes_at h (Ptr B_cmd_init 0) 12 = map BusByte _i2c_cmd_init.

(** A transaction of the refresh chain is in flight: the handler is not
    idle and will call back one of the two chained callbacks on the
    display. *)
Definition in_chain (m : machine) : Prop :=
  i2c_state (i2c m) <> I2C_STATE_IDLE
  /\ (i2c_callback (i2c m) = Cbk_writepage
      \/ i2c_callback (i2c m) = Cbk_setwritepage)
  /\ i2c_callback_args (i2c m) = Arg_oled.

(** The pixels a rectangle call paints between its corners [(sx, sy)] and
    [(ex, ey)]: all of the area with the fill flag, its four sides
    without. *)
Definition on_rect (sx ex sy ey : Z) (fill : bool) (x y : Z) : Prop :=
  sx <= x <= ex /\ sy <= y <= ey
  /\ (fill = true \/ x = sx \/ x = ex \/ y = sy \/ y = ey).

(** The bytes of the frame buffer of a display: [width * ceil (height / 8)]
    bytes from the buffer pointer on. *)
Definition in_frame_buffer (o : OLED) (b : block) (off : Z) : Prop :=
  exists b0 off0,
    frame_buffer o = Ptr b0 off0 /\ b = b0
    /\ off0 <= off < off0 + width o * ((height o + 7) / 8).

(** Two memories that differ in the frame buffer of [o] at most. *)
Definition same_outside (o : OLED) (h h' : mem) : Prop :=
  forall b off, ~ in_frame_buffer o b off -> h' b off = h b off.

(** Two memories in which the pixels of the display [o] off a given set have
    the same bits. *)
Definition same_pixels_off (o : OLED) (S : Z -> Z -> Prop) (h h' : mem) : Prop :=
  forall x y, 0 <= x < width o -> 0 <= y -> ~ S x y ->
              pixel_bit o x y h' = pixel_bit o x y h.

(** Every cell of the memory holds a byte. *)
Definition bytes_only (h : mem) : Prop :=
  forall b off, 0 <= h b off < 256.

(** The transfer of a page whose [w] bytes all have the value [v]. *)
Definition solid_page_frame (dev : Z) (w : Z) (v : Z) : list bus_event :=
  BusStart :: BusByte dev :: BusByte 0x40
    :: repeat (BusByte v) (Z.to_nat w) ++ [BusStop].

(** Pages [0 .. n-1] of such a frame buffer, each selected and then
    transferred. *)
Definition solid_frames (dev : Z) (w : Z) (v : Z) (n : nat) : list bus_event :=
  flat_map (fun i => select_page_frame dev (Z.of_nat i)
                     ++ solid_page_frame dev w v)
           (seq 0 n).

(** The callbacks [oled.c] itself submits.  [OLED_cbk_empty] ignores its
    argument; the other three are given the display. *)
Definition own_callback (cb : callback) (arg : cbk_arg) : Prop :=
  cb = Cbk_empty
  \/ ((cb = Cbk_unlock \/ cb = Cbk_writepage \/ cb = Cbk_setwritepage)
      /\ arg = Arg_oled).

(** A sequence in flight holds the lock and releases it at its [k]-th event:
    after each of the events before it the lock is held and the bus busy;
    after the [k]-th the lock is free.  With [k = 0] the lock is free as it
    is. *)
Definition lock_released_after (k : nat) (m ma : machine) : Prop :=
  (forall j, (j < k)%nat ->
     exists mj, hw_events j m = Some mj
                /\ busy_lock (oled mj) = 0
                /\ i2c_state (i2c mj) <> I2C_STATE_IDLE)
  /\ hw_events k m = Some ma
  /\ busy_lock (oled ma) <> 0.

(** The machine as [OLED_refresh] has it once the lock is its own, before
    its first submission: lock taken, page cursor at 0, page 0 patched into
    the select-page command. *)
Definition refresh_entered (m : machine) : machine :=
  let m1 := set_oled (set_busy_lock 0 (oled m)) m in
  let m2 := set_oled (set_cur_page 0 (oled m1)) m1 in
  set_memory (store (memory m2)
                    (Ptr B_cmd_setpage (OLED_ARR_SIZE _i2c_cmd_setpage - 1))
                    (u8 (Z.lor 0xB0 (cur_page (oled m2))))) m2.

(** The bus is busy for [k] more events with a transaction that is none of
    a lock holder's: after each of the events before the [k]-th the bus is
    busy, after the [k]-th it is idle, and the display and the memory are as
    they were.  With [k = 0] the bus is idle as it is. *)
Definition bus_idle_after (k : nat) (m mc : machine) : Prop :=
  (forall j, (j < k)%nat ->
     exists mj, hw_events j m = Some mj
                /\ i2c_state (i2c mj) <> I2C_STATE_IDLE)
  /\ hw_events k m = Some mc
  /\ i2c_state (i2c mc) = I2C_STATE_IDLE
  /\ oled mc = oled m /\ memory mc = memory m.

(** The demo display with a brightness change under way: the command has
    been submitted, the lock is held. *)
Definition demo_dimming : machine :=
  match OLED_cmd_setbrightness 0 128 demo_idle with
  | Some m => m
  | None => demo_idle
  end.

(** The same once the six events of the brightness command have passed: the
    lock is free again. *)
Definition demo_dimmed : machine :=
  match hw_events 6 demo_dimming with
  | Some m => m
  | None => demo_dimming
  end.

(** The demo display with a refresh under way: the select-page command of
    page 0 has gone out but for its stop condition, and [OLED_cbk_writepage]
    is the callback to come. *)
Definition demo_page_selected : machine :=
  match OLED_refresh 0 demo_idle with
  | Some m1 => match hw_events 7 m1 with Some m => m | None => m1 end
  | None => demo_idle
  end.

(** * Properties *)

Arguments u8 : simpl never.
Arguments u16 : simpl never.
Arguments uptr : simpl never.
Arguments Z.shiftl : simpl never.
Arguments Z.lor : simpl never.
Arguments Z.land : simpl never.

(** ** Pointers and memory *)

Lemma block_eqb_refl : forall b, block_eqb b b = true.
Proof. destruct b; simpl; auto using Nat.eqb_refl. Qed.

Lemma block_eqb_eq : forall a b, block_eqb a b = true <-> a = b.
Proof.
  intros a b; split.
  - destruct a, b; simpl; intro H; try discriminate; auto.
    apply Nat.eqb_eq in H; congruence.
  - intros ->; apply block_eqb_refl.
Qed.

Lemma ptr_add_0 : forall p, ptr_add p 0 = p.
Proof. destruct p; simpl; auto. now rewrite Z.add_0_r. Qed.

Lemma ptr_add_add : forall p a b, ptr_add (ptr_add p a) b = ptr_add p (a + b).
Proof. destruct p; simpl; intros; auto. now rewrite Z.add_assoc. Qed.

Lemma is_null_ptr_add : forall p k, is_null (ptr_add p k) = is_null p.
Proof. destruct p; reflexivity. Qed.

Lemma load_store_same : forall h b o v, load (store h (Ptr b o) v) (Ptr b o) = v.
Proof. intros; simpl. now rewrite block_eqb_refl, Z.eqb_refl. Qed.

Lemma load_store_other : forall h b o v b' o',
  (b, o) <> (b', o') -> load (store h (Ptr b o) v) (Ptr b' o') = load h (Ptr b' o').
Proof.
  intros h b o v b' o' H; simpl.
  destruct (block_eqb b b') eqn:Eb; simpl; auto.
  destruct (Z.eqb_spec o o'); auto.
  apply block_eqb_eq in Eb. congruence.
Qed.

(** ** The submission ([OLED_i2c_tx_shed]) *)

(** C3.  While the bus state is not Idle a submission returns false and
    leaves the whole machine, hence every field of the request in flight,
    as it was.  While the bus state is Idle it stores the supplied fields in
    the statics (the address shifted left by one), sets the bus state to
    SlaveAddress, sets TWSTA and TWINT in TWCR, which starts the exchange,
    and returns true; the display and the memory are not touched. *)
Theorem OLED_i2c_tx_shed_spec :
  forall addr prefix prefix_len bytes bytes_len end_cbk cbk_args fastfail m,
    (i2c_state (i2c m) <> I2C_STATE_IDLE ->
     OLED_i2c_tx_shed addr prefix prefix_len bytes bytes_len end_cbk cbk_args
       fastfail m = (false, m))
    /\
    (i2c_state (i2c m) = I2C_STATE_IDLE ->
     exists m',
       OLED_i2c_tx_shed addr prefix prefix_len bytes bytes_len end_cbk cbk_args
         fastfail m = (true, m')
       /\ i2c m' = mkI2C (u8 (Z.shiftl addr 1)) prefix prefix_len bytes
                         bytes_len fastfail end_cbk cbk_args
                         I2C_STATE_SLAVEADDR
       /\ TWCR (twi m') = Z.lor (TWCR (twi m)) 0xA0
       /\ TWDR (twi m') = TWDR (twi m)
       /\ wire m' = wire m ++ [BusStart]
       /\ oled m' = oled m
       /\ memory m' = memory m).
Proof.
  intros. unfold OLED_i2c_tx_shed. split; intro H.
  - destruct (i2c_state (i2c m)); congruence.
  - rewrite H. eexists. split; [reflexivity|]. simpl. repeat split.
Qed.

Lemma OLED_i2c_tx_shed_spec_witness :
  OLED_i2c_tx_shed 0x3C (Ptr B_cmd_setpage 0) 6 NULL 0 Cbk_writepage Arg_oled
    true demo_busy = (false, demo_busy)
  /\ exists m',
       OLED_i2c_tx_shed 0x3C (Ptr B_cmd_setpage 0) 6 NULL 0 Cbk_writepage
         Arg_oled true (reset_machine static_mem) = (true, m')
       /\ i2c m' = mkI2C (u8 (Z.shiftl 0x3C 1)) (Ptr B_cmd_setpage 0) 6 NULL 0
                         true Cbk_writepage Arg_oled I2C_STATE_SLAVEADDR.
Proof.
  split.
  - apply (proj1 (OLED_i2c_tx_shed_spec 0x3C (Ptr B_cmd_setpage 0) 6 NULL 0
                    Cbk_writepage Arg_oled true demo_busy)).
    vm_compute. discriminate.
  - destruct (proj2 (OLED_i2c_tx_shed_spec 0x3C (Ptr B_cmd_setpage 0) 6 NULL 0
                       Cbk_writepage Arg_oled true (reset_machine static_mem))
                eq_refl) as (m' & E & G & _).
    exists m'. split; assumption.
Defined.

(** ** The handler, state by state *)

Lemma ISR_fsm_stop : forall m,
  i2c_state (i2c m) = I2C_STATE_STOP \/ i2c_state (i2c m) = I2C_STATE_IDLE ->
  ISR_fsm m =
    (emit BusStop
       (set_twi (set_TWCR (Z.lor (TWCR (twi m))
                                 (Z.lor (Z.shiftl 1 TWSTO) (Z.shiftl 1 TWINT)))
                          (twi m))
          (set_i2c (set_state I2C_STATE_IDLE (i2c m)) m)),
     Some (i2c_callback (i2c m), i2c_callback_args (i2c m))).
Proof. intros m [H|H]; unfold ISR_fsm; rewrite H; reflexivity. Qed.

(** C4.  One invocation of the handler.  In SlaveAddress it writes the
    address byte and moves to Stop when prefix and data are both absent, to
    WriteByte when only the prefix is absent, to WritePrefix otherwise.  In
    WritePrefix it writes the byte the prefix pointer designates, advances
    the pointer, decrements the remaining prefix count and, when the count
    has reached zero, moves to WriteByte if data is present and to Stop if
    not.  In WriteByte it writes the byte the data pointer designates,
    advances the pointer, decrements the remaining data count and moves to
    Stop when the count has reached zero.  None of the three calls back, and
    none touches the other fields of the request, the display or the
    memory. *)
Theorem ISR_transition :
  forall m,
    let g := i2c m in
    let m' := fst (ISR_fsm m) in
    let g' := i2c m' in
    (i2c_state g = I2C_STATE_SLAVEADDR ->
       ISR m = Some m' /\ snd (ISR_fsm m) = None
       /\ TWDR (twi m') = i2c_devaddr g
       /\ wire m' = wire m ++ [BusByte (i2c_devaddr g)]
       /\ g' = set_state (after_slaveaddr g) g
       /\ oled m' = oled m /\ memory m' = memory m)
    /\
    (i2c_state g = I2C_STATE_WRITEPREFIX ->
       ISR m = Some m' /\ snd (ISR_fsm m) = None
       /\ TWDR (twi m') = load (memory m) (i2c_prefix_ptr g)
       /\ wire m' = wire m ++ [BusByte (load (memory m) (i2c_prefix_ptr g))]
       /\ i2c_prefix_ptr g' = ptr_add (i2c_prefix_ptr g) 1
       /\ i2c_prefix_count g' = uptr (i2c_prefix_count g - 1)
       /\ i2c_state g' = after_prefix (i2c_prefix_count g') g
       /\ i2c_data_ptr g' = i2c_data_ptr g
       /\ i2c_data_count g' = i2c_data_count g
       /\ i2c_devaddr g' = i2c_devaddr g
       /\ i2c_is_fastfail g' = i2c_is_fastfail g
       /\ i2c_callback g' = i2c_callback g
       /\ i2c_callback_args g' = i2c_callback_args g
       /\ oled m' = oled m /\ memory m' = memory m)
    /\
    (i2c_state g = I2C_STATE_WRITEBYTE ->
       ISR m = Some m' /\ snd (ISR_fsm m) = None
       /\ TWDR (twi m') = load (memory m) (i2c_data_ptr g)
       /\ wire m' = wire m ++ [BusByte (load (memory m) (i2c_data_ptr g))]
       /\ i2c_data_ptr g' = ptr_add (i2c_data_ptr g) 1
       /\ i2c_data_count g' = u16 (i2c_data_count g - 1)
       /\ i2c_state g' = after_byte (i2c_data_count g')
       /\ i2c_prefix_ptr g' = i2c_prefix_ptr g
       /\ i2c_prefix_count g' = i2c_prefix_count g
       /\ i2c_devaddr g' = i2c_devaddr g
       /\ i2c_is_fastfail g' = i2c_is_fastfail g
       /\ i2c_callback g' = i2c_callback g
       /\ i2c_callback_args g' = i2c_callback_args g
       /\ oled m' = oled m /\ memory m' = memory m).
Proof.
  intros m g m' g'. subst g g' m'.
  repeat split; unfold ISR, ISR_fsm; rewrite H; reflexivity.
Qed.

Lemma ISR_transition_witness :
  i2c_state (i2c (fst (ISR_fsm demo_busy))) = I2C_STATE_WRITEPREFIX
  /\ i2c_prefix_count (i2c (fst (ISR_fsm (fst (ISR_fsm demo_busy))))) = 11
  /\ i2c_data_count (i2c (fst (ISR_fsm demo_data))) = 2.
Proof.
  split; [|split].
  - destruct (proj1 (ISR_transition demo_busy) eq_refl)
      as (_ & _ & _ & _ & G & _).
    rewrite G. reflexivity.
  - destruct (proj1 (proj2 (ISR_transition (fst (ISR_fsm demo_busy)))) eq_refl)
      as (_ & _ & _ & _ & _ & G & _).
    rewrite G. reflexivity.
  - destruct (proj2 (proj2 (ISR_transition demo_data)) eq_refl)
      as (_ & _ & _ & _ & _ & G & _).
    rewrite G. reflexivity.
Defined.

(** ** Runs of the handler *)

Lemma fsm_events_app : forall a b m,
  fsm_events (a + b) m =
    let (m1, l1) := fsm_events a m in
    let (m2, l2) := fsm_events b m1 in (m2, l1 ++ l2).
Proof.
  induction a as [|a IH]; intros b m; simpl.
  - destruct (fsm_events b m); reflexivity.
  - destruct (ISR_fsm m) as [m1 f]. rewrite IH.
    destruct (fsm_events a m1) as [m2 l1].
    destruct (fsm_events b m2) as [m3 l2].
    destruct f; reflexivity.
Qed.

Lemma hw_events_app : forall a b m,
  hw_events (a + b) m =
    match hw_events a m with Some m1 => hw_events b m1 | None => None end.
Proof.
  induction a as [|a IH]; intros b m; simpl; auto.
  destruct (ISR m); auto.
Qed.

(** As long as the handler does not call back, an event is a step of the
    state machine and nothing else. *)
Lemma fsm_events_silent : forall n m m',
  fsm_events n m = (m', []) -> hw_events n m = Some m'.
Proof.
  induction n as [|n IH]; intros m m' H; simpl in *.
  - congruence.
  - unfold ISR. destruct (ISR_fsm m) as [m1 f].
    destruct (fsm_events n m1) as [m2 fs] eqn:E.
    destruct f; [discriminate|].
    inversion H; subst. now apply IH.
Qed.

Lemma fsm_events_step : forall n m m1,
  ISR_fsm m = (m1, None) -> fsm_events (S n) m = fsm_events n m1.
Proof.
  intros n m m1 H. cbn [fsm_events]. rewrite H.
  destruct (fsm_events n m1); reflexivity.
Qed.

Lemma bytes_at_S : forall h p n,
  bytes_at h p (S n) = BusByte (load h p) :: bytes_at h (ptr_add p 1) n.
Proof.
  intros. unfold bytes_at. cbn [seq map].
  rewrite <- seq_shift, map_map, ptr_add_0. f_equal.
  apply map_ext. intros i. rewrite ptr_add_add. do 3 f_equal. lia.
Qed.

Lemma bytes_at_length : forall h p n, length (bytes_at h p n) = n.
Proof. intros. unfold bytes_at. now rewrite length_map, length_seq. Qed.

Lemma uptr_small : forall z, 0 <= z < 65536 -> uptr z = z.
Proof. intros. unfold uptr, PTR_BITS. apply Z.mod_small. lia. Qed.

Lemma u16_small : forall z, 0 <= z < 65536 -> u16 z = z.
Proof. intros. unfold u16. apply Z.mod_small. lia. Qed.

Lemma u8_small : forall z, 0 <= z < 256 -> u8 z = z.
Proof. intros. unfold u8. apply Z.mod_small. lia. Qed.

Lemma ISR_fsm_prefix_more : forall m c,
  i2c_state (i2c m) = I2C_STATE_WRITEPREFIX ->
  uptr (i2c_prefix_count (i2c m) - 1) = c -> c <> 0 ->
  exists m1,
    ISR_fsm m = (m1, None)
    /\ i2c m1 = mkI2C (i2c_devaddr (i2c m)) (ptr_add (i2c_prefix_ptr (i2c m)) 1)
                      c (i2c_data_ptr (i2c m)) (i2c_data_count (i2c m))
                      (i2c_is_fastfail (i2c m)) (i2c_callback (i2c m))
                      (i2c_callback_args (i2c m)) I2C_STATE_WRITEPREFIX
    /\ oled m1 = oled m /\ memory m1 = memory m
    /\ wire m1 = wire m ++ [BusByte (load (memory m) (i2c_prefix_ptr (i2c m)))].
Proof.
  intros m c Hs Hc Hn. unfold ISR_fsm. rewrite Hs, Hc.
  destruct (Z.eqb_spec c 0); [contradiction|].
  eexists. split; [reflexivity|]. cbn. repeat split.
Qed.

Lemma ISR_fsm_byte_more : forall m c,
  i2c_state (i2c m) = I2C_STATE_WRITEBYTE ->
  u16 (i2c_data_count (i2c m) - 1) = c -> c <> 0 ->
  exists m1,
    ISR_fsm m = (m1, None)
    /\ i2c m1 = mkI2C (i2c_devaddr (i2c m)) (i2c_prefix_ptr (i2c m))
                      (i2c_prefix_count (i2c m))
                      (ptr_add (i2c_data_ptr (i2c m)) 1) c
                      (i2c_is_fastfail (i2c m)) (i2c_callback (i2c m))
                      (i2c_callback_args (i2c m)) I2C_STATE_WRITEBYTE
    /\ oled m1 = oled m /\ memory m1 = memory m
    /\ wire m1 = wire m ++ [BusByte (load (memory m) (i2c_data_ptr (i2c m)))].
Proof.
  intros m c Hs Hc Hn. unfold ISR_fsm. rewrite Hs, Hc.
  destruct (Z.eqb_spec c 0); [contradiction|].
  eexists. split; [reflexivity|]. cbn. repeat split.
Qed.

Lemma pred_of_nat_SS : forall n, Z.of_nat (S (S n)) - 1 = Z.of_nat (S n).
Proof. intros; lia. Qed.

(** The prefix phase: from WritePrefix with [S n] bytes left, [S n] events
    send them and leave the machine at the next phase. *)
Lemma prefix_run : forall n m,
  i2c_state (i2c m) = I2C_STATE_WRITEPREFIX ->
  i2c_prefix_count (i2c m) = Z.of_nat (S n) ->
  Z.of_nat (S n) < 65536 ->
  exists m',
    fsm_events (S n) m = (m', [])
    /\ i2c m' = mkI2C (i2c_devaddr (i2c m))
                      (ptr_add (i2c_prefix_ptr (i2c m)) (Z.of_nat (S n))) 0
                      (i2c_data_ptr (i2c m)) (i2c_data_count (i2c m))
                      (i2c_is_fastfail (i2c m)) (i2c_callback (i2c m))
                      (i2c_callback_args (i2c m))
                      (if is_null (i2c_data_ptr (i2c m)) then I2C_STATE_STOP
                       else I2C_STATE_WRITEBYTE)
    /\ oled m' = oled m /\ memory m' = memory m
    /\ wire m' = wire m ++ bytes_at (memory m) (i2c_prefix_ptr (i2c m)) (S n).
Proof.
  induction n as [|n IH]; intros m Hs Hc Hb.
  - cbn [fsm_events]. unfold ISR_fsm. rewrite Hs, Hc.
    change (uptr (Z.of_nat 1 - 1)) with 0. cbn [Z.eqb].
    eexists. split; [reflexivity|]. cbn -[bytes_at]. repeat split.
    rewrite bytes_at_S. reflexivity.
  - destruct (ISR_fsm_prefix_more m (Z.of_nat (S n)) Hs)
      as (m1 & E1 & Gi1 & Go1 & Gm1 & Gw1).
    { rewrite Hc, pred_of_nat_SS. apply uptr_small; lia. }
    { lia. }
    rewrite (fsm_events_step _ _ _ E1).
    destruct (IH m1) as (m' & E & Gi & Go & Gm & Gw);
      [now rewrite Gi1 | now rewrite Gi1 | lia |].
    exists m'. split; [exact E|].
    rewrite Gi, Go, Gm, Gw, Gi1, Go1, Gm1, Gw1. cbn -[bytes_at Z.of_nat].
    repeat split.
    + rewrite ptr_add_add. do 3 f_equal. lia.
    + rewrite (bytes_at_S _ _ (S n)), <- app_assoc. reflexivity.
Qed.

(** The data phase, likewise. *)
Lemma data_run : forall n m,
  i2c_state (i2c m) = I2C_STATE_WRITEBYTE ->
  i2c_data_count (i2c m) = Z.of_nat (S n) ->
  Z.of_nat (S n) < 65536 ->
  exists m',
    fsm_events (S n) m = (m', [])
    /\ i2c m' = mkI2C (i2c_devaddr (i2c m)) (i2c_prefix_ptr (i2c m))
                      (i2c_prefix_count (i2c m))
                      (ptr_add (i2c_data_ptr (i2c m)) (Z.of_nat (S n))) 0
                      (i2c_is_fastfail (i2c m)) (i2c_callback (i2c m))
                      (i2c_callback_args (i2c m)) I2C_STATE_STOP
    /\ oled m' = oled m /\ memory m' = memory m
    /\ wire m' = wire m ++ bytes_at (memory m) (i2c_data_ptr (i2c m)) (S n).
Proof.
  induction n as [|n IH]; intros m Hs Hc Hb.
  - cbn [fsm_events]. unfold ISR_fsm. rewrite Hs, Hc.
    change (u16 (Z.of_nat 1 - 1)) with 0. cbn [Z.eqb].
    eexists. split; [reflexivity|]. cbn -[bytes_at]. repeat split.
    rewrite bytes_at_S. reflexivity.
  - destruct (ISR_fsm_byte_more m (Z.of_nat (S n)) Hs)
      as (m1 & E1 & Gi1 & Go1 & Gm1 & Gw1).
    { rewrite Hc, pred_of_nat_SS. apply u16_small; lia. }
    { lia. }
    rewrite (fsm_events_step _ _ _ E1).
    destruct (IH m1) as (m' & E & Gi & Go & Gm & Gw);
      [now rewrite Gi1 | now rewrite Gi1 | lia |].
    exists m'. split; [exact E|].
    rewrite Gi, Go, Gm, Gw, Gi1, Go1, Gm1, Gw1. cbn -[bytes_at Z.of_nat].
    repeat split.
    + rewrite ptr_add_add. do 3 f_equal. lia.
    + rewrite (bytes_at_S _ _ (S n)), <- app_assoc. reflexivity.
Qed.

(** ** One transaction, from acceptance to completion *)

Lemma ISR_fsm_slaveaddr : forall m,
  i2c_state (i2c m) = I2C_STATE_SLAVEADDR ->
  exists m1,
    ISR_fsm m = (m1, None)
    /\ i2c m1 = set_state (after_slaveaddr (i2c m)) (i2c m)
    /\ oled m1 = oled m /\ memory m1 = memory m
    /\ wire m1 = wire m ++ [BusByte (i2c_devaddr (i2c m))].
Proof.
  intros m Hs. unfold ISR_fsm. rewrite Hs.
  eexists. split; [reflexivity|]. cbn. repeat split.
Qed.

Lemma to_nat_65536 : Z.to_nat 65536 = S (S (Z.to_nat 65534)).
Proof. lia. Qed.

(** The prefix phase for any count of 16 bits: a count of zero is
    decremented to 65535 before it is tested. *)
Lemma prefix_phase : forall m,
  i2c_state (i2c m) = I2C_STATE_WRITEPREFIX ->
  0 <= i2c_prefix_count (i2c m) < 65536 ->
  let n := Z.to_nat (sent_count (i2c_prefix_ptr (i2c m))
                                (i2c_prefix_count (i2c m))) in
  is_null (i2c_prefix_ptr (i2c m)) = false ->
  exists m',
    fsm_events n m = (m', [])
    /\ i2c m' = mkI2C (i2c_devaddr (i2c m))
                      (ptr_add (i2c_prefix_ptr (i2c m)) (Z.of_nat n)) 0
                      (i2c_data_ptr (i2c m)) (i2c_data_count (i2c m))
                      (i2c_is_fastfail (i2c m)) (i2c_callback (i2c m))
                      (i2c_callback_args (i2c m))
                      (if is_null (i2c_data_ptr (i2c m)) then I2C_STATE_STOP
                       else I2C_STATE_WRITEBYTE)
    /\ oled m' = oled m /\ memory m' = memory m
    /\ wire m' = wire m ++ bytes_at (memory m) (i2c_prefix_ptr (i2c m)) n.
Proof.
  intros m Hs Hr n Hn. subst n. unfold sent_count. rewrite Hn.
  destruct (Z.eqb_spec (i2c_prefix_count (i2c m)) 0) as [Hz|Hz].
  - rewrite to_nat_65536.
    destruct (ISR_fsm_prefix_more m 65535 Hs)
      as (m1 & E1 & Gi1 & Go1 & Gm1 & Gw1);
      [rewrite Hz; reflexivity | lia |].
    rewrite (fsm_events_step _ _ _ E1).
    destruct (prefix_run (Z.to_nat 65534) m1) as (m' & E & Gi & Go & Gm & Gw);
      [now rewrite Gi1 | rewrite Gi1; cbn [i2c_prefix_count]; lia | lia |].
    exists m'. split; [exact E|].
    rewrite Gi, Go, Gm, Gw, Gi1, Go1, Gm1, Gw1.
    cbn [i2c_devaddr i2c_prefix_ptr i2c_data_ptr i2c_data_count
         i2c_is_fastfail i2c_callback i2c_callback_args].
    split; [|split; [reflexivity|split; [reflexivity|]]].
    + rewrite ptr_add_add.
      replace (1 + Z.of_nat (S (Z.to_nat 65534)))
        with (Z.of_nat (S (S (Z.to_nat 65534)))) by lia.
      reflexivity.
    + rewrite (bytes_at_S _ _ (S (Z.to_nat 65534))), <- app_assoc. reflexivity.
  - destruct (Z.to_nat (i2c_prefix_count (i2c m))) as [|k] eqn:Ek; [lia|].
    apply prefix_run; auto; lia.
Qed.

Lemma data_phase : forall m,
  i2c_state (i2c m) = I2C_STATE_WRITEBYTE ->
  0 <= i2c_data_count (i2c m) < 65536 ->
  let n := Z.to_nat (sent_count (i2c_data_ptr (i2c m))
                                (i2c_data_count (i2c m))) in
  is_null (i2c_data_ptr (i2c m)) = false ->
  exists m',
    fsm_events n m = (m', [])
    /\ i2c m' = mkI2C (i2c_devaddr (i2c m)) (i2c_prefix_ptr (i2c m))
                      (i2c_prefix_count (i2c m))
                      (ptr_add (i2c_data_ptr (i2c m)) (Z.of_nat n)) 0
                      (i2c_is_fastfail (i2c m)) (i2c_callback (i2c m))
                      (i2c_callback_args (i2c m)) I2C_STATE_STOP
    /\ oled m' = oled m /\ memory m' = memory m
    /\ wire m' = wire m ++ bytes_at (memory m) (i2c_data_ptr (i2c m)) n.
Proof.
  intros m Hs Hr n Hn. subst n. unfold sent_count. rewrite Hn.
  destruct (Z.eqb_spec (i2c_data_count (i2c m)) 0) as [Hz|Hz].
  - rewrite to_nat_65536.
    destruct (ISR_fsm_byte_more m 65535 Hs)
      as (m1 & E1 & Gi1 & Go1 & Gm1 & Gw1);
      [rewrite Hz; reflexivity | lia |].
    rewrite (fsm_events_step _ _ _ E1).
    destruct (data_run (Z.to_nat 65534) m1) as (m' & E & Gi & Go & Gm & Gw);
      [now rewrite Gi1 | rewrite Gi1; cbn [i2c_data_count]; lia | lia |].
    exists m'. split; [exact E|].
    rewrite Gi, Go, Gm, Gw, Gi1, Go1, Gm1, Gw1.
    cbn [i2c_devaddr i2c_prefix_ptr i2c_prefix_count i2c_data_ptr
         i2c_is_fastfail i2c_callback i2c_callback_args].
    split; [|split; [reflexivity|split; [reflexivity|]]].
    + rewrite ptr_add_add.
      replace (1 + Z.of_nat (S (Z.to_nat 65534)))
        with (Z.of_nat (S (S (Z.to_nat 65534)))) by lia.
      reflexivity.
    + rewrite (bytes_at_S _ _ (S (Z.to_nat 65534))), <- app_assoc. reflexivity.
  - destruct (Z.to_nat (i2c_data_count (i2c m))) as [|k] eqn:Ek; [lia|].
    apply data_run; auto; lia.
Qed.

(** From an accepted request, the address event, the prefix events and the
    data events pass without a call back and leave the handler in Stop. *)
Lemma transaction_run : forall m,
  i2c_state (i2c m) = I2C_STATE_SLAVEADDR ->
  0 <= i2c_prefix_count (i2c m) < 65536 ->
  0 <= i2c_data_count (i2c m) < 65536 ->
  let np := Z.to_nat (sent_count (i2c_prefix_ptr (i2c m))
                                 (i2c_prefix_count (i2c m))) in
  let nd := Z.to_nat (sent_count (i2c_data_ptr (i2c m))
                                 (i2c_data_count (i2c m))) in
  exists m',
    fsm_events (S (np + nd)) m = (m', [])
    /\ i2c_state (i2c m') = I2C_STATE_STOP
    /\ i2c_callback (i2c m') = i2c_callback (i2c m)
    /\ i2c_callback_args (i2c m') = i2c_callback_args (i2c m)
    /\ oled m' = oled m /\ memory m' = memory m
    /\ wire m' = wire m ++ BusByte (i2c_devaddr (i2c m))
                   :: bytes_at (memory m) (i2c_prefix_ptr (i2c m)) np
                   ++ bytes_at (memory m) (i2c_data_ptr (i2c m)) nd.
Proof.
  intros m Hs Hp Hd np nd.
  destruct (ISR_fsm_slaveaddr m Hs) as (m1 & E1 & Gi1 & Go1 & Gm1 & Gw1).
  rewrite (fsm_events_step _ _ _ E1).
  unfold after_slaveaddr in Gi1.
  destruct (is_null (i2c_prefix_ptr (i2c m))) eqn:Np;
    destruct (is_null (i2c_data_ptr (i2c m))) eqn:Nd; cbn [andb] in Gi1.
  - (* neither prefix nor data *)
    assert (np = 0%nat) by (subst np; unfold sent_count; now rewrite Np).
    assert (nd = 0%nat) by (subst nd; unfold sent_count; now rewrite Nd).
    replace np with 0%nat. replace nd with 0%nat.
    exists m1. cbn [Nat.add fsm_events bytes_at seq map app].
    rewrite Gi1, Go1, Gm1, Gw1. cbn. repeat split.
  - (* data only *)
    assert (E0 : np = 0%nat) by (subst np; unfold sent_count; now rewrite Np).
    rewrite E0. cbn [Nat.add].
    destruct (data_phase m1) as (m' & E & Gi & Go & Gm & Gw);
      [now rewrite Gi1 | now rewrite Gi1 | now rewrite Gi1 |].
    rewrite Gi1 in E, Gi, Gw. cbn [set_state i2c_data_ptr i2c_data_count] in E, Gi, Gw.
    exists m'. split; [exact E|].
    rewrite Gi, Go, Gm, Gw, Go1, Gm1, Gw1. cbn -[bytes_at].
    rewrite <- app_assoc. repeat split.
  - (* prefix only *)
    assert (E0 : nd = 0%nat) by (subst nd; unfold sent_count; now rewrite Nd).
    rewrite E0, Nat.add_0_r.
    destruct (prefix_phase m1) as (m' & E & Gi & Go & Gm & Gw);
      [now rewrite Gi1 | now rewrite Gi1 | now rewrite Gi1 |].
    rewrite Gi1 in E, Gi, Gw.
    cbn [set_state i2c_prefix_ptr i2c_prefix_count] in E, Gi, Gw.
    exists m'. split; [exact E|].
    rewrite Gi, Go, Gm, Gw, Go1, Gm1, Gw1. cbn -[bytes_at].
    rewrite Nd, app_nil_r, <- app_assoc. repeat split.
  - (* prefix, then data *)
    destruct (prefix_phase m1) as (m2 & E2 & Gi2 & Go2 & Gm2 & Gw2);
      [now rewrite Gi1 | now rewrite Gi1 | now rewrite Gi1 |].
    rewrite Gi1 in E2, Gi2, Gw2.
    cbn [set_state i2c_prefix_ptr i2c_prefix_count i2c_data_ptr i2c_data_count
         i2c_devaddr i2c_is_fastfail i2c_callback i2c_callback_args]
      in E2, Gi2, Gw2.
    rewrite Nd in Gi2.
    destruct (data_phase m2) as (m' & E & Gi & Go & Gm & Gw);
      [now rewrite Gi2 | now rewrite Gi2 | now rewrite Gi2 |].
    rewrite Gi2 in E, Gi, Gw.
    cbn [i2c_data_ptr i2c_data_count i2c_prefix_ptr i2c_prefix_count
         i2c_devaddr i2c_is_fastfail i2c_callback i2c_callback_args]
      in E, Gi, Gw.
    exists m'. split.
    + rewrite fsm_events_app. fold np in E2. rewrite E2.
      fold nd in E. rewrite E. reflexivity.
    + rewrite Gi, Go, Gm, Gw, Go2, Gm2, Gw2, Go1, Gm1, Gw1.
      cbn -[bytes_at]. rewrite <- !app_assoc. repeat split.
Qed.

(** The stop event: the handler leaves the bus idle and calls back. *)
Lemma stop_event : forall m,
  i2c_state (i2c m) = I2C_STATE_STOP ->
  exists m',
    ISR_fsm m = (m', Some (i2c_callback (i2c m), i2c_callback_args (i2c m)))
    /\ i2c_state (i2c m') = I2C_STATE_IDLE
    /\ oled m' = oled m /\ memory m' = memory m
    /\ wire m' = wire m ++ [BusStop].
Proof.
  intros m Hs. rewrite ISR_fsm_stop by auto.
  eexists. split; [reflexivity|]. cbn. repeat split.
Qed.

Lemma tx_shed_accepted :
  forall addr prefix p bytes d cb arg ff m m1,
    OLED_i2c_tx_shed addr prefix p bytes d cb arg ff m = (true, m1) ->
    i2c_state (i2c m) = I2C_STATE_IDLE
    /\ i2c m1 = mkI2C (u8 (Z.shiftl addr 1)) prefix p bytes d ff cb arg
                      I2C_STATE_SLAVEADDR
    /\ oled m1 = oled m /\ memory m1 = memory m
    /\ wire m1 = wire m ++ [BusStart].
Proof.
  intros until m1. unfold OLED_i2c_tx_shed.
  destruct (i2c_state (i2c m)); intro H; inversion H; subst.
  cbn. repeat split.
Qed.

Lemma fsm_events_prefix_silent : forall k n m m',
  fsm_events n m = (m', []) -> (k <= n)%nat -> snd (fsm_events k m) = [].
Proof.
  intros k n m m' H Hk.
  replace n with (k + (n - k))%nat in H by lia.
  rewrite fsm_events_app in H.
  destruct (fsm_events k m) as [ma la].
  destruct (fsm_events (n - k) ma) as [mb lb].
  injection H as E1 E2. apply app_eq_nil in E2. simpl. apply E2.
Qed.

(** Every accepted request completes: the handler calls back once, on the
    event after the address byte and the bytes it sends from each pointer,
    and leaves the bus idle. *)
Lemma completion_after :
  forall addr prefix p bytes d cb arg ff m m1,
    OLED_i2c_tx_shed addr prefix p bytes d cb arg ff m = (true, m1) ->
    0 <= p < 65536 -> 0 <= d < 65536 ->
    let np := Z.to_nat (sent_count prefix p) in
    let nd := Z.to_nat (sent_count bytes d) in
    exists m2 m3,
      fsm_events (S (np + nd)) m1 = (m2, [])
      /\ i2c_state (i2c m2) = I2C_STATE_STOP
      /\ ISR_fsm m2 = (m3, Some (cb, arg))
      /\ fsm_events (S (S (np + nd))) m1 = (m3, [(cb, arg)])
      /\ i2c_state (i2c m3) = I2C_STATE_IDLE
      /\ oled m3 = oled m /\ memory m3 = memory m
      /\ wire m3 = wire m ++ BusStart :: BusByte (u8 (Z.shiftl addr 1))
                     :: bytes_at (memory m) prefix np
                     ++ bytes_at (memory m) bytes nd ++ [BusStop].
Proof.
  intros until m1. intros H Hp Hd np nd.
  destruct (tx_shed_accepted _ _ _ _ _ _ _ _ _ _ H) as (_ & Gi & Go & Gm & Gw).
  destruct (transaction_run m1) as (m2 & E2 & Gs2 & Gc2 & Ga2 & Go2 & Gm2 & Gw2);
    [now rewrite Gi | now rewrite Gi | now rewrite Gi |].
  rewrite Gi in E2, Gc2, Ga2, Gw2.
  cbn [i2c_prefix_ptr i2c_prefix_count i2c_data_ptr i2c_data_count
       i2c_callback i2c_callback_args i2c_devaddr] in E2, Gc2, Ga2, Gw2.
  fold np in E2, Gw2. fold nd in E2, Gw2.
  destruct (stop_event m2 Gs2) as (m3 & E3 & Gs3 & Go3 & Gm3 & Gw3).
  rewrite Gc2, Ga2 in E3.
  exists m2, m3. split; [exact E2|]. split; [exact Gs2|]. split; [exact E3|].
  split.
  - replace (S (S (np + nd))) with (S (np + nd) + 1)%nat by lia.
    rewrite fsm_events_app, E2. cbn [fsm_events]. rewrite E3. reflexivity.
  - split; [exact Gs3|].
    rewrite Go3, Gm3, Gw3, Go2, Gm2, Gw2, Go, Gm, Gw.
    split; [reflexivity|]. split; [reflexivity|].
    rewrite <- !app_assoc. cbn [app]. rewrite <- app_assoc. reflexivity.
Qed.

Lemma sent_count_well_sized : forall p n bound,
  well_sized p n bound -> sent_count p n = n.
Proof.
  unfold well_sized, sent_count. intros p n bound H.
  destruct (is_null p); [auto|].
  destruct (Z.eqb_spec n 0); lia.
Qed.

(** C2, as the code has it.  For every accepted transaction whose lengths
    fit its pointers (length 0 with a null pointer, at least 1 with any
    other), with prefix length [p] and data length [d]: the first
    [p + d + 1] hardware events pass without a call back, the handler calls
    the completion callback with its argument on the [(p + d + 2)]-th event
    and on no other of them, the bus state is Idle afterwards, and the bus
    has seen the start condition, the address byte, the [p] prefix bytes,
    the [d] data bytes and the stop condition. *)
Theorem transaction_completes_once :
  forall addr prefix p bytes d cb arg ff m m1,
    OLED_i2c_tx_shed addr prefix p bytes d cb arg ff m = (true, m1) ->
    well_sized prefix p 256 ->
    well_sized bytes d 65536 ->
    exists m2 m3,
      fsm_events (Z.to_nat (p + d + 1)) m1 = (m2, [])
      /\ fsm_events (Z.to_nat (p + d + 2)) m1 = (m3, [(cb, arg)])
      /\ ISR_fsm m2 = (m3, Some (cb, arg))
      /\ i2c_state (i2c m3) = I2C_STATE_IDLE
      /\ wire m3 = wire m ++ BusStart :: BusByte (u8 (Z.shiftl addr 1))
                     :: bytes_at (memory m) prefix (Z.to_nat p)
                     ++ bytes_at (memory m) bytes (Z.to_nat d) ++ [BusStop].
Proof.
  intros until m1. intros H Wp Wd.
  assert (Hp : 0 <= p < 256)
    by (unfold well_sized in Wp; destruct (is_null prefix); lia).
  assert (Hd : 0 <= d < 65536)
    by (unfold well_sized in Wd; destruct (is_null bytes); lia).
  destruct (completion_after _ _ _ _ _ _ _ _ _ _ H ltac:(lia) Hd)
    as (m2 & m3 & E2 & _ & E3 & E4 & Gs & _ & _ & Gw).
  rewrite (sent_count_well_sized _ _ _ Wp), (sent_count_well_sized _ _ _ Wd)
    in E2, E4, Gw.
  exists m2, m3.
  replace (Z.to_nat (p + d + 1)) with (S (Z.to_nat p + Z.to_nat d)) by lia.
  replace (Z.to_nat (p + d + 2)) with (S (S (Z.to_nat p + Z.to_nat d))) by lia.
  auto.
Qed.

Lemma transaction_completes_once_witness :
  exists m2 m3,
    fsm_events 13 demo_busy = (m2, [])
    /\ fsm_events 14 demo_busy = (m3, [(Cbk_empty, Arg_NULL)])
    /\ ISR_fsm m2 = (m3, Some (Cbk_empty, Arg_NULL))
    /\ i2c_state (i2c m3) = I2C_STATE_IDLE
    /\ wire m3 = [] ++ BusStart :: BusByte (u8 (Z.shiftl 0x3C 1))
                   :: bytes_at static_mem (Ptr B_cmd_init 0) 12
                   ++ bytes_at static_mem NULL 0 ++ [BusStop].
Proof.
  apply (transaction_completes_once 0x3C (Ptr B_cmd_init 0) 12 NULL 0
           Cbk_empty Arg_NULL true
           (I2C_init 200000
              (set_oled (mkOLED 128 64 demo_fb 1 0x3C 0 8)
                        (reset_machine static_mem)))
           demo_busy).
  - reflexivity.
  - unfold well_sized; simpl; lia.
  - unfold well_sized; simpl; lia.
Defined.

(** C2 as it is worded fails: a request accepted with a prefix pointer and
    the prefix length 0 (no data) has not completed after its
    [0 + 0 + 2] events; the handler is still sending prefix bytes. *)
Lemma completion_needs_fitting_lengths :
  let r := OLED_i2c_tx_shed 0x3C (Ptr B_cmd_init 0) 0 NULL 0 Cbk_empty Arg_NULL
             true (reset_machine static_mem) in
  fst r = true
  /\ snd (fsm_events (Z.to_nat (0 + 0 + 2)) (snd r)) = []
  /\ i2c_state (i2c (fst (fsm_events (Z.to_nat (0 + 0 + 2)) (snd r))))
     = I2C_STATE_WRITEPREFIX.
Proof. vm_compute. repeat split. Qed.

(** C9, as the code has it.  When a request is accepted with a prefix
    pointer and prefix length 0, or with a data pointer and data length 0,
    the handler decrements the remaining count from 0 before it tests it, so
    that the count wraps around the 16 bits of its variable (the data count
    is a [uint16_t], the prefix count is declared with pointer type) and
    65536 bytes are sent from that pointer before the handler moves on.  The
    request has therefore not completed after [p + d + 2] events: it
    completes on the event after one address byte and the bytes really sent.
    The completion after exactly [p + d + 2] events needs every non-null
    pointer to come with a length of at least 1. *)
Theorem zero_length_wraps :
  forall addr prefix p bytes d cb arg ff m m1,
    OLED_i2c_tx_shed addr prefix p bytes d cb arg ff m = (true, m1) ->
    0 <= p < 256 -> 0 <= d < 65536 ->
    (is_null prefix = false /\ p = 0) \/ (is_null bytes = false /\ d = 0) ->
    let np := sent_count prefix p in
    let nd := sent_count bytes d in
    (is_null prefix = false -> p = 0 -> np = 65536)
    /\ (is_null bytes = false -> d = 0 -> nd = 65536)
    /\ snd (fsm_events (Z.to_nat (p + d + 2)) m1) = []
    /\ exists m2 m3,
         fsm_events (Z.to_nat (np + nd + 1)) m1 = (m2, [])
         /\ i2c_state (i2c m2) = I2C_STATE_STOP
         /\ fsm_events (Z.to_nat (np + nd + 2)) m1 = (m3, [(cb, arg)])
         /\ i2c_state (i2c m3) = I2C_STATE_IDLE
         /\ wire m3 = wire m ++ BusStart :: BusByte (u8 (Z.shiftl addr 1))
                        :: bytes_at (memory m) prefix (Z.to_nat np)
                        ++ bytes_at (memory m) bytes (Z.to_nat nd) ++ [BusStop].
Proof.
  intros until m1. intros H Hp Hd Hz np nd.
  assert (Hnp : 0 <= np <= 65536 /\ (is_null prefix = false -> p <= np))
    by (subst np; unfold sent_count; destruct (is_null prefix);
        [|destruct (Z.eqb_spec p 0)]; lia).
  assert (Hnd : 0 <= nd <= 65536 /\ (is_null bytes = false -> d <= nd))
    by (subst nd; unfold sent_count; destruct (is_null bytes);
        [|destruct (Z.eqb_spec d 0)]; lia).
  assert (Ep : is_null prefix = false -> p = 0 -> np = 65536)
    by (intros E1 E2; subst np; unfold sent_count; rewrite E1, E2; reflexivity).
  assert (Ed : is_null bytes = false -> d = 0 -> nd = 65536)
    by (intros E1 E2; subst nd; unfold sent_count; rewrite E1, E2; reflexivity).
  destruct (completion_after _ _ _ _ _ _ _ _ _ _ H ltac:(lia) Hd)
    as (m2 & m3 & E2 & Gs2 & _ & E4 & Gs & _ & _ & Gw).
  fold np in E2, E4, Gw. fold nd in E2, E4, Gw.
  split; [exact Ep|]. split; [exact Ed|]. split.
  - apply (fsm_events_prefix_silent _ _ _ _ E2).
    destruct (is_null prefix) eqn:Np, (is_null bytes) eqn:Nd;
      destruct Hz as [[? ?]|[? ?]]; try discriminate;
      try (specialize (Ep eq_refl)); try (specialize (Ed eq_refl)); lia.
  - exists m2, m3.
    replace (Z.to_nat (np + nd + 1)) with (S (Z.to_nat np + Z.to_nat nd)) by lia.
    replace (Z.to_nat (np + nd + 2)) with (S (S (Z.to_nat np + Z.to_nat nd)))
      by lia.
    auto.
Qed.

Lemma zero_length_wraps_witness :
  let r := OLED_i2c_tx_shed 0x3C NULL 0 demo_fb 0 Cbk_empty Arg_NULL true
             (reset_machine static_mem) in
  sent_count demo_fb 0 = 65536
  /\ snd (fsm_events (Z.to_nat (0 + 0 + 2)) (snd r)) = [].
Proof.
  destruct (zero_length_wraps 0x3C NULL 0 demo_fb 0 Cbk_empty Arg_NULL true
              (reset_machine static_mem)
              (snd (OLED_i2c_tx_shed 0x3C NULL 0 demo_fb 0 Cbk_empty Arg_NULL
                      true (reset_machine static_mem))))
    as (_ & G1 & G2 & _).
  - reflexivity.
  - lia.
  - lia.
  - right. split; reflexivity.
  - split; [apply G1; reflexivity | exact G2].
Defined.

(** C9 as it is worded fails for the prefix: with a prefix pointer and the
    prefix length 0, the handler has not reached Stop after the address
    byte and 256 prefix bytes; 65280 prefix bytes are still to come. *)
Lemma zero_prefix_not_256 :
  let r := OLED_i2c_tx_shed 0x3C (Ptr B_cmd_init 0) 0 NULL 0 Cbk_empty Arg_NULL
             true (reset_machine static_mem) in
  let m := fst (fsm_events (1 + 256) (snd r)) in
  fst r = true
  /\ i2c_state (i2c m) = I2C_STATE_WRITEPREFIX
  /\ i2c_prefix_count (i2c m) = 65280.
Proof. vm_compute. repeat split. Qed.

(** ** The handler and the display *)

Lemma ISR_fsm_frame : forall m,
  oled (fst (ISR_fsm m)) = oled m /\ memory (fst (ISR_fsm m)) = memory m.
Proof. intros m. unfold ISR_fsm. destruct (i2c_state (i2c m)); split; reflexivity. Qed.

Lemma fsm_events_frame : forall n m,
  oled (fst (fsm_events n m)) = oled m
  /\ memory (fst (fsm_events n m)) = memory m.
Proof.
  induction n as [|n IH]; intros m; cbn [fsm_events]; [split; reflexivity|].
  destruct (ISR_fsm m) as [m1 f] eqn:E1.
  specialize (IH m1). destruct (fsm_events n m1) as [m2 fs].
  cbn [fst] in *.
  destruct (ISR_fsm_frame m) as [A B]. rewrite E1 in A, B. cbn [fst] in A, B.
  destruct IH as [C D]. split; congruence.
Qed.

(** Events without a call back leave the lock as it is. *)
Lemma silent_events_hold : forall n m m',
  fsm_events n m = (m', []) -> busy_lock (oled m) = 0 -> held_through n m.
Proof.
  intros n m m' H L j Hj.
  pose proof (fsm_events_prefix_silent j n m m' H Hj) as S.
  destruct (fsm_events j m) as [mj lj] eqn:E. cbn [snd] in S. subst lj.
  exists mj. split; [now apply fsm_events_silent|].
  pose proof (proj1 (fsm_events_frame j m)) as F. rewrite E in F.
  cbn [fst] in F. congruence.
Qed.

Lemma held_through_app : forall a b m m',
  held_through a m -> hw_events a m = Some m' -> held_through b m' ->
  held_through (a + b) m.
Proof.
  intros a b m m' Ha E Hb j Hj.
  destruct (Nat.le_gt_cases j a) as [L|L]; [now apply Ha|].
  replace j with (a + (j - a))%nat by lia.
  rewrite hw_events_app, E. apply Hb. lia.
Qed.

(** A whole transaction in hardware events: the silent events, then the stop
    event, whose call back runs on the idle machine [m3]. *)
Lemma transaction_hw : forall m,
  i2c_state (i2c m) = I2C_STATE_SLAVEADDR ->
  0 <= i2c_prefix_count (i2c m) < 65536 ->
  0 <= i2c_data_count (i2c m) < 65536 ->
  let np := Z.to_nat (sent_count (i2c_prefix_ptr (i2c m))
                                 (i2c_prefix_count (i2c m))) in
  let nd := Z.to_nat (sent_count (i2c_data_ptr (i2c m))
                                 (i2c_data_count (i2c m))) in
  exists m2 m3,
    fsm_events (S (np + nd)) m = (m2, [])
    /\ hw_events (S (np + nd)) m = Some m2
    /\ ISR m2 = call_cbk spin_in_isr (i2c_callback (i2c m))
                  (i2c_callback_args (i2c m)) m3
    /\ i2c_state (i2c m3) = I2C_STATE_IDLE
    /\ oled m3 = oled m /\ memory m3 = memory m
    /\ wire m3 = wire m ++ BusByte (i2c_devaddr (i2c m))
                   :: bytes_at (memory m) (i2c_prefix_ptr (i2c m)) np
                   ++ bytes_at (memory m) (i2c_data_ptr (i2c m)) nd
                   ++ [BusStop].
Proof.
  intros m Hs Hp Hd np nd.
  destruct (transaction_run m Hs Hp Hd)
    as (m2 & E2 & Gs2 & Gc2 & Ga2 & Go2 & Gm2 & Gw2).
  fold np in E2, Gw2. fold nd in E2, Gw2.
  destruct (stop_event m2 Gs2) as (m3 & E3 & Gs3 & Go3 & Gm3 & Gw3).
  exists m2, m3. split; [exact E2|].
  split; [now apply fsm_events_silent|].
  split; [unfold ISR; rewrite E3, Gc2, Ga2; reflexivity|].
  split; [exact Gs3|].
  rewrite Go3, Gm3, Gw3, Go2, Gm2, Gw2.
  split; [reflexivity|]. split; [reflexivity|].
  rewrite <- !app_assoc. cbn [app]. rewrite <- app_assoc. reflexivity.
Qed.

Lemma transaction_hw_of : forall m dev pp pc dp dc ff cb arg N,
  i2c m = mkI2C dev pp pc dp dc ff cb arg I2C_STATE_SLAVEADDR ->
  0 <= pc < 65536 -> 0 <= dc < 65536 ->
  N = S (Z.to_nat (sent_count pp pc) + Z.to_nat (sent_count dp dc)) ->
  exists m2 m3,
    fsm_events N m = (m2, [])
    /\ hw_events N m = Some m2
    /\ ISR m2 = call_cbk spin_in_isr cb arg m3
    /\ i2c_state (i2c m3) = I2C_STATE_IDLE
    /\ oled m3 = oled m /\ memory m3 = memory m
    /\ wire m3 = wire m ++ BusByte dev
                   :: bytes_at (memory m) pp (Z.to_nat (sent_count pp pc))
                   ++ bytes_at (memory m) dp (Z.to_nat (sent_count dp dc))
                   ++ [BusStop].
Proof.
  intros m dev pp pc dp dc ff cb arg N Gi Hp Hd ->.
  pose proof (transaction_hw m) as T. rewrite Gi in T.
  cbn [i2c_state i2c_prefix_ptr i2c_prefix_count i2c_data_ptr i2c_data_count
       i2c_callback i2c_callback_args i2c_devaddr] in T.
  apply T; auto.
Qed.

Lemma held_step : forall m m',
  busy_lock (oled m) = 0 -> ISR m = Some m' -> busy_lock (oled m') = 0 ->
  held_through 1 m.
Proof.
  intros m m' L E L' j Hj.
  destruct j as [|[|j]]; [exists m | exists m' | lia]; cbn [hw_events].
  - auto.
  - rewrite E. auto.
Qed.

(** ** The callbacks of the refresh *)

Section SpinAccepts.

Variable spin : (machine -> bool * machine) -> machine -> option machine.
Hypothesis spin_accepts :
  forall attempt m m', attempt m = (true, m') -> spin attempt m = Some m'.

Lemma setwritepage_submits : forall m,
  i2c_state (i2c m) = I2C_STATE_IDLE ->
  exists m',
    OLED_cbk_setwritepage spin m = Some m'
    /\ i2c m' = mkI2C (u8 (Z.shiftl (i2c_addr (oled m)) 1))
                      (Ptr B_cmd_setpage 0) 6 NULL 0 true Cbk_writepage
                      Arg_oled I2C_STATE_SLAVEADDR
    /\ oled m' = oled m
    /\ memory m' = store (memory m) (Ptr B_cmd_setpage 5)
                         (u8 (Z.lor 0xB0 (cur_page (oled m))))
    /\ wire m' = wire m ++ [BusStart].
Proof.
  intros m Hs. unfold OLED_cbk_setwritepage.
  eexists. split.
  - apply spin_accepts. unfold OLED_i2c_tx_shed. cbn [set_memory i2c].
    rewrite Hs. reflexivity.
  - cbn. repeat split.
Qed.

Lemma writepage_advances : forall m,
  i2c_state (i2c m) = I2C_STATE_IDLE ->
  cur_page (oled m) < num_pages (oled m) ->
  exists m',
    OLED_cbk_writepage spin m = Some m'
    /\ i2c m' = mkI2C (u8 (Z.shiftl (i2c_addr (oled m)) 1))
                      (Ptr B_cmd_dataprefix 0) 1
                      (ptr_add (frame_buffer (oled m))
                               (u16 (cur_page (oled m) * u16 (width (oled m)))))
                      (width (oled m)) true Cbk_setwritepage Arg_oled
                      I2C_STATE_SLAVEADDR
    /\ oled m' = set_cur_page (u8 (cur_page (oled m) + 1)) (oled m)
    /\ memory m' = memory m
    /\ wire m' = wire m ++ [BusStart].
Proof.
  intros m Hs Hlt. unfold OLED_cbk_writepage.
  destruct (Z.leb_spec (num_pages (oled m)) (cur_page (oled m))); [lia|].
  eexists. split.
  - apply spin_accepts. unfold OLED_i2c_tx_shed. cbn [set_oled i2c].
    rewrite Hs. reflexivity.
  - cbn. repeat split.
Qed.

Lemma writepage_terminates : forall m,
  num_pages (oled m) <= cur_page (oled m) ->
  OLED_cbk_writepage spin m = Some (OLED_unlock m).
Proof.
  intros m Hle. unfold OLED_cbk_writepage.
  destruct (Z.leb_spec (num_pages (oled m)) (cur_page (oled m))); [auto|lia].
Qed.

End SpinAccepts.

Lemma spin_in_isr_accepts : forall attempt m m',
  attempt m = (true, m') -> spin_in_isr attempt m = Some m'.
Proof. intros attempt m m' H. unfold spin_in_isr. now rewrite H. Qed.

Lemma spin_in_main_accepts : forall fuel attempt m m',
  attempt m = (true, m') -> spin_in_main fuel attempt m = Some m'.
Proof. intros fuel attempt m m' H. destruct fuel; cbn; now rewrite H. Qed.

(** ** One page of a refresh *)

Lemma bytes_at_ext : forall h h' p n,
  (forall i, (i < n)%nat ->
     load h (ptr_add p (Z.of_nat i)) = load h' (ptr_add p (Z.of_nat i))) ->
  bytes_at h p n = bytes_at h' p n.
Proof.
  intros h h' p n H. unfold bytes_at. apply map_ext_in.
  intros i Hi. apply in_seq in Hi. rewrite H by lia. reflexivity.
Qed.

Lemma select_bytes : forall o0 h0 p m,
  at_page o0 h0 p m -> statics_intact h0 ->
  bytes_at (memory m) (Ptr B_cmd_setpage 0) 6 =
    [BusByte 0x80; BusByte 0x00; BusByte 0x80; BusByte 0x10; BusByte 0x80;
     BusByte (u8 (Z.lor 0xB0 p))].
Proof.
  intros o0 h0 p m (_ & _ & G5 & Gh) (S0 & S1 & S2 & S3 & S4 & _).
  unfold bytes_at. cbn [seq map ptr_add load Z.of_nat Pos.of_succ_nat
                        Pos.succ Z.add].
  rewrite G5, !Gh by (intro E; inversion E).
  rewrite S0, S1, S2, S3, S4. reflexivity.
Qed.

Section PageStep.

Variables (o0 : OLED) (h0 : mem) (fbb : nat) (fbo : Z).
Hypothesis statics : statics_intact h0.
Hypothesis buffer : frame_buffer o0 = Ptr (B_ext fbb) fbo.
Hypothesis width_range : 1 <= width o0 <= 255.
Hypothesis pages_range : 0 <= num_pages o0 <= 255.

Let dev := u8 (Z.shiftl (i2c_addr o0) 1).
Let w := width o0.

(** From the select-page command of page [k] to that of page [k + 1]:
    [width + 11] events, which put on the bus the rest of the select-page
    transaction, the transfer of page [k] and the next start condition,
    the lock held all along. *)
Lemma page_step : forall k m,
  at_page o0 h0 (Z.of_nat k) m ->
  Z.of_nat k < num_pages o0 ->
  exists m',
    hw_events (Z.to_nat (w + 11)) m = Some m'
    /\ at_page o0 h0 (Z.of_nat (S k)) m'
    /\ wire m' = wire m ++ tl (select_page_frame dev (Z.of_nat k))
                   ++ page_data_frame dev h0 (frame_buffer o0) w (Z.of_nat k)
                   ++ [BusStart]
    /\ held_through (Z.to_nat (w + 11)) m.
Proof.
  intros k m A Hk.
  pose proof (select_bytes _ _ _ _ A statics) as SB.
  destruct A as (Gi & Go & G5 & Gh).
  (* the select-page transaction *)
  destruct (transaction_hw_of m _ _ _ _ _ _ _ _ 7%nat Gi)
    as (m2 & m3 & E2 & H2 & C3 & Gs3 & Go3 & Gm3 & Gw3);
    [lia | lia | reflexivity |].
  change (Z.to_nat (sent_count (Ptr B_cmd_setpage 0) 6)) with 6%nat in Gw3.
  change (Z.to_nat (sent_count NULL 0)) with 0%nat in Gw3.
  change (bytes_at (memory m) NULL 0) with (@nil bus_event) in Gw3.
  rewrite SB in Gw3. cbn [app] in Gw3. cbn [call_cbk] in C3.
  (* its call back submits the transfer of the page *)
  destruct (writepage_advances spin_in_isr spin_in_isr_accepts m3 Gs3)
    as (m4 & E4 & Gi4 & Go4 & Gm4 & Gw4).
  { rewrite Go3, Go. cbn. exact Hk. }
  rewrite E4 in C3.
  rewrite Go3, Go in Gi4, Go4.
  cbn [cur_page num_pages width i2c_addr frame_buffer set_cur_page
       set_busy_lock] in Gi4, Go4.
  assert (Hw16 : u16 (width o0) = width o0) by (apply u16_small; lia).
  assert (Hkw : u16 (Z.of_nat k * width o0) = Z.of_nat k * width o0)
    by (apply u16_small; nia).
  assert (Hk8 : u8 (Z.of_nat k + 1) = Z.of_nat (S k))
    by (rewrite u8_small by lia; lia).
  rewrite Hw16, Hkw in Gi4. rewrite Hk8 in Go4.
  (* the transfer *)
  destruct (transaction_hw_of m4 _ _ _ _ _ _ _ _
              (S (1 + Z.to_nat (width o0))) Gi4)
    as (m5 & m6 & E5 & H5 & C6 & Gs6 & Go6 & Gm6 & Gw6); [lia | lia | |].
  { unfold sent_count. rewrite buffer. cbn [is_null ptr_add].
    destruct (Z.eqb_spec (width o0) 0); [lia|]. reflexivity. }
  assert (Hsc : sent_count (ptr_add (frame_buffer o0) (Z.of_nat k * width o0))
                           (width o0) = width o0).
  { unfold sent_count. rewrite buffer. cbn [is_null ptr_add].
    destruct (Z.eqb_spec (width o0) 0); [lia|]. reflexivity. }
  rewrite Hsc in Gw6.
  change (Z.to_nat (sent_count (Ptr B_cmd_dataprefix 0) 1)) with 1%nat in Gw6.
  cbn [call_cbk] in C6.
  (* its call back patches and submits the next select-page command *)
  destruct (setwritepage_submits spin_in_isr spin_in_isr_accepts m6 Gs6)
    as (m7 & E7 & Gi7 & Go7 & Gm7 & Gw7).
  rewrite E7 in C6.
  rewrite Go6, Go4 in Gi7, Go7, Gm7.
  cbn [cur_page i2c_addr set_cur_page] in Gi7, Gm7.
  rewrite Gm6, Gm4, Gm3 in Gm7.
  (* the events add up *)
  assert (Hev : hw_events (Z.to_nat (w + 11)) m = Some m7).
  { replace (Z.to_nat (w + 11))
      with (7 + (1 + (S (1 + Z.to_nat (width o0)) + 1)))%nat by (subst w; lia).
    rewrite hw_events_app, H2, hw_events_app. cbn [hw_events]. rewrite C3.
    rewrite hw_events_app, H5. cbn [hw_events]. rewrite C6. reflexivity. }
  exists m7. split; [exact Hev|]. split; [|split].
  - (* the machine is at the next page *)
    unfold at_page. rewrite Gi7, Go7, Gm7. split; [reflexivity|].
    split; [reflexivity|]. split.
    + change (store (memory m) (Ptr B_cmd_setpage 5)
                (u8 (Z.lor 176 (Z.of_nat (S k)))) B_cmd_setpage 5)
        with (load (store (memory m) (Ptr B_cmd_setpage 5)
                      (u8 (Z.lor 176 (Z.of_nat (S k)))))
                   (Ptr B_cmd_setpage 5)).
      apply load_store_same.
    + intros b o Hbo.
      change (store (memory m) (Ptr B_cmd_setpage 5)
                (u8 (Z.lor 176 (Z.of_nat (S k)))) b o)
        with (load (store (memory m) (Ptr B_cmd_setpage 5)
                      (u8 (Z.lor 176 (Z.of_nat (S k))))) (Ptr b o)).
      rewrite load_store_other by congruence. cbn [load]. now apply Gh.
  - (* the bus *)
    rewrite Gw7, Gw6, Gw4, Gw3, Gm4, Gm3.
    assert (Hd : bytes_at (memory m)
                   (ptr_add (frame_buffer o0) (Z.of_nat k * width o0))
                   (Z.to_nat (width o0))
                 = bytes_at h0
                     (ptr_add (frame_buffer o0) (Z.of_nat k * width o0))
                     (Z.to_nat (width o0))).
    { apply bytes_at_ext. intros i _. rewrite buffer. cbn [ptr_add load].
      apply Gh. intro E. inversion E. }
    rewrite Hd.
    assert (Hp : bytes_at (memory m) (Ptr B_cmd_dataprefix 0) 1
                 = [BusByte 0x40]).
    { unfold bytes_at. cbn [seq map ptr_add load Z.of_nat Z.add].
      rewrite Gh by (intro E; inversion E).
      destruct statics as (_ & _ & _ & _ & _ & S5). now rewrite S5. }
    rewrite Hp.
    unfold select_page_frame, page_data_frame. subst dev w.
    cbn [tl app]. repeat (rewrite <- ?app_assoc; cbn [app]). reflexivity.
  - (* the lock *)
    replace (Z.to_nat (w + 11))
      with (7 + (1 + (S (1 + Z.to_nat (width o0)) + 1)))%nat by (subst w; lia).
    assert (L0 : busy_lock (oled m) = 0) by (rewrite Go; reflexivity).
    assert (L2 : busy_lock (oled m2) = 0).
    { pose proof (proj1 (fsm_events_frame 7 m)) as F. rewrite E2 in F.
      cbn [fst] in F. congruence. }
    assert (L4 : busy_lock (oled m4) = 0) by (rewrite Go4; reflexivity).
    assert (L5 : busy_lock (oled m5) = 0).
    { pose proof (proj1 (fsm_events_frame (S (1 + Z.to_nat (width o0))) m4))
        as F. rewrite E5 in F. cbn [fst] in F. congruence. }
    assert (L7 : busy_lock (oled m7) = 0) by (rewrite Go7; reflexivity).
    apply (held_through_app _ _ _ m2); [ | exact H2 | ].
    { apply (silent_events_hold _ _ _ E2 L0). }
    apply (held_through_app _ _ _ m4);
      [ | cbn [hw_events]; now rewrite C3 | ].
    { apply (held_step _ _ L2 C3 L4). }
    apply (held_through_app _ _ _ m5); [ | exact H5 | ].
    { apply (silent_events_hold _ _ _ E5 L4). }
    apply (held_step _ _ L5 C6 L7).
Qed.

End PageStep.

(** ** The whole refresh *)

Section Refresh.

Variables (o0 : OLED) (h0 : mem) (fbb : nat) (fbo : Z).
Hypothesis statics : statics_intact h0.
Hypothesis buffer : frame_buffer o0 = Ptr (B_ext fbb) fbo.
Hypothesis width_range : 1 <= width o0 <= 255.
Hypothesis pages_range : 0 <= num_pages o0 <= 255.

Let dev := u8 (Z.shiftl (i2c_addr o0) 1).
Let w := width o0.
Let page_events := Z.to_nat (w + 11).
Let frames (i : nat) : list bus_event :=
  select_page_frame dev (Z.of_nat i)
  ++ page_data_frame dev h0 (frame_buffer o0) w (Z.of_nat i).

(** [n] pages in a row, from page [k] on. *)
Lemma pages_run : forall n k m W,
  at_page o0 h0 (Z.of_nat k) m ->
  wire m = W ++ [BusStart] ->
  Z.of_nat (k + n) <= num_pages o0 ->
  exists m',
    hw_events (n * page_events) m = Some m'
    /\ at_page o0 h0 (Z.of_nat (k + n)) m'
    /\ wire m' = W ++ flat_map frames (seq k n) ++ [BusStart]
    /\ held_through (n * page_events) m.
Proof.
  induction n as [|n IH]; intros k m W A HW Hn.
  - exists m. rewrite Nat.add_0_r. cbn [Nat.mul hw_events seq flat_map app].
    split; [reflexivity|]. split; [exact A|]. split; [exact HW|].
    intros j Hj. assert (j = 0%nat) by lia. subst j. exists m.
    split; [reflexivity|]. destruct A as (_ & Go & _). rewrite Go. reflexivity.
  - destruct (page_step o0 h0 fbb fbo statics buffer width_range pages_range
                k m A ltac:(lia)) as (m1 & E1 & A1 & W1 & L1).
    fold w in E1, W1, L1. fold dev in W1. fold page_events in E1, L1.
    destruct (IH (S k) m1 (W ++ frames k) A1) as (m' & E & A' & W' & L');
      [ | lia | ].
    { rewrite W1, HW. unfold frames, select_page_frame.
      cbn [tl app]. repeat (rewrite <- ?app_assoc; cbn [app]). reflexivity. }
    exists m'. cbn [Nat.mul]. split; [|split; [|split]].
    + rewrite hw_events_app, E1. exact E.
    + replace (k + S n)%nat with (S k + n)%nat by lia. exact A'.
    + rewrite W'. cbn [seq flat_map]. rewrite <- !app_assoc. reflexivity.
    + apply (held_through_app _ _ _ m1); assumption.
Qed.

(** After the last page the sequencer is at page [num_pages]: the
    select-page command for that index is in flight, and its completion
    releases the lock. *)
Lemma refresh_tail : forall m,
  at_page o0 h0 (num_pages o0) m ->
  exists m',
    hw_events 8 m = Some m'
    /\ wire m' = wire m ++ tl (select_page_frame dev (num_pages o0))
    /\ busy_lock (oled m') = 1
    /\ i2c_state (i2c m') = I2C_STATE_IDLE
    /\ held_through 7 m.
Proof.
  intros m A.
  pose proof (select_bytes _ _ _ _ A statics) as SB.
  destruct A as (Gi & Go & G5 & Gh).
  destruct (transaction_hw_of m _ _ _ _ _ _ _ _ 7%nat Gi)
    as (m2 & m3 & E2 & H2 & C3 & Gs3 & Go3 & Gm3 & Gw3);
    [lia | lia | reflexivity |].
  change (Z.to_nat (sent_count (Ptr B_cmd_setpage 0) 6)) with 6%nat in Gw3.
  change (Z.to_nat (sent_count NULL 0)) with 0%nat in Gw3.
  change (bytes_at (memory m) NULL 0) with (@nil bus_event) in Gw3.
  rewrite SB in Gw3. cbn [app] in Gw3. cbn [call_cbk] in C3.
  rewrite writepage_terminates in C3
    by (rewrite Go3, Go; cbn; lia).
  exists (OLED_unlock m3). split; [|split; [|split; [|split]]].
  - change 8%nat with (7 + 1)%nat. rewrite hw_events_app, H2.
    cbn [hw_events]. now rewrite C3.
  - cbn [OLED_unlock set_oled wire]. rewrite Gw3. reflexivity.
  - reflexivity.
  - exact Gs3.
  - apply (silent_events_hold _ _ _ E2). rewrite Go. reflexivity.
Qed.

End Refresh.

(** [OLED_refresh] on an idle bus with the lock free: it takes the lock,
    resets the page cursor and submits the select-page command of page 0. *)
Lemma refresh_starts : forall fuel m,
  i2c_state (i2c m) = I2C_STATE_IDLE ->
  busy_lock (oled m) <> 0 ->
  exists m1,
    OLED_refresh fuel m = Some m1
    /\ at_page (oled m) (memory m) 0 m1
    /\ wire m1 = wire m ++ [BusStart].
Proof.
  intros fuel m Hs Hl. unfold OLED_refresh.
  assert (T : OLED_spinlock fuel m
              = Some (set_oled (set_busy_lock 0 (oled m)) m)).
  { destruct fuel; cbn [OLED_spinlock]; unfold OLED_trylock;
      destruct (Z.eqb_spec (busy_lock (oled m)) 0); try contradiction;
      reflexivity. }
  rewrite T.
  destruct (setwritepage_submits (spin_in_main fuel)
              (spin_in_main_accepts fuel)
              (set_oled (set_cur_page 0
                           (oled (set_oled (set_busy_lock 0 (oled m)) m)))
                        (set_oled (set_busy_lock 0 (oled m)) m)))
    as (m1 & E1 & Gi & Go & Gm & Gw); [exact Hs|].
  exists m1. split; [exact E1|]. split; [|exact Gw].
  unfold at_page. rewrite Gi, Go, Gm. cbn [oled set_oled memory cur_page
    set_cur_page i2c_addr set_busy_lock].
  split; [reflexivity|]. split; [reflexivity|]. split.
  - change (store (memory m) (Ptr B_cmd_setpage 5) (u8 (Z.lor 176 0))
              B_cmd_setpage 5)
      with (load (store (memory m) (Ptr B_cmd_setpage 5) (u8 (Z.lor 176 0)))
                 (Ptr B_cmd_setpage 5)).
    apply load_store_same.
  - intros b o Hbo.
    change (store (memory m) (Ptr B_cmd_setpage 5) (u8 (Z.lor 176 0)) b o)
      with (load (store (memory m) (Ptr B_cmd_setpage 5) (u8 (Z.lor 176 0)))
                 (Ptr b o)).
    rewrite load_store_other by congruence. reflexivity.
Qed.

Lemma select_page_low_nibble : forall p,
  0 <= p < 16 -> Z.land (u8 (Z.lor 0xB0 p)) 0x0F = p.
Proof.
  intros p Hp.
  assert (H : p = 0 \/ p = 1 \/ p = 2 \/ p = 3 \/ p = 4 \/ p = 5 \/ p = 6
              \/ p = 7 \/ p = 8 \/ p = 9 \/ p = 10 \/ p = 11 \/ p = 12
              \/ p = 13 \/ p = 14 \/ p = 15) by lia.
  repeat (destruct H as [->|H]; [reflexivity|]). subst p. reflexivity.
Qed.

Lemma statics_intact_demo : statics_intact (memory demo_idle).
Proof. vm_compute. repeat split. Qed.

(** C1 at the demo display of 128 x 64 pixels and 8 pages.  Once the
    transfer of page 7 has completed (1112 events) the lock is still held
    and a 17th transaction has started; the bus then sees a select-page
    command, ending in [0xB8], and only its completion releases the lock.
    The comment of [_i2c_cmd_setpage] gives [0xB0..0xB7] for that byte. *)
Lemma refresh_demo_extra_select :
  let m1 := match OLED_refresh 0 demo_idle with
            | Some m => m | None => demo_idle end in
  let m2 := match hw_events (8 * 139) m1 with Some m => m | None => m1 end in
  let m3 := match hw_events 8 m2 with Some m => m | None => m2 end in
  busy_lock (oled m2) = 0
  /\ i2c_state (i2c m2) = I2C_STATE_SLAVEADDR
  /\ skipn (length (wire m2)) (wire m3)
     = [BusByte 0x78; BusByte 0x80; BusByte 0x00; BusByte 0x80; BusByte 0x10;
        BusByte 0x80; BusByte 0xB8; BusStop]
  /\ busy_lock (oled m3) = 1
  /\ i2c_state (i2c m3) = I2C_STATE_IDLE.
Proof. vm_compute. repeat split. Qed.

(** A refresh called while the bring-up sequence is still in flight, as in
    oled_test.c: the submission of the first select-page command is rejected
    until the 14 events of that sequence have passed, and then goes out. *)
Example refresh_waits_for_bring_up :
  option_map (fun m => (length (wire m), i2c_state (i2c m), cur_page (oled m),
                        busy_lock (oled m)))
    (OLED_refresh 14 demo_busy)
  = Some (16%nat, I2C_STATE_SLAVEADDR, 0, 0)
  /\ OLED_refresh 13 demo_busy = None.
Proof. vm_compute. split; reflexivity. Qed.

(** ** The lock around a refresh *)

Lemma spinlock_blocked : forall fuel m,
  i2c_state (i2c m) = I2C_STATE_IDLE ->
  busy_lock (oled m) = 0 ->
  OLED_spinlock fuel m = None.
Proof.
  intros fuel m Hs Hl.
  destruct fuel; cbn [OLED_spinlock]; unfold OLED_trylock; rewrite Hl;
    cbn [Z.eqb]; [reflexivity|]. rewrite Hs. reflexivity.
Qed.

(** C5 as it is worded fails: the refresh below is started with the lock
    free, that is, not held by anybody, and goes ahead, taking the lock
    itself; started with the lock held by the caller it does not start at
    all, however long it may spin. *)
Lemma refresh_entered_without_lock :
  busy_lock (oled demo_idle) = 1
  /\ option_map (fun m1 => (busy_lock (oled m1), i2c_state (i2c m1)))
       (OLED_refresh 0 demo_idle) = Some (0, I2C_STATE_SLAVEADDR)
  /\ busy_lock (oled demo_locked) = 0
  /\ option_map (fun m1 => i2c_state (i2c m1)) (OLED_refresh 1000 demo_locked)
     = None.
Proof. vm_compute. repeat split. Qed.

(** ** Initialisation *)

Lemma OLED_init_accepted : forall w h fb f a m,
  exists m', __OLED_init w h fb f a m = (OLED_EOK, m')
             /\ oled m' = mkOLED w h fb 1 a 0 8.
Proof.
  intros. unfold __OLED_init, OLED_i2c_tx_shed, I2C_init.
  destruct (twps_loop 4 0 _) as [twps twbr]. cbn.
  eexists. split; reflexivity.
Qed.

(** C6, what the code does.  Whatever the width and the height,
    initialisation succeeds and leaves the display with a page count of 8:
    the height is stored but does not enter into the page count, which
    equals [height / 8] exactly for the heights from 64 to 71. *)
Theorem OLED_init_num_pages :
  forall w h fb f a m,
    fst (__OLED_init w h fb f a m) = OLED_EOK
    /\ num_pages (oled (snd (__OLED_init w h fb f a m))) = 8
    /\ height (oled (snd (__OLED_init w h fb f a m))) = h
    /\ (num_pages (oled (snd (__OLED_init w h fb f a m))) = h / 8
        <-> 64 <= h < 72).
Proof.
  intros. destruct (OLED_init_accepted w h fb f a m) as (m' & E & Go).
  rewrite E. cbn [fst snd]. rewrite Go. cbn [num_pages height].
  repeat split; intros; Z.to_euclidean_division_equations; lia.
Qed.

(** C6 as it is worded fails: a display initialised with a height of 32 has
    a page count of 8, where [32 / 8] is 4. *)
Lemma OLED_init_pages_not_from_height :
  height (oled (snd demo_init_32)) = 32
  /\ num_pages (oled (snd demo_init_32)) = 8
  /\ num_pages (oled (snd demo_init_32))
     <> height (oled (snd demo_init_32)) / 8.
Proof. vm_compute. repeat split. discriminate. Qed.

(** * Drawing *)

(** ** Pixels *)

Lemma mask_bit : forall k j, 0 <= k -> 0 <= j ->
  Z.testbit (Z.shiftl 1 k) j = (j =? k).
Proof.
  intros k j Hk Hj. rewrite Z.shiftl_spec by lia.
  destruct (Z.eqb_spec j k) as [->|N].
  - now rewrite Z.sub_diag.
  - destruct (Z.lt_ge_cases j k).
    + apply Z.testbit_neg_r. lia.
    + apply Z.bits_above_log2; [lia|]. change (Z.log2 1) with 0. lia.
Qed.

Lemma u8_testbit : forall z j, 0 <= j < 8 -> Z.testbit (u8 z) j = Z.testbit z j.
Proof.
  intros z j Hj. unfold u8. change 256 with (2 ^ 8).
  apply Z.mod_pow2_bits_low. lia.
Qed.

(** The byte [OLED_put_pixel_] stores, seen bit by bit. *)
Lemma put_byte_bit : forall b k j (c : bool),
  0 <= k < 8 -> 0 <= j < 8 ->
  Z.testbit (u8 (if c then Z.lor b (Z.shiftl 1 k)
                 else Z.land b (Z.lnot (Z.shiftl 1 k)))) j
  = if j =? k then c else Z.testbit b j.
Proof.
  intros b k j c Hk Hj. rewrite u8_testbit by lia. destruct c.
  - rewrite Z.lor_spec, mask_bit by lia.
    destruct (j =? k); [apply orb_true_r | apply orb_false_r].
  - rewrite Z.land_spec, Z.lnot_spec, mask_bit by lia.
    destruct (j =? k); cbn [negb]; [apply andb_false_r | apply andb_true_r].
Qed.

Lemma pixel_set : forall o x y c h b off,
  frame_buffer o = Ptr b off ->
  pixel_bit o x y (OLED_put_pixel_ o x y c h) = c.
Proof.
  intros o x y c h b off Hfb. unfold pixel_bit, OLED_put_pixel_, pixel_ptr.
  rewrite Hfb. cbn [ptr_add]. rewrite load_store_same.
  assert (0 <= y mod 8 < 8) by (apply Z.mod_pos_bound; lia).
  rewrite put_byte_bit by lia. now rewrite Z.eqb_refl.
Qed.

(** A pixel that has the colour being drawn keeps it, wherever the next
    pixel is put. *)
Lemma pixel_stable : forall o x y x' y' c h,
  pixel_bit o x y h = c ->
  pixel_bit o x y (OLED_put_pixel_ o x' y' c h) = c.
Proof.
  intros o x y x' y' c h H. unfold pixel_bit, OLED_put_pixel_, pixel_ptr in *.
  destruct (frame_buffer o) as [|b off]; cbn [ptr_add store load] in *; [exact H|].
  assert (0 <= y mod 8 < 8) by (apply Z.mod_pos_bound; lia).
  assert (0 <= y' mod 8 < 8) by (apply Z.mod_pos_bound; lia).
  rewrite block_eqb_refl. cbn [andb].
  destruct (Z.eqb_spec (off + (y' / 8 * width o + x'))
                       (off + (y / 8 * width o + x))) as [E|N]; [|exact H].
  rewrite put_byte_bit by lia. rewrite E.
  destruct (y mod 8 =? y' mod 8); [reflexivity | exact H].
Qed.

(** C8.  On a display with a frame buffer, [OLED_put_pixel] at a coordinate
    with [x < width] and [y < height] returns Ok and the bit of that pixel in
    the frame buffer equals the requested state afterwards; at a coordinate
    with [x >= width] or [y >= height] it returns Bounds and leaves the
    memory, frame buffer included, as it was. *)
Theorem put_pixel_roundtrip :
  forall o x y pixel_state h b off,
    frame_buffer o = Ptr b off ->
    (x < width o -> y < height o ->
       fst (OLED_put_pixel o x y pixel_state h) = OLED_EOK
       /\ pixel_bit o x y (snd (OLED_put_pixel o x y pixel_state h))
          = pixel_state)
    /\ (width o <= x \/ height o <= y ->
       OLED_put_pixel o x y pixel_state h = (OLED_EBOUNDS, h)).
Proof.
  intros o x y c h b off Hfb. unfold OLED_put_pixel. split.
  - intros Hx Hy.
    destruct (Z.leb_spec (width o) x); [lia|].
    destruct (Z.leb_spec (height o) y); [lia|].
    cbn [orb fst snd]. split; [reflexivity|]. now apply (pixel_set _ _ _ _ _ b off).
  - intros [Hx|Hy].
    + destruct (Z.leb_spec (width o) x); [reflexivity|lia].
    + destruct (Z.leb_spec (height o) y); [now rewrite orb_true_r|lia].
Qed.

Lemma put_pixel_roundtrip_witness :
  (fst (OLED_put_pixel small_oled 3 9 true static_mem) = OLED_EOK
   /\ pixel_bit small_oled 3 9
        (snd (OLED_put_pixel small_oled 3 9 true static_mem)) = true)
  /\ OLED_put_pixel small_oled 16 9 true static_mem = (OLED_EBOUNDS, static_mem).
Proof.
  destruct (put_pixel_roundtrip small_oled 3 9 true static_mem (B_ext 0) 0
              eq_refl) as [A _].
  destruct (put_pixel_roundtrip small_oled 16 9 true static_mem (B_ext 0) 0
              eq_refl) as [_ B].
  split.
  - apply A; reflexivity.
  - apply B. left. cbn. lia.
Defined.

(** ** Loops over a [uint8_t] counter *)

(** A loop whose bound is below 255 ends, and carries an invariant from the
    first value of the counter to one past the bound. *)
Lemma for_u8_inv : forall (P : Z -> mem -> Prop) body b,
  b <= 254 ->
  (forall x h, 0 <= x <= b -> P x h ->
     exists h', body x h = Some h' /\ P (x + 1) h') ->
  forall n fuel a h,
    0 <= a -> Z.of_nat n = b + 1 - a -> (n < fuel)%nat -> P a h ->
    exists h', for_u8 fuel a b body h = Some h' /\ P (b + 1) h'.
Proof.
  intros P body b Hb Hbody.
  induction n as [|n IH]; intros fuel a h Ha Hn Hf HP;
    (destruct fuel as [|fuel]; [lia|]); cbn [for_u8].
  - destruct (Z.leb_spec a b); [lia|].
    exists h. split; [reflexivity|]. now replace (b + 1) with a by lia.
  - destruct (Z.leb_spec a b); [|lia].
    destruct (Hbody a h ltac:(lia) HP) as (h1 & E1 & P1). rewrite E1.
    rewrite u8_small by lia.
    apply IH; auto; lia.
Qed.

(** ** Rectangles *)

Lemma limit_coords_spec : forall o x_from y_from x_to y_to,
  1 <= width o <= 255 -> 1 <= height o <= 255 ->
  limit_coords o x_from y_from x_to y_to
  = (Z.min x_from (width o - 1), Z.min y_from (height o - 1),
     Z.min x_to (width o - 1), Z.min y_to (height o - 1),
     out_of_range o x_from y_from x_to y_to).
Proof.
  intros o xf yf xt yt Hw Hh. unfold limit_coords, out_of_range.
  rewrite !u8_small by lia.
  destruct (Z.ltb_spec (width o - 1) xf), (Z.leb_spec (width o) xf); try lia;
  destruct (Z.ltb_spec (width o - 1) xt), (Z.leb_spec (width o) xt); try lia;
  destruct (Z.ltb_spec (height o - 1) yf), (Z.leb_spec (height o) yf); try lia;
  destruct (Z.ltb_spec (height o - 1) yt), (Z.leb_spec (height o) yt); try lia;
  repeat (f_equal; try lia).
Qed.

Lemma out_of_range_bounds : forall o xf yf xt yt,
  0 <= out_of_range o xf yf xt yt <= 4.
Proof.
  intros. unfold out_of_range.
  destruct (width o <=? xf), (width o <=? xt), (height o <=? yf),
    (height o <=? yt); lia.
Qed.

Lemma out_of_range_clamped : forall o xf yf xt yt,
  1 <= width o -> 1 <= height o ->
  out_of_range o (Z.min xf (width o - 1)) (Z.min yf (height o - 1))
                 (Z.min xt (width o - 1)) (Z.min yt (height o - 1)) = 0.
Proof.
  intros. unfold out_of_range.
  destruct (Z.leb_spec (width o) (Z.min xf (width o - 1))); [lia|].
  destruct (Z.leb_spec (width o) (Z.min xt (width o - 1))); [lia|].
  destruct (Z.leb_spec (height o) (Z.min yf (height o - 1))); [lia|].
  destruct (Z.leb_spec (height o) (Z.min yt (height o - 1))); [lia|].
  reflexivity.
Qed.

Section Painting.

Variables (o : OLED) (b : block) (off : Z) (c : bool).
Hypothesis buffer : frame_buffer o = Ptr b off.

(** The filling loops paint every pixel of the area. *)
Lemma fill_loops : forall fuel sx ex sy ey h,
  0 <= sx <= ex -> ex <= 254 -> 0 <= sy <= ey -> ey <= 254 ->
  (256 <= fuel)%nat ->
  exists h',
    for_u8 fuel sx ex
      (fun x => for_u8 fuel sy ey
                  (fun y h => Some (OLED_put_pixel_ o x y c h))) h = Some h'
    /\ forall x y, sx <= x <= ex -> sy <= y <= ey -> pixel_bit o x y h' = c.
Proof.
  intros fuel sx ex sy ey h Hx Hex Hy Hey Hf.
  set (P := fun (x : Z) (h : mem) =>
              sx <= x /\ forall x' y', sx <= x' < x -> sy <= y' <= ey ->
                                       pixel_bit o x' y' h = c).
  destruct (for_u8_inv P
              (fun x => for_u8 fuel sy ey
                          (fun y h => Some (OLED_put_pixel_ o x y c h)))
              ex Hex) with (n := Z.to_nat (ex + 1 - sx)) (fuel := fuel)
                           (a := sx) (h := h)
    as (h' & E & [_ HP]); try lia.
  - intros x h1 Hx1 [Hsx H1].
    set (Q := fun (y : Z) (h : mem) =>
                sy <= y
                /\ (forall x' y', sx <= x' < x -> sy <= y' <= ey ->
                                  pixel_bit o x' y' h = c)
                /\ forall y', sy <= y' < y -> pixel_bit o x y' h = c).
    destruct (for_u8_inv Q (fun y h => Some (OLED_put_pixel_ o x y c h))
                ey Hey) with (n := Z.to_nat (ey + 1 - sy)) (fuel := fuel)
                             (a := sy) (h := h1)
      as (h2 & E2 & (_ & Q1 & Q2)); try lia.
    + intros y h3 Hy3 (Hsy & Q1 & Q2). eexists. split; [reflexivity|].
      split; [lia|]. split.
      * intros x' y' Hx' Hy'. apply pixel_stable. now apply Q1.
      * intros y' Hy'. destruct (Z.eq_dec y' y) as [->|N].
        -- now apply (pixel_set _ _ _ _ _ b off).
        -- apply pixel_stable. apply Q2. lia.
    + split; [lia|]. split; [exact H1|]. intros; lia.
    + exists h2. split; [exact E2|]. split; [lia|].
      intros x' y' Hx' Hy'. destruct (Z.eq_dec x' x) as [->|N].
      * apply Q2. lia.
      * apply Q1; lia.
  - split; [lia|]. intros; lia.
  - exists h'. split; [exact E|]. intros x y Hxx Hyy. apply HP; lia.
Qed.

(** The two loops of the outline paint its four sides. *)
Lemma outline_loops : forall fuel sx ex sy ey h,
  0 <= sx <= ex -> ex <= 254 -> 0 <= sy <= ey -> ey <= 254 ->
  (256 <= fuel)%nat ->
  exists h1 h',
    for_u8 fuel sx ex
      (fun x h => Some (OLED_put_pixel_ o x ey c
                          (OLED_put_pixel_ o x sy c h))) h = Some h1
    /\ for_u8 fuel sy ey
         (fun y h => Some (OLED_put_pixel_ o ex y c
                             (OLED_put_pixel_ o sx y c h))) h1 = Some h'
    /\ (forall x, sx <= x <= ex ->
          pixel_bit o x sy h' = c /\ pixel_bit o x ey h' = c)
    /\ (forall y, sy <= y <= ey ->
          pixel_bit o sx y h' = c /\ pixel_bit o ex y h' = c).
Proof.
  intros fuel sx ex sy ey h Hx Hex Hy Hey Hf.
  set (P := fun (x : Z) (h : mem) =>
              sx <= x /\ forall x', sx <= x' < x ->
                pixel_bit o x' sy h = c /\ pixel_bit o x' ey h = c).
  destruct (for_u8_inv P
              (fun x h => Some (OLED_put_pixel_ o x ey c
                                  (OLED_put_pixel_ o x sy c h)))
              ex Hex) with (n := Z.to_nat (ex + 1 - sx)) (fuel := fuel)
                           (a := sx) (h := h)
    as (h1 & E1 & [_ HP]); try lia.
  { intros x h2 Hx2 [Hsx H2]. eexists. split; [reflexivity|].
    split; [lia|]. intros x' Hx'. destruct (Z.eq_dec x' x) as [->|N].
    - split.
      + apply pixel_stable. now apply (pixel_set _ _ _ _ _ b off).
      + now apply (pixel_set _ _ _ _ _ b off).
    - destruct (H2 x' ltac:(lia)) as [A B].
      split; apply pixel_stable, pixel_stable; assumption. }
  { split; [lia|]. intros; lia. }
  set (Q := fun (y : Z) (h : mem) =>
              sy <= y
              /\ (forall x', sx <= x' <= ex ->
                    pixel_bit o x' sy h = c /\ pixel_bit o x' ey h = c)
              /\ forall y', sy <= y' < y ->
                   pixel_bit o sx y' h = c /\ pixel_bit o ex y' h = c).
  destruct (for_u8_inv Q
              (fun y h => Some (OLED_put_pixel_ o ex y c
                                  (OLED_put_pixel_ o sx y c h)))
              ey Hey) with (n := Z.to_nat (ey + 1 - sy)) (fuel := fuel)
                           (a := sy) (h := h1)
    as (h' & E & (_ & Q1 & Q2)); try lia.
  { intros y h2 Hy2 (Hsy & Q1 & Q2). eexists. split; [reflexivity|].
    split; [lia|]. split.
    - intros x' Hx'. destruct (Q1 x' Hx') as [A B].
      split; apply pixel_stable, pixel_stable; assumption.
    - intros y' Hy'. destruct (Z.eq_dec y' y) as [->|N].
      + split.
        * apply pixel_stable. now apply (pixel_set _ _ _ _ _ b off).
        * now apply (pixel_set _ _ _ _ _ b off).
      + destruct (Q2 y' ltac:(lia)) as [A B].
        split; apply pixel_stable, pixel_stable; assumption. }
  { split; [lia|]. split; [|intros; lia]. intros x' Hx'. apply HP. lia. }
  exists h1, h'. split; [exact E1|]. split; [exact E|]. split.
  - exact Q1.
  - intros y Hyy. apply Q2. lia.
Qed.

End Painting.

Section DrawingFacts.

Variable OLED_BLACK OLED_FILL : Z.
Variable OLED_put_line : OLED -> Z -> Z -> Z -> Z -> Z -> mem -> mem.


(** C7.  For every [params] above [OLED_BLACK | OLED_FILL],
    [OLED_put_rectangle] and [OLED_put_roundRect] return
    [OLED_EPARAMS] at once, whatever the display, the coordinates and the
    radius, and leave the memory, frame buffer included, as it was. *)
Theorem invalid_params_rejected :
  forall fuel o x_from y_from x_to y_to r params h,
    Z.lor OLED_BLACK OLED_FILL < params ->
    OLED_put_rectangle OLED_BLACK OLED_FILL fuel o x_from y_from x_to y_to
      params h = Some (OLED_EPARAMS, h)
    /\ OLED_put_roundRect OLED_BLACK OLED_FILL OLED_put_line fuel o
         x_from y_from x_to y_to r params h = Some (OLED_EPARAMS, h).
Proof.
  intros fuel o xf yf xt yt r params h Hp.
  unfold OLED_put_rectangle, OLED_put_roundRect, params_max.
  destruct (Z.ltb_spec (Z.lor OLED_BLACK OLED_FILL) params); [|lia].
  split; reflexivity.
Qed.

(** A rectangle whose coordinates are limited is drawn as the rectangle
    of the limited coordinates. *)
Lemma put_rectangle_limited : forall fuel o xf yf xt yt params h,
  1 <= width o <= 255 -> 1 <= height o <= 255 ->
  out_of_range o xf yf xt yt < 4 ->
  OLED_put_rectangle OLED_BLACK OLED_FILL fuel o xf yf xt yt params h
  = OLED_put_rectangle OLED_BLACK OLED_FILL fuel o (Z.min xf (width o - 1)) (Z.min yf (height o - 1))
      (Z.min xt (width o - 1)) (Z.min yt (height o - 1)) params h.
Proof.
  intros fuel o xf yf xt yt params h Hw Hh Ho.
  unfold OLED_put_rectangle.
  destruct (params_max OLED_BLACK OLED_FILL <? params); [reflexivity|].
  rewrite !limit_coords_spec by assumption.
  rewrite out_of_range_clamped by lia.
  replace (Z.min (Z.min xf (width o - 1)) (width o - 1))
    with (Z.min xf (width o - 1)) by lia.
  replace (Z.min (Z.min xt (width o - 1)) (width o - 1))
    with (Z.min xt (width o - 1)) by lia.
  replace (Z.min (Z.min yf (height o - 1)) (height o - 1))
    with (Z.min yf (height o - 1)) by lia.
  replace (Z.min (Z.min yt (height o - 1)) (height o - 1))
    with (Z.min yt (height o - 1)) by lia.
  destruct (Z.leb_spec 4 (out_of_range o xf yf xt yt)); [lia|].
  reflexivity.
Qed.

(** A rectangle within the display is drawn, and painted. *)
Lemma put_rectangle_in_range : forall fuel o b off xf yf xt yt params h,
  frame_buffer o = Ptr b off ->
  1 <= width o <= 255 -> 1 <= height o <= 255 ->
  0 <= xf < width o -> 0 <= yf < height o ->
  0 <= xt < width o -> 0 <= yt < height o ->
  params <= params_max OLED_BLACK OLED_FILL -> (256 <= fuel)%nat ->
  exists h',
    OLED_put_rectangle OLED_BLACK OLED_FILL fuel o xf yf xt yt params h = Some (OLED_EOK, h')
    /\ rect_painted o (Z.min xf xt) (Z.max xf xt) (Z.min yf yt) (Z.max yf yt)
         (negb (Z.land OLED_FILL params =? 0))
         (negb (Z.land OLED_BLACK params =? 0)) h'.
Proof.
  intros fuel o b off xf yf xt yt params h Hfb Hw Hh Hxf Hyf Hxt Hyt Hp Hf.
  unfold OLED_put_rectangle.
  destruct (Z.ltb_spec (params_max OLED_BLACK OLED_FILL) params); [lia|].
  rewrite limit_coords_spec by assumption.
  replace (Z.min xf (width o - 1)) with xf by lia.
  replace (Z.min xt (width o - 1)) with xt by lia.
  replace (Z.min yf (height o - 1)) with yf by lia.
  replace (Z.min yt (height o - 1)) with yt by lia.
  assert (O0 : out_of_range o xf yf xt yt = 0).
  { unfold out_of_range.
    destruct (Z.leb_spec (width o) xf); [lia|].
    destruct (Z.leb_spec (width o) xt); [lia|].
    destruct (Z.leb_spec (height o) yf); [lia|].
    destruct (Z.leb_spec (height o) yt); [lia|]. reflexivity. }
  rewrite O0. cbn [Z.leb Z.compare].
  assert (Esx : (if xt <? xf then xt else xf) = Z.min xf xt)
    by (destruct (Z.ltb_spec xt xf); lia).
  assert (Eex : (if xf <? xt then xt else xf) = Z.max xf xt)
    by (destruct (Z.ltb_spec xf xt); lia).
  assert (Esy : (if yt <? yf then yt else yf) = Z.min yf yt)
    by (destruct (Z.ltb_spec yt yf); lia).
  assert (Eey : (if yf <? yt then yt else yf) = Z.max yf yt)
    by (destruct (Z.ltb_spec yf yt); lia).
  rewrite Esx, Eex, Esy, Eey. unfold rect_painted.
  destruct (negb (Z.land OLED_FILL params =? 0)).
  - destruct (fill_loops o b off (negb (Z.land OLED_BLACK params =? 0)) Hfb
                fuel (Z.min xf xt) (Z.max xf xt) (Z.min yf yt) (Z.max yf yt) h)
      as (h' & E & Hpaint); try lia.
    rewrite E. exists h'. split; [reflexivity|exact Hpaint].
  - destruct (outline_loops o b off (negb (Z.land OLED_BLACK params =? 0)) Hfb
                fuel (Z.min xf xt) (Z.max xf xt) (Z.min yf yt) (Z.max yf yt) h)
      as (h1 & h' & E1 & E & Hpaint); try lia.
    rewrite E1, E. exists h'. split; [reflexivity|exact Hpaint].
Qed.

(** C10.  On a display of at least one pixel each way, with valid flags:
    [OLED_put_rectangle] returns Bounds, the memory untouched, when all
    four coordinates are out of range, and only then; when fewer are, each
    coordinate out of range is limited to [width - 1] or [height - 1], the
    call returns Ok and does what the call with the limited coordinates
    does, which is to paint the rectangle they span into the frame
    buffer. *)
Theorem put_rectangle_clamps :
  forall fuel o b off x_from y_from x_to y_to params h,
    frame_buffer o = Ptr b off ->
    1 <= width o <= 255 -> 1 <= height o <= 255 ->
    0 <= x_from -> 0 <= y_from -> 0 <= x_to -> 0 <= y_to ->
    params <= params_max OLED_BLACK OLED_FILL -> (256 <= fuel)%nat ->
    let cx_from := Z.min x_from (width o - 1) in
    let cy_from := Z.min y_from (height o - 1) in
    let cx_to := Z.min x_to (width o - 1) in
    let cy_to := Z.min y_to (height o - 1) in
    let res := OLED_put_rectangle OLED_BLACK OLED_FILL fuel o
                 x_from y_from x_to y_to params h in
    (out_of_range o x_from y_from x_to y_to = 4 ->
       res = Some (OLED_EBOUNDS, h))
    /\ (forall h', res = Some (OLED_EBOUNDS, h') ->
          out_of_range o x_from y_from x_to y_to = 4)
    /\ (out_of_range o x_from y_from x_to y_to < 4 ->
        exists h',
          res = Some (OLED_EOK, h')
          /\ OLED_put_rectangle OLED_BLACK OLED_FILL fuel o
               cx_from cy_from cx_to cy_to params h = res
          /\ rect_painted o (Z.min cx_from cx_to) (Z.max cx_from cx_to)
               (Z.min cy_from cy_to) (Z.max cy_from cy_to)
               (negb (Z.land OLED_FILL params =? 0))
               (negb (Z.land OLED_BLACK params =? 0)) h').
Proof.
  intros fuel o b off xf yf xt yt params h Hfb Hw Hh Hxf Hyf Hxt Hyt Hp Hf
         cxf cyf cxt cyt res.
  assert (Hlt : out_of_range o xf yf xt yt < 4 ->
                exists h',
                  res = Some (OLED_EOK, h')
                  /\ OLED_put_rectangle OLED_BLACK OLED_FILL fuel o cxf cyf cxt cyt params h = res
                  /\ rect_painted o (Z.min cxf cxt) (Z.max cxf cxt)
                       (Z.min cyf cyt) (Z.max cyf cyt)
                       (negb (Z.land OLED_FILL params =? 0))
                       (negb (Z.land OLED_BLACK params =? 0)) h').
  { intro Ho. subst res.
    rewrite (put_rectangle_limited fuel o xf yf xt yt params h Hw Hh Ho).
    fold cxf cyf cxt cyt.
    destruct (put_rectangle_in_range fuel o b off cxf cyf cxt cyt params h)
      as (h' & E & Hpaint); auto; try (subst cxf cyf cxt cyt; lia).
    exists h'. split; [exact E|]. split; [reflexivity|exact Hpaint]. }
  split; [|split; [|exact Hlt]].
  - intro Ho. subst res. unfold OLED_put_rectangle.
    destruct (Z.ltb_spec (params_max OLED_BLACK OLED_FILL) params); [lia|].
    rewrite limit_coords_spec by assumption. rewrite Ho. reflexivity.
  - intros h' Hr.
    pose proof (out_of_range_bounds o xf yf xt yt) as Hb.
    destruct (Z.eq_dec (out_of_range o xf yf xt yt) 4) as [E|N]; [exact E|].
    destruct (Hlt ltac:(lia)) as (h2 & E2 & _). congruence.
Qed.

End DrawingFacts.

Lemma invalid_params_rejected_witness :
  OLED_put_rectangle 1 2 0 small_oled 0 0 5 5 4 static_mem
    = Some (OLED_EPARAMS, static_mem)
  /\ OLED_put_roundRect 1 2 no_line 0 small_oled 0 0 5 5 2 4 static_mem
    = Some (OLED_EPARAMS, static_mem).
Proof.
  apply (invalid_params_rejected 1 2 no_line 0 small_oled 0 0 5 5 2 4 static_mem).
  reflexivity.
Defined.

Lemma put_rectangle_clamps_witness :
  exists h',
    OLED_put_rectangle 1 2 256 small_oled 2 3 200 5 3 static_mem
      = Some (OLED_EOK, h')
    /\ OLED_put_rectangle 1 2 256 small_oled 2 3 15 5 3 static_mem
      = Some (OLED_EOK, h')
    /\ pixel_bit small_oled 15 4 h' = true.
Proof.
  destruct (put_rectangle_clamps 1 2 256 small_oled (B_ext 0) 0 2 3 200 5 3
              static_mem) as (_ & _ & G).
  - reflexivity.
  - vm_compute. split; discriminate.
  - vm_compute. split; discriminate.
  - lia.
  - lia.
  - lia.
  - lia.
  - vm_compute. discriminate.
  - apply Nat.le_refl.
  - destruct G as (h' & E & E' & P); [vm_compute; reflexivity|].
    exists h'. split; [exact E|]. split; [now rewrite <- E|].
    apply (P 15 4); vm_compute; split; discriminate.
Defined.

(** * More of the I2C engine *)

(** ** One transaction at a time *)

Lemma ISR_fsm_silent_busy : forall m m',
  ISR_fsm m = (m', None) -> i2c_state (i2c m') <> I2C_STATE_IDLE.
Proof.
  intros m m'. unfold ISR_fsm.
  destruct (i2c_state (i2c m)); intro H; try discriminate;
    injection H as <-; cbn.
  - destruct (is_null (i2c_prefix_ptr (i2c m)));
      destruct (is_null (i2c_data_ptr (i2c m))); cbn; discriminate.
  - destruct (uptr (i2c_prefix_count (i2c m) - 1) =? 0);
      [destruct (is_null (i2c_data_ptr (i2c m)))|]; discriminate.
  - destruct (u16 (i2c_data_count (i2c m) - 1) =? 0); discriminate.
Qed.

Lemma fsm_events_silent_busy : forall n m m',
  fsm_events n m = (m', []) ->
  i2c_state (i2c m) <> I2C_STATE_IDLE ->
  i2c_state (i2c m') <> I2C_STATE_IDLE.
Proof.
  induction n as [|n IH]; intros m m' H Hb; cbn [fsm_events] in H.
  - now injection H as <-.
  - destruct (ISR_fsm m) as [m1 f] eqn:E1.
    destruct (fsm_events n m1) as [m2 fs] eqn:E2.
    destruct f; [discriminate|]. injection H as <- ->.
    apply (IH m1); [exact E2|]. now apply (ISR_fsm_silent_busy m).
Qed.

Lemma tx_shed_rejected : forall addr prefix p bytes d cb arg ff m,
  i2c_state (i2c m) <> I2C_STATE_IDLE ->
  OLED_i2c_tx_shed addr prefix p bytes d cb arg ff m = (false, m).
Proof.
  intros. unfold OLED_i2c_tx_shed. destruct (i2c_state (i2c m)); congruence.
Qed.

(** X1.  From the acceptance of a request up to its stop event the slot is
    taken: after the acceptance and after each of the address, prefix and
    data events every further submission, whatever its arguments, is
    rejected and leaves the machine as it is.  At the stop event the
    handler sets the bus state to Idle before it calls the callback of the
    request: in the state in which the callback is called a submission,
    such as the chained callbacks of [oled.c] make, is accepted.  When the
    callback submits nothing ([OLED_cbk_empty], [OLED_cbk_unlock]) a
    submission is accepted after the stop event. *)
Theorem slot_taken_until_stop :
  forall addr prefix p bytes d cb arg ff m m1,
    OLED_i2c_tx_shed addr prefix p bytes d cb arg ff m = (true, m1) ->
    0 <= p < 256 -> 0 <= d < 65536 ->
    let n := S (Z.to_nat (sent_count prefix p) + Z.to_nat (sent_count bytes d)) in
    (forall j, (j <= n)%nat ->
       exists mj,
         hw_events j m1 = Some mj
         /\ forall addr' prefix' p' bytes' d' cb' arg' ff',
              OLED_i2c_tx_shed addr' prefix' p' bytes' d' cb' arg' ff' mj
              = (false, mj))
    /\ (exists mn mc,
          hw_events n m1 = Some mn
          /\ ISR_fsm mn = (mc, Some (cb, arg))
          /\ ISR mn = call_cbk spin_in_isr cb arg mc
          /\ forall addr' prefix' p' bytes' d' cb' arg' ff',
               fst (OLED_i2c_tx_shed addr' prefix' p' bytes' d' cb' arg' ff'
                      mc) = true)
    /\ (cb = Cbk_empty \/ (cb = Cbk_unlock /\ arg = Arg_oled) ->
        exists m',
          hw_events (S n) m1 = Some m'
          /\ forall addr' prefix' p' bytes' d' cb' arg' ff',
               fst (OLED_i2c_tx_shed addr' prefix' p' bytes' d' cb' arg' ff'
                      m') = true).
Proof.
  intros until m1. intros H Hp Hd n.
  destruct (completion_after _ _ _ _ _ _ _ _ _ _ H ltac:(lia) Hd)
    as (m2 & m3 & E2 & _ & E3 & _ & Gs & _).
  fold n in E2.
  destruct (tx_shed_accepted _ _ _ _ _ _ _ _ _ _ H) as (_ & Gi & _).
  assert (En : hw_events n m1 = Some m2) by now apply fsm_events_silent.
  assert (EI : ISR m2 = call_cbk spin_in_isr cb arg m3)
    by (unfold ISR; now rewrite E3).
  assert (A : forall mc, i2c_state (i2c mc) = I2C_STATE_IDLE ->
              forall addr' prefix' p' bytes' d' cb' arg' ff',
                fst (OLED_i2c_tx_shed addr' prefix' p' bytes' d' cb' arg' ff'
                       mc) = true).
  { intros mc Hc. intros. unfold OLED_i2c_tx_shed. now rewrite Hc. }
  split; [|split].
  - intros j Hj.
    pose proof (fsm_events_prefix_silent j n m1 m2 E2 Hj) as S.
    destruct (fsm_events j m1) as [mj lj] eqn:E. cbn [snd] in S. subst lj.
    exists mj. split; [now apply fsm_events_silent|].
    intros. apply tx_shed_rejected.
    apply (fsm_events_silent_busy j m1 mj E). rewrite Gi. discriminate.
  - exists m2, m3. split; [exact En|]. split; [exact E3|].
    split; [exact EI|]. now apply A.
  - intros Hcb.
    assert (E : exists m', ISR m2 = Some m'
                           /\ i2c_state (i2c m') = I2C_STATE_IDLE).
    { rewrite EI. destruct Hcb as [->|[-> ->]]; cbn [call_cbk].
      - exists m3. split; [reflexivity | exact Gs].
      - exists (OLED_unlock m3). split; [reflexivity | exact Gs]. }
    destruct E as (m' & E & Gs').
    exists m'. split; [|now apply A].
    replace (S n) with (n + 1)%nat by lia.
    rewrite hw_events_app, En. cbn [hw_events]. now rewrite E.
Qed.

Lemma slot_taken_until_stop_witness :
  (exists mj, hw_events 13 demo_busy = Some mj
              /\ OLED_i2c_tx_shed 0x3C (Ptr B_cmd_setpage 0) 6 NULL 0
                   Cbk_writepage Arg_oled true mj = (false, mj))
  /\ (exists m', hw_events 14 demo_busy = Some m'
                 /\ fst (OLED_i2c_tx_shed 0x3C (Ptr B_cmd_setpage 0) 6 NULL 0
                           Cbk_writepage Arg_oled true m') = true).
Proof.
  destruct (slot_taken_until_stop 0x3C (Ptr B_cmd_init 0) 12 NULL 0
              Cbk_empty Arg_NULL true
              (I2C_init 200000
                 (set_oled (mkOLED 128 64 demo_fb 1 0x3C 0 8)
                           (reset_machine static_mem)))
              demo_busy) as (A & _ & C).
  - reflexivity.
  - lia.
  - lia.
  - split.
    + destruct (A 13%nat) as (mj & E & R).
      * vm_compute. repeat constructor.
      * exists mj. split; [exact E | apply R].
    + destruct C as (m' & E & R); [left; reflexivity|].
      exists m'. split; [exact E | apply R].
Defined.

(** ** Events on an idle bus *)

Lemma ISR_fsm_idle : forall m,
  i2c_state (i2c m) = I2C_STATE_IDLE ->
  exists m',
    ISR_fsm m = (m', Some (i2c_callback (i2c m), i2c_callback_args (i2c m)))
    /\ i2c m' = i2c m
    /\ wire m' = wire m ++ [BusStop].
Proof.
  intros m Hs. rewrite ISR_fsm_stop by auto. eexists. split; [reflexivity|].
  cbn. split; [|reflexivity].
  destruct (i2c m) as [a b c d e f g h s]. cbn in *. now subst s.
Qed.

Lemma idle_events_call_back : forall k m,
  i2c_state (i2c m) = I2C_STATE_IDLE ->
  snd (fsm_events k m)
  = repeat (i2c_callback (i2c m), i2c_callback_args (i2c m)) k.
Proof.
  induction k as [|k IH]; intros m Hs; [reflexivity|].
  destruct (ISR_fsm_idle m Hs) as (m' & E & Gi & _).
  cbn [fsm_events repeat]. rewrite E.
  specialize (IH m'). rewrite Gi in IH. specialize (IH Hs).
  destruct (fsm_events k m') as [m2 fs]. cbn [snd] in *. now rewrite IH.
Qed.

(** X2.  The handler treats an event on an idle bus like a stop event: it
    puts another stop condition on the bus and calls the callback of the
    last request again.  So the completion of a request is called once only
    if no event follows it: with [k] events after the completion of a
    request (whose callback submits nothing), the callback has been called
    [1 + k] times. *)
Theorem idle_events_repeat_the_callback :
  forall addr prefix p bytes d cb arg ff m m1 k,
    OLED_i2c_tx_shed addr prefix p bytes d cb arg ff m = (true, m1) ->
    0 <= p < 256 -> 0 <= d < 65536 ->
    let n := S (S (Z.to_nat (sent_count prefix p)
                   + Z.to_nat (sent_count bytes d))) in
    snd (fsm_events (n + k) m1) = repeat (cb, arg) (S k).
Proof.
  intros until k. intros H Hp Hd n.
  destruct (completion_after _ _ _ _ _ _ _ _ _ _ H ltac:(lia) Hd)
    as (m2 & m3 & E2 & Gs2 & E3 & E4 & Gs & _).
  fold n in E4. rewrite fsm_events_app, E4.
  pose proof (idle_events_call_back k m3 Gs) as R.
  destruct (fsm_events k m3) as [m4 fs]. cbn [snd] in *. rewrite R.
  assert (C : i2c_callback (i2c m3) = cb /\ i2c_callback_args (i2c m3) = arg).
  { rewrite ISR_fsm_stop in E3 by auto. injection E3 as <- Ec Ea.
    cbn. split; assumption. }
  destruct C as [-> ->]. reflexivity.
Qed.

Lemma idle_events_repeat_the_callback_witness :
  snd (fsm_events (14 + 2) demo_busy)
  = [(Cbk_empty, Arg_NULL); (Cbk_empty, Arg_NULL); (Cbk_empty, Arg_NULL)].
Proof.
  apply (idle_events_repeat_the_callback 0x3C (Ptr B_cmd_init 0) 12 NULL 0
           Cbk_empty Arg_NULL true
           (I2C_init 200000
              (set_oled (mkOLED 128 64 demo_fb 1 0x3C 0 8)
                        (reset_machine static_mem)))
           demo_busy 2%nat).
  - reflexivity.
  - lia.
  - lia.
Defined.

(** ** Waiting in the main program *)

Lemma busy_through_app : forall a b m m',
  busy_through a m -> hw_events a m = Some m' -> busy_through b m' ->
  busy_through (a + b) m.
Proof.
  intros a b m m' Ha E Hb j Hj.
  destruct (Nat.le_gt_cases j a) as [L|L]; [now apply Ha|].
  replace j with (a + (j - a))%nat by lia.
  rewrite hw_events_app, E. apply Hb. lia.
Qed.

Lemma silent_events_busy : forall n m m',
  fsm_events n m = (m', []) ->
  busy_lock (oled m) = 0 -> i2c_state (i2c m) <> I2C_STATE_IDLE ->
  busy_through n m.
Proof.
  intros n m m' H L B j Hj.
  pose proof (fsm_events_prefix_silent j n m m' H Hj) as S.
  destruct (fsm_events j m) as [mj lj] eqn:E. cbn [snd] in S. subst lj.
  exists mj. split; [now apply fsm_events_silent|]. split.
  - pose proof (proj1 (fsm_events_frame j m)) as F. rewrite E in F.
    cbn [fst] in F. congruence.
  - now apply (fsm_events_silent_busy j m mj E).
Qed.

(** The spinning acquire gets the lock at the first event that leaves it
    free, provided the bus stays busy until then. *)
Lemma spinlock_waits : forall n fuel m m',
  (n <= fuel)%nat ->
  (forall j, (j < n)%nat ->
     exists mj, hw_events j m = Some mj
                /\ busy_lock (oled mj) = 0
                /\ i2c_state (i2c mj) <> I2C_STATE_IDLE) ->
  hw_events n m = Some m' ->
  busy_lock (oled m') <> 0 ->
  OLED_spinlock fuel m = Some (set_oled (set_busy_lock 0 (oled m')) m').
Proof.
  induction n as [|n IH]; intros fuel m m' Hf Hj E L.
  - cbn [hw_events] in E. injection E as <-.
    destruct fuel; cbn [OLED_spinlock]; unfold OLED_trylock;
      destruct (Z.eqb_spec (busy_lock (oled m)) 0); try contradiction;
      reflexivity.
  - destruct fuel as [|fuel]; [lia|].
    destruct (Hj 0%nat ltac:(lia)) as (m0 & E0 & L0 & B0).
    cbn [hw_events] in E0. injection E0 as <-.
    cbn [OLED_spinlock]. unfold OLED_trylock. rewrite L0. cbn [Z.eqb].
    cbn [hw_events] in E. destruct (ISR m) as [m1|] eqn:E1; [|discriminate].
    destruct (i2c_state (i2c m)) eqn:Es; try contradiction;
      (apply (IH fuel m1 m'); [lia | | exact E | exact L];
       intros j Hlt; destruct (Hj (S j) ltac:(lia)) as (mj & Ej & Lj & Bj);
       cbn [hw_events] in Ej; rewrite E1 in Ej; exists mj; auto).
Qed.

(** A submission spun on in the main program goes through at the first
    event that leaves the bus idle. *)
Lemma spin_in_main_waits : forall n fuel attempt m m' m'',
  (n <= fuel)%nat ->
  (forall j, (j < n)%nat ->
     exists mj, hw_events j m = Some mj /\ fst (attempt mj) = false) ->
  hw_events n m = Some m' ->
  attempt m' = (true, m'') ->
  spin_in_main fuel attempt m = Some m''.
Proof.
  induction n as [|n IH]; intros fuel attempt m m' m'' Hf Hj E A.
  - cbn [hw_events] in E. injection E as <-.
    now apply spin_in_main_accepts.
  - destruct fuel as [|fuel]; [lia|].
    destruct (Hj 0%nat ltac:(lia)) as (m0 & E0 & R0).
    cbn [hw_events] in E0. injection E0 as <-.
    cbn [spin_in_main]. destruct (attempt m) as [ok mr]. cbn [fst] in R0.
    subst ok. cbn [hw_events] in E.
    destruct (ISR m) as [m1|] eqn:E1; [|discriminate].
    apply (IH fuel attempt m1 m' m''); [lia | | exact E | exact A].
    intros j Hlt. destruct (Hj (S j) ltac:(lia)) as (mj & Ej & Rj).
    cbn [hw_events] in Ej. rewrite E1 in Ej. exists mj. auto.
Qed.

(** ** Setting the brightness *)

Lemma brightness_bytes : forall h level,
  brightness_intact h ->
  bytes_at (store h (Ptr B_cmd_setbrightness 3) (u8 level))
           (Ptr B_cmd_setbrightness 0) 4
  = [BusByte 0x80; BusByte 0x81; BusByte 0x80; BusByte (u8 level)].
Proof.
  intros h level (S0 & S1 & S2). unfold bytes_at.
  cbn [seq map ptr_add Z.of_nat Pos.of_succ_nat Pos.succ Z.add].
  rewrite !load_store_other by (intro E; inversion E).
  rewrite load_store_same. cbn [load]. now rewrite S0, S1, S2.
Qed.

(** The brightness command in flight, its last byte patched to [level], on
    behalf of a caller that holds the lock. *)
Lemma brightness_completes : forall m level,
  i2c m = mkI2C (u8 (Z.shiftl (i2c_addr (oled m)) 1))
                (Ptr B_cmd_setbrightness 0) 4 NULL 0 true Cbk_unlock Arg_oled
                I2C_STATE_SLAVEADDR ->
  busy_lock (oled m) = 0 ->
  bytes_at (memory m) (Ptr B_cmd_setbrightness 0) 4
  = [BusByte 0x80; BusByte 0x81; BusByte 0x80; BusByte (u8 level)] ->
  exists m',
    hw_events 6 m = Some m'
    /\ wire m' = wire m
                 ++ tl (brightness_frame (u8 (Z.shiftl (i2c_addr (oled m)) 1))
                                         level)
    /\ oled m' = set_busy_lock 1 (oled m)
    /\ memory m' = memory m
    /\ i2c_state (i2c m') = I2C_STATE_IDLE
    /\ busy_through 5 m.
Proof.
  intros m level Gi L SB.
  destruct (transaction_hw_of m _ _ _ _ _ _ _ _ 5%nat Gi)
    as (m2 & m3 & E2 & H2 & C3 & Gs3 & Go3 & Gm3 & Gw3);
    [lia | lia | reflexivity |].
  change (Z.to_nat (sent_count (Ptr B_cmd_setbrightness 0) 4)) with 4%nat in Gw3.
  change (Z.to_nat (sent_count NULL 0)) with 0%nat in Gw3.
  change (bytes_at (memory m) NULL 0) with (@nil bus_event) in Gw3.
  rewrite SB in Gw3. cbn [app] in Gw3. cbn [call_cbk OLED_cbk_unlock] in C3.
  exists (OLED_unlock m3). split; [|split; [|split; [|split; [|split]]]].
  - change 6%nat with (5 + 1)%nat. rewrite hw_events_app, H2.
    cbn [hw_events]. now rewrite C3.
  - cbn [OLED_unlock set_oled wire]. rewrite Gw3. reflexivity.
  - cbn [OLED_unlock set_oled oled]. now rewrite Go3.
  - cbn [OLED_unlock set_oled memory]. exact Gm3.
  - exact Gs3.
  - apply (silent_events_busy _ _ _ E2 L). rewrite Gi. discriminate.
Qed.

(** X3.  [OLED_cmd_setbrightness] on an idle bus with the lock free: it
    patches the level into the command, takes the lock and submits; the bus
    then sees the start condition, the address, [0x80 0x81 0x80], the level
    in 8 bits and the stop condition; the lock is held and the bus busy up
    to the sixth event, whose callback releases the lock. *)
Theorem setbrightness_sends_level :
  forall fuel level m,
    i2c_state (i2c m) = I2C_STATE_IDLE ->
    busy_lock (oled m) <> 0 ->
    brightness_intact (memory m) ->
    exists m1 m2,
      OLED_cmd_setbrightness fuel level m = Some m1
      /\ busy_through 5 m1
      /\ hw_events 6 m1 = Some m2
      /\ wire m2 = wire m
                   ++ brightness_frame (u8 (Z.shiftl (i2c_addr (oled m)) 1))
                                       level
      /\ busy_lock (oled m2) = 1
      /\ i2c_state (i2c m2) = I2C_STATE_IDLE
      /\ memory m2 B_cmd_setbrightness 3 = u8 level.
Proof.
  intros fuel level m Hs Hl Hst. unfold OLED_cmd_setbrightness.
  set (m0 := set_memory _ m).
  assert (T : OLED_spinlock fuel m0
              = Some (set_oled (set_busy_lock 0 (oled m0)) m0)).
  { apply (spinlock_waits 0 fuel m0 m0); [lia | intros; lia | reflexivity |].
    exact Hl. }
  rewrite T.
  set (m1 := snd (OLED_i2c_tx_shed
                    (i2c_addr (oled (set_oled (set_busy_lock 0 (oled m0)) m0)))
                    (Ptr B_cmd_setbrightness 0)
                    (OLED_ARR_SIZE _i2c_cmd_setbrightness) NULL 0 Cbk_unlock
                    Arg_oled true (set_oled (set_busy_lock 0 (oled m0)) m0))).
  assert (A : OLED_i2c_tx_shed
                (i2c_addr (oled (set_oled (set_busy_lock 0 (oled m0)) m0)))
                (Ptr B_cmd_setbrightness 0)
                (OLED_ARR_SIZE _i2c_cmd_setbrightness) NULL 0 Cbk_unlock
                Arg_oled true (set_oled (set_busy_lock 0 (oled m0)) m0)
              = (true, m1)).
  { subst m1. unfold OLED_i2c_tx_shed. cbn [set_oled i2c set_memory].
    subst m0. cbn [set_memory i2c]. rewrite Hs. reflexivity. }
  rewrite (spin_in_main_accepts fuel _ _ _ A).
  destruct (tx_shed_accepted _ _ _ _ _ _ _ _ _ _ A) as (_ & Gi & Go & Gm & Gw).
  destruct (brightness_completes m1 level) as (m2 & E & W & O & M & S & B).
  - rewrite Gi, Go. reflexivity.
  - rewrite Go. reflexivity.
  - rewrite Gm. subst m0. cbn [set_oled set_memory memory].
    now apply brightness_bytes.
  - exists m1, m2. split; [reflexivity|]. split; [exact B|].
    split; [exact E|]. split; [|split; [|split]].
    + rewrite W, Gw, Go. subst m0. cbn [set_oled set_memory wire oled i2c_addr
        set_busy_lock]. unfold brightness_frame. cbn [tl].
      rewrite <- app_assoc. reflexivity.
    + rewrite O. reflexivity.
    + exact S.
    + rewrite M, Gm. subst m0. cbn [set_oled set_memory memory].
      change (store (memory m) (Ptr B_cmd_setbrightness 3) (u8 level)
                B_cmd_setbrightness 3)
        with (load (store (memory m) (Ptr B_cmd_setbrightness 3) (u8 level))
                   (Ptr B_cmd_setbrightness 3)).
      apply load_store_same.
Qed.

(** ** The lock around a refresh, from any entry *)

(** C5, what the code does.  [OLED_refresh] takes the lock itself.  Called
    with the lock held and no transaction in flight that could release it,
    it spins for ever and starts nothing.  Called with the lock free, it
    claims it at once; called while a sequence in flight holds the lock, it
    waits through the events of that sequence and claims the lock at the
    event that releases it ([k1] events; none when the lock is free).
    With the lock its own it resets the page cursor, patches the
    select-page command, and waits until the bus is idle to submit it
    ([k2] events of a transaction that leaves the display and the memory
    alone, as the bring-up sequence does; none when the bus is idle).  From
    that submission on the whole sequence runs under the lock: the lock is
    held after each hardware event but the last, and the last event, whose
    call back finds the page cursor at [num_pages], releases it. *)
Theorem refresh_lock_discipline :
  forall fuel m,
    (i2c_state (i2c m) = I2C_STATE_IDLE -> busy_lock (oled m) = 0 ->
     OLED_refresh fuel m = None)
    /\
    (forall k1 k2 ma mc fbb fbo,
       lock_released_after k1 m ma ->
       bus_idle_after k2 (refresh_entered ma) mc ->
       statics_intact (memory ma) ->
       frame_buffer (oled ma) = Ptr (B_ext fbb) fbo ->
       1 <= width (oled ma) <= 255 ->
       0 <= num_pages (oled ma) <= 255 ->
       (k1 <= fuel)%nat -> (k2 <= fuel)%nat ->
       let total := (Z.to_nat (num_pages (oled ma))
                     * Z.to_nat (width (oled ma) + 11) + 8)%nat in
       exists m1 mf,
         OLED_refresh fuel m = Some m1
         /\ wire m1 = wire mc ++ [BusStart]
         /\ busy_lock (oled m1) = 0
         /\ (forall j, (j < total)%nat ->
               exists mj, hw_events j m1 = Some mj /\ busy_lock (oled mj) = 0)
         /\ hw_events total m1 = Some mf
         /\ busy_lock (oled mf) = 1
         /\ i2c_state (i2c mf) = I2C_STATE_IDLE).
Proof.
  intros fuel m. split.
  { intros Hs Hl. unfold OLED_refresh. now rewrite spinlock_blocked. }
  intros k1 k2 ma mc fbb fbo (W1 & E1 & L1) (W2 & E2 & S2 & O2 & M2)
         Hst Hfb Hw Hn Hk1 Hk2 total.
  assert (T : OLED_spinlock fuel m
              = Some (set_oled (set_busy_lock 0 (oled ma)) ma))
    by (apply (spinlock_waits k1); assumption).
  set (attempt := OLED_i2c_tx_shed (i2c_addr (oled ma)) (Ptr B_cmd_setpage 0)
                    (OLED_ARR_SIZE _i2c_cmd_setpage) NULL 0
                    Cbk_writepage Arg_oled true).
  assert (R : OLED_refresh fuel m
              = spin_in_main fuel attempt (refresh_entered ma)).
  { unfold OLED_refresh. rewrite T. reflexivity. }
  destruct (attempt mc) as [ok m1] eqn:A.
  assert (Hok : ok = true).
  { unfold attempt, OLED_i2c_tx_shed in A. rewrite S2 in A.
    now injection A as <- _. }
  subst ok.
  destruct (tx_shed_accepted _ _ _ _ _ _ _ _ _ _ A) as (_ & Gi & Go & Gm & W).
  assert (E : spin_in_main fuel attempt (refresh_entered ma) = Some m1).
  { apply (spin_in_main_waits k2 fuel attempt _ mc m1);
      [exact Hk2 | | exact E2 | exact A].
    intros j Hj. destruct (W2 j Hj) as (mj & Ej & Bj).
    exists mj. split; [exact Ej|].
    unfold attempt. now rewrite tx_shed_rejected. }
  assert (A1 : at_page (oled ma) (memory ma) 0 m1).
  { unfold at_page. rewrite Gi, Go, Gm, O2, M2. unfold refresh_entered.
    cbn [oled memory set_oled set_memory set_cur_page set_busy_lock
         cur_page i2c_addr].
    split; [reflexivity|]. split; [reflexivity|]. split.
    - change (store (memory ma) (Ptr B_cmd_setpage
                 (OLED_ARR_SIZE _i2c_cmd_setpage - 1)) (u8 (Z.lor 176 0))
                B_cmd_setpage 5)
        with (load (store (memory ma) (Ptr B_cmd_setpage 5)
                      (u8 (Z.lor 176 0))) (Ptr B_cmd_setpage 5)).
      apply load_store_same.
    - intros b o Hbo.
      change (store (memory ma) (Ptr B_cmd_setpage
                 (OLED_ARR_SIZE _i2c_cmd_setpage - 1)) (u8 (Z.lor 176 0)) b o)
        with (load (store (memory ma) (Ptr B_cmd_setpage 5)
                      (u8 (Z.lor 176 0))) (Ptr b o)).
      rewrite load_store_other by congruence. reflexivity. }
  set (n := Z.to_nat (num_pages (oled ma))) in *.
  assert (Hnn : Z.of_nat n = num_pages (oled ma)) by (subst n; lia).
  destruct (pages_run (oled ma) (memory ma) fbb fbo Hst Hfb Hw Hn n 0 m1
              (wire mc) A1 W) as (m2 & E3 & A2 & _ & L2).
  { cbn [Nat.add]. lia. }
  cbn [Nat.add] in A2. rewrite Hnn in A2.
  destruct (refresh_tail (oled ma) (memory ma) Hst m2 A2)
    as (m3 & E4 & _ & L3 & S3 & L7).
  exists m1, m3. split; [now rewrite R|]. split; [exact W|]. split.
  { destruct A1 as (_ & Go1 & _). rewrite Go1. reflexivity. }
  split; [|split; [|split; [exact L3|exact S3]]].
  - intros j Hj.
    apply (held_through_app _ 7 m1 m2 L2 E3 L7). subst total. lia.
  - subst total. rewrite hw_events_app, E3. exact E4.
Qed.

Lemma refresh_lock_discipline_witness :
  OLED_refresh 5 demo_locked = None
  /\ (exists m1, OLED_refresh 5 demo_idle = Some m1 /\ busy_lock (oled m1) = 0)
  /\ (exists m1,
        OLED_refresh 6 demo_dimming = Some m1 /\ busy_lock (oled m1) = 0)
  /\ (exists m1,
        OLED_refresh 14 demo_busy = Some m1 /\ busy_lock (oled m1) = 0).
Proof.
  split; [|split; [|split]].
  - apply (proj1 (refresh_lock_discipline 5 demo_locked));
      vm_compute; reflexivity.
  - assert (H1 : lock_released_after 0 demo_idle demo_idle).
    { split; [intros j Hj; lia|]. split; [reflexivity|].
      vm_compute. discriminate. }
    assert (H2 : bus_idle_after 0 (refresh_entered demo_idle)
                   (refresh_entered demo_idle)).
    { split; [intros j Hj; lia|]. split; [reflexivity|].
      split; [vm_compute; reflexivity|]. split; reflexivity. }
    assert (H3 : frame_buffer (oled demo_idle) = Ptr (B_ext 0) 0)
      by (vm_compute; reflexivity).
    assert (H4 : 1 <= width (oled demo_idle) <= 255)
      by (vm_compute; split; discriminate).
    assert (H5 : 0 <= num_pages (oled demo_idle) <= 255)
      by (vm_compute; split; discriminate).
    destruct (proj2 (refresh_lock_discipline 5 demo_idle) 0%nat 0%nat
                demo_idle (refresh_entered demo_idle) 0%nat 0 H1 H2
                statics_intact_demo H3 H4 H5 (Nat.le_0_l 5) (Nat.le_0_l 5))
      as (m1 & mf & E1 & _ & L1 & _).
    exists m1. split; assumption.
  - assert (H1 : lock_released_after 6 demo_dimming demo_dimmed).
    { split; [|split].
      - intros j Hj.
        do 6 (destruct j as [|j];
              [eexists; split; [vm_compute; reflexivity|];
               split; [vm_compute; reflexivity | vm_compute; discriminate]|]).
        lia.
      - vm_compute. reflexivity.
      - vm_compute. discriminate. }
    assert (H2 : bus_idle_after 0 (refresh_entered demo_dimmed)
                   (refresh_entered demo_dimmed)).
    { split; [intros j Hj; lia|]. split; [reflexivity|].
      split; [vm_compute; reflexivity|]. split; reflexivity. }
    assert (H0 : statics_intact (memory demo_dimmed))
      by (vm_compute; repeat split).
    assert (H3 : frame_buffer (oled demo_dimmed) = Ptr (B_ext 0) 0)
      by (vm_compute; reflexivity).
    assert (H4 : 1 <= width (oled demo_dimmed) <= 255)
      by (vm_compute; split; discriminate).
    assert (H5 : 0 <= num_pages (oled demo_dimmed) <= 255)
      by (vm_compute; split; discriminate).
    destruct (proj2 (refresh_lock_discipline 6 demo_dimming) 6%nat 0%nat
                demo_dimmed (refresh_entered demo_dimmed) 0%nat 0 H1 H2
                H0 H3 H4 H5 (Nat.le_refl 6) (Nat.le_0_l 6))
      as (m1 & mf & E1 & _ & L1 & _).
    exists m1. split; assumption.
  - set (mc := match hw_events 14 (refresh_entered demo_busy) with
               | Some m => m
               | None => demo_busy
               end).
    assert (H1 : lock_released_after 0 demo_busy demo_busy).
    { split; [intros j Hj; lia|]. split; [reflexivity|].
      vm_compute. discriminate. }
    assert (H2 : bus_idle_after 14 (refresh_entered demo_busy) mc).
    { split; [|split; [|split; [|split]]].
      - intros j Hj.
        do 14 (destruct j as [|j];
               [eexists; split; [vm_compute; reflexivity|];
                vm_compute; discriminate|]).
        lia.
      - vm_compute. reflexivity.
      - vm_compute. reflexivity.
      - vm_compute. reflexivity.
      - vm_compute. reflexivity. }
    assert (H0 : statics_intact (memory demo_busy))
      by (vm_compute; repeat split).
    assert (H3 : frame_buffer (oled demo_busy) = Ptr (B_ext 0) 0)
      by (vm_compute; reflexivity).
    assert (H4 : 1 <= width (oled demo_busy) <= 255)
      by (vm_compute; split; discriminate).
    assert (H5 : 0 <= num_pages (oled demo_busy) <= 255)
      by (vm_compute; split; discriminate).
    destruct (proj2 (refresh_lock_discipline 14 demo_busy) 0%nat 14%nat
                demo_busy mc 0%nat 0 H1 H2
                H0 H3 H4 H5 (Nat.le_0_l 14) (Nat.le_refl 14))
      as (m1 & mf & E1 & _ & L1 & _).
    exists m1. split; assumption.
Defined.

Lemma setbrightness_sends_level_witness :
  exists m1 m2,
    OLED_cmd_setbrightness 0 128 demo_idle = Some m1
    /\ hw_events 6 m1 = Some m2
    /\ wire m2 = wire demo_idle ++ brightness_frame 0x78 128
    /\ busy_lock (oled m2) = 1.
Proof.
  destruct (setbrightness_sends_level 0 128 demo_idle)
    as (m1 & m2 & E1 & _ & E2 & W & L & _).
  - vm_compute. reflexivity.
  - vm_compute. discriminate.
  - vm_compute. repeat split.
  - exists m1, m2. repeat split; assumption.
Defined.

Lemma brightness_intact_store : forall h v,
  brightness_intact h ->
  brightness_intact (store h (Ptr B_cmd_setbrightness 3) v).
Proof.
  intros h v (S0 & S1 & S2). unfold brightness_intact.
  change (store h (Ptr B_cmd_setbrightness 3) v B_cmd_setbrightness 0)
    with (load (store h (Ptr B_cmd_setbrightness 3) v)
               (Ptr B_cmd_setbrightness 0)).
  change (store h (Ptr B_cmd_setbrightness 3) v B_cmd_setbrightness 1)
    with (load (store h (Ptr B_cmd_setbrightness 3) v)
               (Ptr B_cmd_setbrightness 1)).
  change (store h (Ptr B_cmd_setbrightness 3) v B_cmd_setbrightness 2)
    with (load (store h (Ptr B_cmd_setbrightness 3) v)
               (Ptr B_cmd_setbrightness 2)).
  rewrite !load_store_other by (intro E; inversion E). cbn [load]. auto.
Qed.

(** [OLED_cmd_setbrightness] called while the lock is held and the bus busy:
    the level is patched at once, the command is submitted at the first
    event that leaves the lock free. *)
Lemma setbrightness_after : forall n fuel level m m',
  (n <= fuel)%nat ->
  let m0 := set_memory (store (memory m) (Ptr B_cmd_setbrightness 3)
                              (u8 level)) m in
  (forall j, (j < n)%nat ->
     exists mj, hw_events j m0 = Some mj
                /\ busy_lock (oled mj) = 0
                /\ i2c_state (i2c mj) <> I2C_STATE_IDLE) ->
  hw_events n m0 = Some m' ->
  busy_lock (oled m') <> 0 ->
  i2c_state (i2c m') = I2C_STATE_IDLE ->
  exists m1,
    OLED_cmd_setbrightness fuel level m = Some m1
    /\ i2c m1 = mkI2C (u8 (Z.shiftl (i2c_addr (oled m')) 1))
                      (Ptr B_cmd_setbrightness 0) 4 NULL 0 true Cbk_unlock
                      Arg_oled I2C_STATE_SLAVEADDR
    /\ oled m1 = set_busy_lock 0 (oled m')
    /\ memory m1 = memory m'
    /\ wire m1 = wire m' ++ [BusStart].
Proof.
  intros n fuel level m m' Hf m0 Hj E L S. unfold OLED_cmd_setbrightness.
  change (OLED_ARR_SIZE _i2c_cmd_setbrightness - 1) with 3. fold m0.
  rewrite (spinlock_waits n fuel m0 m' Hf Hj E L).
  eexists. split.
  - apply spin_in_main_accepts. unfold OLED_i2c_tx_shed.
    cbn [set_oled i2c]. rewrite S. reflexivity.
  - cbn. repeat split.
Qed.

(** X4.  The level is patched into the shared command before the lock is
    taken.  A second [OLED_cmd_setbrightness] called while the command of
    the first is still to go out therefore changes what the first sends:
    the bus sees the second level twice and the first level never. *)
Theorem setbrightness_overrides_pending :
  forall fuel level1 level2 m,
    i2c_state (i2c m) = I2C_STATE_IDLE ->
    busy_lock (oled m) <> 0 ->
    brightness_intact (memory m) ->
    (6 <= fuel)%nat ->
    let dev := u8 (Z.shiftl (i2c_addr (oled m)) 1) in
    exists m1 m2 m3,
      OLED_cmd_setbrightness fuel level1 m = Some m1
      /\ OLED_cmd_setbrightness fuel level2 m1 = Some m2
      /\ wire m2 = wire m ++ brightness_frame dev level2 ++ [BusStart]
      /\ hw_events 6 m2 = Some m3
      /\ wire m3 = wire m ++ brightness_frame dev level2
                   ++ brightness_frame dev level2
      /\ busy_lock (oled m3) = 1.
Proof.
  intros fuel level1 level2 m Hs Hl Hst Hf dev.
  (* the first call *)
  destruct (setbrightness_after 0 fuel level1 m
              (set_memory (store (memory m) (Ptr B_cmd_setbrightness 3)
                                 (u8 level1)) m))
    as (m1 & E1 & Gi1 & Go1 & Gm1 & Gw1);
    [lia | intros; lia | reflexivity | exact Hl | exact Hs |].
  cbn [set_memory oled memory wire] in Gi1, Go1, Gm1, Gw1.
  (* the second call patches the command of the first *)
  set (m0 := set_memory (store (memory m1) (Ptr B_cmd_setbrightness 3)
                               (u8 level2)) m1).
  assert (SB : bytes_at (memory m0) (Ptr B_cmd_setbrightness 0) 4
               = [BusByte 0x80; BusByte 0x81; BusByte 0x80;
                  BusByte (u8 level2)]).
  { subst m0. cbn [set_memory memory]. rewrite Gm1.
    apply brightness_bytes. now apply brightness_intact_store. }
  destruct (brightness_completes m0 level2) as (m' & E' & W' & O' & M' & S' & B');
    [subst m0; cbn [set_memory i2c oled]; rewrite Gi1, Go1; reflexivity
    |subst m0; cbn [set_memory oled]; rewrite Go1; reflexivity
    |exact SB|].
  destruct (setbrightness_after 6 fuel level2 m1 m' Hf)
    as (m2 & E2 & Gi2 & Go2 & Gm2 & Gw2).
  { intros j Hj. apply B'. lia. }
  { exact E'. }
  { rewrite O'. cbn. discriminate. }
  { exact S'. }
  destruct (brightness_completes m2 level2) as (m3 & E3 & W3 & O3 & _).
  { rewrite Gi2, Go2. reflexivity. }
  { rewrite Go2. reflexivity. }
  { rewrite Gm2, M'. exact SB. }
  assert (Ea : i2c_addr (oled m') = i2c_addr (oled m)).
  { rewrite O'. subst m0. cbn [set_memory oled set_busy_lock i2c_addr].
    rewrite Go1. reflexivity. }
  assert (Ea0 : i2c_addr (oled m0) = i2c_addr (oled m)).
  { subst m0. cbn [set_memory oled]. rewrite Go1. reflexivity. }
  assert (Ew : wire m2 = wire m ++ brightness_frame dev level2 ++ [BusStart]).
  { rewrite Gw2, W', Ea0. subst m0. cbn [set_memory wire]. rewrite Gw1.
    unfold brightness_frame. cbn [tl]. subst dev.
    repeat (rewrite <- ?app_assoc; cbn [app]). reflexivity. }
  exists m1, m2, m3. split; [exact E1|]. split; [exact E2|].
  split; [exact Ew|]. split; [exact E3|]. split.
  - rewrite W3, Ew, Go2. cbn [set_busy_lock i2c_addr]. rewrite Ea.
    unfold brightness_frame. cbn [tl]. subst dev.
    repeat (rewrite <- ?app_assoc; cbn [app]). reflexivity.
  - rewrite O3. reflexivity.
Qed.

Lemma setbrightness_overrides_pending_witness :
  exists m1 m2,
    OLED_cmd_setbrightness 6 10 demo_idle = Some m1
    /\ OLED_cmd_setbrightness 6 200 m1 = Some m2
    /\ wire m2 = wire demo_idle ++ brightness_frame 0x78 200 ++ [BusStart].
Proof.
  destruct (setbrightness_overrides_pending 6 10 200 demo_idle)
    as (m1 & m2 & m3 & E1 & E2 & W & _).
  - vm_compute. reflexivity.
  - vm_compute. discriminate.
  - vm_compute. repeat split.
  - apply Nat.le_refl.
  - exists m1, m2. repeat split; assumption.
Defined.

(** ** A refresh right after initialisation *)

Lemma spin_in_main_starves : forall fuel attempt m,
  (forall j, (j <= fuel)%nat ->
     exists mj, hw_events j m = Some mj /\ fst (attempt mj) = false) ->
  spin_in_main fuel attempt m = None.
Proof.
  induction fuel as [|fuel IH]; intros attempt m Hj;
    destruct (Hj 0%nat ltac:(lia)) as (m0 & E0 & R0);
    cbn [hw_events] in E0; injection E0 as <-;
    cbn [spin_in_main]; destruct (attempt m) as [ok mr]; cbn [fst] in R0;
    subst ok; [reflexivity|].
  destruct (Hj 1%nat ltac:(lia)) as (m1 & E1 & _). cbn [hw_events] in E1.
  destruct (ISR m) as [m1'|] eqn:EI; [|discriminate].
  apply IH. intros j Hlt. destruct (Hj (S j) ltac:(lia)) as (mj & Ej & Rj).
  cbn [hw_events] in Ej. rewrite EI in Ej. exists mj. auto.
Qed.

(** X5.  [OLED_refresh] called right after [__OLED_init], as oled_test.c
    does: the lock is free and is taken at once, but the bring-up sequence
    is in flight, and the select-page command of page 0 is submitted only
    once the 14 events of that sequence have passed, behind its stop
    condition; as long as fewer events have arrived the call is still
    spinning. *)
Theorem refresh_after_init :
  forall w h fb f a m0 fuel,
    init_intact (memory m0) ->
    let m := snd (__OLED_init w h fb f a m0) in
    ((14 <= fuel)%nat ->
     exists m1,
       OLED_refresh fuel m = Some m1
       /\ at_page (mkOLED w h fb 1 a 0 8) (memory m0) 0 m1
       /\ wire m1 = wire m0 ++ init_frame (u8 (Z.shiftl a 1)) ++ [BusStart])
    /\ ((fuel < 14)%nat -> OLED_refresh fuel m = None).
Proof.
  intros w h fb f a m0 fuel Hin m.
  destruct (OLED_init_accepted w h fb f a m0) as (mi & Ei & Goi).
  assert (Em : m = mi) by (subst m; now rewrite Ei). clearbody m. subst mi.
  (* the machine after initialisation *)
  assert (Gi : i2c m = mkI2C (u8 (Z.shiftl a 1)) (Ptr B_cmd_init 0) 12 NULL 0
                             true Cbk_empty Arg_NULL I2C_STATE_SLAVEADDR
               /\ memory m = memory m0 /\ wire m = wire m0 ++ [BusStart]).
  { unfold __OLED_init, I2C_init in Ei.
    destruct (twps_loop 4 0 _) as [twps twbr] in Ei.
    unfold OLED_i2c_tx_shed in Ei. cbn in Ei. injection Ei as <-. cbn.
    repeat split. }
  destruct Gi as (Gi & Gm & Gw).
  unfold OLED_refresh.
  assert (T : OLED_spinlock fuel m
              = Some (set_oled (set_busy_lock 0 (oled m)) m)).
  { apply (spinlock_waits 0 fuel m m); [lia | intros; lia | reflexivity |].
    rewrite Goi. cbn. discriminate. }
  rewrite T. unfold OLED_cbk_setwritepage.
  set (mp := set_memory _ _).
  assert (Gip : i2c mp = i2c m) by reflexivity.
  assert (Gop : oled mp = mkOLED w h fb 0 a 0 8)
    by (subst mp; cbn; rewrite Goi; reflexivity).
  assert (Gmp : memory mp = store (memory m0) (Ptr B_cmd_setpage 5)
                                  (u8 (Z.lor 0xB0 0)))
    by (subst mp; cbn; rewrite Gm; reflexivity).
  assert (Gwp : wire mp = wire m0 ++ [BusStart]) by (subst mp; cbn; exact Gw).
  cbv zeta. cbn [set_oled oled set_cur_page set_busy_lock i2c_addr].
  rewrite Goi. cbn [i2c_addr]. clearbody mp.
  rewrite Gi in Gip.
  destruct (transaction_hw_of mp _ _ _ _ _ _ _ _ 13%nat Gip)
    as (m2 & m3 & E2 & H2 & C3 & Gs3 & Go3 & Gm3 & Gw3);
    [lia | lia | reflexivity |].
  change (Z.to_nat (sent_count (Ptr B_cmd_init 0) 12)) with 12%nat in Gw3.
  change (Z.to_nat (sent_count NULL 0)) with 0%nat in Gw3.
  change (bytes_at (memory mp) NULL 0) with (@nil bus_event) in Gw3.
  cbn [call_cbk OLED_cbk_empty] in C3.
  assert (Hb : bytes_at (memory mp) (Ptr B_cmd_init 0) 12
               = map BusByte _i2c_cmd_init).
  { rewrite <- Hin. apply bytes_at_ext. intros i _. rewrite Gmp.
    cbn [ptr_add]. apply load_store_other. intro E. inversion E. }
  rewrite Hb in Gw3.
  assert (Rej : forall j, (j <= 13)%nat ->
            exists mj, hw_events j mp = Some mj
              /\ fst (OLED_i2c_tx_shed a (Ptr B_cmd_setpage 0)
                        (OLED_ARR_SIZE _i2c_cmd_setpage) NULL 0 Cbk_writepage
                        Arg_oled true mj) = false).
  { intros j Hj.
    pose proof (fsm_events_prefix_silent j 13 mp m2 E2 Hj) as S.
    destruct (fsm_events j mp) as [mj lj] eqn:E. cbn [snd] in S. subst lj.
    exists mj. split; [now apply fsm_events_silent|].
    rewrite tx_shed_rejected; [reflexivity|].
    apply (fsm_events_silent_busy j mp mj E). rewrite Gip. discriminate. }
  split.
  - intro Hf.
    assert (A : exists m1,
               OLED_i2c_tx_shed a (Ptr B_cmd_setpage 0)
                 (OLED_ARR_SIZE _i2c_cmd_setpage) NULL 0 Cbk_writepage Arg_oled
                 true m3 = (true, m1)).
    { unfold OLED_i2c_tx_shed. rewrite Gs3. eexists. reflexivity. }
    destruct A as (m1 & A).
    rewrite (spin_in_main_waits 14 fuel _ mp m3 m1 Hf).
    + destruct (tx_shed_accepted _ _ _ _ _ _ _ _ _ _ A)
        as (_ & Gi1 & Go1 & Gm1 & Gw1).
      exists m1. split; [reflexivity|]. split.
      * unfold at_page. rewrite Gi1, Go1, Go3, Gop, Gm1, Gm3, Gmp.
        split; [reflexivity|]. split; [reflexivity|]. split.
        -- change (store (memory m0) (Ptr B_cmd_setpage 5) (u8 (Z.lor 176 0))
                     B_cmd_setpage 5)
             with (load (store (memory m0) (Ptr B_cmd_setpage 5)
                           (u8 (Z.lor 176 0))) (Ptr B_cmd_setpage 5)).
           apply load_store_same.
        -- intros b o Hbo.
           change (store (memory m0) (Ptr B_cmd_setpage 5) (u8 (Z.lor 176 0))
                     b o)
             with (load (store (memory m0) (Ptr B_cmd_setpage 5)
                           (u8 (Z.lor 176 0))) (Ptr b o)).
           rewrite load_store_other by congruence. reflexivity.
      * rewrite Gw1, Gw3, Gwp. unfold init_frame.
        repeat (rewrite <- ?app_assoc; cbn [app]). reflexivity.
    + intros j Hj. apply Rej. lia.
    + change 14%nat with (13 + 1)%nat. rewrite hw_events_app, H2.
      cbn [hw_events]. now rewrite C3.
    + exact A.
  - intro Hf. apply spin_in_main_starves. intros j Hj. apply Rej. lia.
Qed.

Lemma refresh_after_init_witness :
  (exists m1, OLED_refresh 14 demo_busy = Some m1
              /\ wire m1 = [] ++ init_frame (u8 (Z.shiftl 0x3C 1)) ++ [BusStart])
  /\ OLED_refresh 13 demo_busy = None.
Proof.
  assert (H : init_intact (memory (reset_machine static_mem)))
    by (vm_compute; reflexivity).
  split.
  - destruct (proj1 (refresh_after_init 128 64 demo_fb 200000 0x3C
                       (reset_machine static_mem) 14 H) (Nat.le_refl 14))
      as (m1 & E & _ & W).
    exists m1. split; assumption.
  - apply (proj2 (refresh_after_init 128 64 demo_fb 200000 0x3C
                    (reset_machine static_mem) 13 H)).
    apply Nat.le_refl.
Defined.

(** ** What the handler leaves alone *)

Lemma tx_shed_frame : forall addr prefix p bytes d cb arg ff m,
  let m' := snd (OLED_i2c_tx_shed addr prefix p bytes d cb arg ff m) in
  oled m' = oled m /\ memory m' = memory m.
Proof.
  intros. subst m'. unfold OLED_i2c_tx_shed.
  destruct (i2c_state (i2c m)); split; reflexivity.
Qed.

Lemma spin_in_isr_frame : forall addr prefix p bytes d cb arg ff m m',
  spin_in_isr (OLED_i2c_tx_shed addr prefix p bytes d cb arg ff) m = Some m' ->
  oled m' = oled m /\ memory m' = memory m.
Proof.
  intros until m'. unfold spin_in_isr.
  pose proof (tx_shed_frame addr prefix p bytes d cb arg ff m) as F.
  destruct (OLED_i2c_tx_shed addr prefix p bytes d cb arg ff m) as [ok m1].
  cbn [snd] in F. destruct ok; [|discriminate]. intro E. now injection E as <-.
Qed.

Lemma ISR_fsm_calls : forall m m0 cb arg,
  ISR_fsm m = (m0, Some (cb, arg)) ->
  cb = i2c_callback (i2c m) /\ arg = i2c_callback_args (i2c m)
  /\ i2c_state (i2c m0) = I2C_STATE_IDLE.
Proof.
  intros m m0 cb arg. unfold ISR_fsm.
  destruct (i2c_state (i2c m)); intro E; try discriminate;
    injection E as <- <- <-; repeat split.
Qed.

(** What an event that has a result leaves alone. *)
Lemma ISR_frame : forall m m',
  ISR m = Some m' ->
  (forall b o, (b, o) <> (B_cmd_setpage, 5) -> memory m' b o = memory m b o)
  /\ width (oled m') = width (oled m)
  /\ height (oled m') = height (oled m)
  /\ frame_buffer (oled m') = frame_buffer (oled m)
  /\ i2c_addr (oled m') = i2c_addr (oled m)
  /\ num_pages (oled m') = num_pages (oled m).
Proof.
  intros m m'. unfold ISR.
  destruct (ISR_fsm_frame m) as [Fo Fm].
  destruct (ISR_fsm m) as [m0 f]. cbn [fst] in Fo, Fm.
  destruct f as [[cb arg]|].
  - unfold call_cbk, OLED_cbk_empty, OLED_cbk_unlock, OLED_cbk_writepage,
      OLED_cbk_setwritepage.
    destruct cb; destruct arg; intro E; try discriminate;
      try (injection E as <-; cbn; rewrite Fo, Fm; repeat split; fail).
    + (* OLED_cbk_writepage *)
      destruct (num_pages (oled m0) <=? cur_page (oled m0)).
      * injection E as <-. cbn. rewrite Fo, Fm. repeat split.
      * apply spin_in_isr_frame in E. destruct E as [Eo Em].
        rewrite Eo, Em. cbn. rewrite Fo, Fm. repeat split.
    + (* OLED_cbk_setwritepage *)
      apply spin_in_isr_frame in E. destruct E as [Eo Em].
      rewrite Eo, Em. cbn [set_memory oled memory]. rewrite Fo, Fm.
      split; [|repeat split].
      intros b o Hbo.
      change (store (memory m) (Ptr B_cmd_setpage (OLED_ARR_SIZE _i2c_cmd_setpage - 1))
                (u8 (Z.lor 176 (cur_page (oled m)))) b o)
        with (load (store (memory m) (Ptr B_cmd_setpage 5)
                      (u8 (Z.lor 176 (cur_page (oled m))))) (Ptr b o)).
      rewrite load_store_other by congruence. reflexivity.
  - intro E. injection E as <-. rewrite Fo, Fm. repeat split.
Qed.

(** X6.  A hardware event that finds a callback of [oled.c] pending, the
    callback it may run included, writes to no memory but the last byte of
    the select-page command: the frame buffer and the other command arrays
    are only read.  Of the display it changes at most the page cursor and
    the lock: the geometry, the buffer pointer, the bus address and the page
    count stay. *)
Theorem ISR_writes_only_the_page_byte :
  forall m m',
    own_callback (i2c_callback (i2c m)) (i2c_callback_args (i2c m)) ->
    ISR m = Some m' ->
    (forall b o, (b, o) <> (B_cmd_setpage, 5) -> memory m' b o = memory m b o)
    /\ width (oled m') = width (oled m)
    /\ height (oled m') = height (oled m)
    /\ frame_buffer (oled m') = frame_buffer (oled m)
    /\ i2c_addr (oled m') = i2c_addr (oled m)
    /\ num_pages (oled m') = num_pages (oled m).
Proof.
  intros m m' Hc. unfold ISR.
  destruct (ISR_fsm_frame m) as [Fo Fm].
  destruct (ISR_fsm m) as [m0 f] eqn:E0. cbn [fst] in Fo, Fm.
  destruct f as [[cb arg]|].
  - destruct (ISR_fsm_calls _ _ _ _ E0) as (-> & -> & _).
    destruct Hc as [Hc|([Hc|[Hc|Hc]] & Ha)]; rewrite Hc; try rewrite Ha;
      cbn [call_cbk];
      unfold OLED_cbk_empty, OLED_cbk_unlock, OLED_cbk_writepage,
        OLED_cbk_setwritepage; intro E.
    + injection E as <-. rewrite Fo, Fm. repeat split.
    + injection E as <-. cbn. rewrite Fo, Fm. repeat split.
    + destruct (num_pages (oled m0) <=? cur_page (oled m0)).
      * injection E as <-. cbn. rewrite Fo, Fm. repeat split.
      * apply spin_in_isr_frame in E. destruct E as [Eo Em].
        rewrite Eo, Em. cbn. rewrite Fo, Fm. repeat split.
    + apply spin_in_isr_frame in E. destruct E as [Eo Em].
      rewrite Eo, Em. cbn [set_memory oled memory]. rewrite Fo, Fm.
      split; [|repeat split].
      intros b o Hbo.
      change (store (memory m) (Ptr B_cmd_setpage (OLED_ARR_SIZE _i2c_cmd_setpage - 1))
                (u8 (Z.lor 176 (cur_page (oled m)))) b o)
        with (load (store (memory m) (Ptr B_cmd_setpage 5)
                      (u8 (Z.lor 176 (cur_page (oled m))))) (Ptr b o)).
      rewrite load_store_other by congruence. reflexivity.
  - intro E. injection E as <-. rewrite Fo, Fm. repeat split.
Qed.

Lemma ISR_writes_only_the_page_byte_witness :
  exists m', ISR demo_page_selected = Some m'
    /\ frame_buffer (oled m') = frame_buffer (oled demo_page_selected)
    /\ memory m' (B_ext 0) 7 = memory demo_page_selected (B_ext 0) 7.
Proof.
  assert (C : own_callback (i2c_callback (i2c demo_page_selected))
                (i2c_callback_args (i2c demo_page_selected))).
  { right. split; [right; left|]; vm_compute; reflexivity. }
  assert (E : exists m', ISR demo_page_selected = Some m')
    by (vm_compute; eexists; reflexivity).
  destruct E as (m' & E). exists m'. split; [exact E|].
  destruct (ISR_writes_only_the_page_byte demo_page_selected m' C E)
    as (M & _ & _ & F & _).
  split; [exact F|]. apply M. intro H. inversion H.
Defined.

Lemma hw_events_frame : forall n m m',
  hw_events n m = Some m' ->
  (forall b o, (b, o) <> (B_cmd_setpage, 5) -> memory m' b o = memory m b o)
  /\ i2c_addr (oled m') = i2c_addr (oled m).
Proof.
  induction n as [|n IH]; intros m m' E; cbn [hw_events] in E.
  - injection E as <-. split; reflexivity.
  - destruct (ISR m) as [m1|] eqn:E1; [|discriminate].
    destruct (ISR_frame m m1 E1) as (M1 & _ & _ & _ & A1 & _).
    destruct (IH m1 m' E) as (M & A). split.
    + intros b o Hbo. rewrite M, M1 by assumption. reflexivity.
    + congruence.
Qed.

(** ** The lock between a refresh and a brightness change *)

Lemma ISR_fsm_keeps_callback : forall m,
  i2c_callback (i2c (fst (ISR_fsm m))) = i2c_callback (i2c m)
  /\ i2c_callback_args (i2c (fst (ISR_fsm m))) = i2c_callback_args (i2c m).
Proof.
  intros m. unfold ISR_fsm. destruct (i2c_state (i2c m)); split; reflexivity.
Qed.

(** While the lock stays taken, an event of the refresh chain leaves the
    chain with a transaction in flight. *)
Lemma chain_step : forall m m',
  in_chain m -> ISR m = Some m' -> busy_lock (oled m') = 0 -> in_chain m'.
Proof.
  intros m m' (Hb & Hc & Ha) E L. unfold ISR in E.
  destruct (ISR_fsm m) as [m0 f] eqn:E0. destruct f as [[cb arg]|].
  - destruct (ISR_fsm_calls _ _ _ _ E0) as (-> & -> & S0).
    rewrite Ha in E. destruct Hc as [Hc|Hc]; rewrite Hc in E; cbn [call_cbk] in E.
    + destruct (Z.le_gt_cases (num_pages (oled m0)) (cur_page (oled m0))) as [T|T].
      * rewrite writepage_terminates in E by assumption.
        injection E as <-. cbn in L. discriminate.
      * destruct (writepage_advances spin_in_isr spin_in_isr_accepts m0 S0
                    ltac:(lia)) as (m1 & E1 & Gi & _).
        rewrite E1 in E. injection E as <-. unfold in_chain. rewrite Gi. cbn.
        split; [discriminate|]. split; [now right|reflexivity].
    + destruct (setwritepage_submits spin_in_isr spin_in_isr_accepts m0 S0)
        as (m1 & E1 & Gi & _).
      rewrite E1 in E. injection E as <-. unfold in_chain. rewrite Gi. cbn.
      split; [discriminate|]. split; [now left|reflexivity].
  - injection E as <-.
    destruct (ISR_fsm_keeps_callback m) as [Kc Ka]. rewrite E0 in Kc, Ka.
    cbn [fst] in Kc, Ka. unfold in_chain. rewrite Kc, Ka.
    split; [now apply (ISR_fsm_silent_busy m)|]. split; assumption.
Qed.

Lemma chain_stays : forall j m mj,
  in_chain m -> hw_events j m = Some mj -> held_through j m -> in_chain mj.
Proof.
  induction j as [|j IH]; intros m mj C E H; cbn [hw_events] in E.
  - now injection E as <-.
  - destruct (ISR m) as [m1|] eqn:E1; [|discriminate].
    apply (IH m1 mj); [ | exact E | ].
    + apply (chain_step m m1 C E1).
      destruct (H 1%nat ltac:(lia)) as (m1' & E1' & L1).
      cbn [hw_events] in E1'. rewrite E1 in E1'. now injection E1' as <-.
    + intros i Hi. destruct (H (S i) ltac:(lia)) as (mi & Ei & Li).
      cbn [hw_events] in Ei. rewrite E1 in Ei. exists mi. auto.
Qed.

Lemma chain_busy : forall n m,
  in_chain m -> held_through n m -> busy_through n m.
Proof.
  intros n m C H j Hj. destruct (H j Hj) as (mj & Ej & Lj).
  exists mj. split; [exact Ej|]. split; [exact Lj|].
  assert (Hh : held_through j m) by (intros i Hi; apply H; lia).
  apply (chain_stays j m mj C Ej Hh).
Qed.

(** ** The refresh as a whole *)

(** C1, what the code does.  A refresh started on an idle bus with the lock
    free puts on the bus, for each page [p] from 0 to [num_pages - 1] in
    increasing order and once each, the select-page command whose last byte
    is [0xB0 | p] (low nibble [p] for [p < 16]) followed by the transfer of
    the data prefix and exactly [width] bytes of the frame buffer from
    [p * width] on.  No event of the sequence writes to the frame buffer:
    after each of them the memory is as it was at the call, the last byte
    of the select-page command apart, so that the bytes sent are those of
    the buffer at transmission time.  The completion of the last transfer
    does not end the chain: with the lock still held it submits one more
    select-page command, for the page index [num_pages] ([0xB8] for 8 pages,
    where the comment of [_i2c_cmd_setpage] gives [0xB0..0xB7]), and it is
    the completion of that command, 8 events later, that releases the lock
    and leaves the bus idle. *)
Theorem refresh_chain :
  forall fuel m fbb fbo,
    i2c_state (i2c m) = I2C_STATE_IDLE ->
    busy_lock (oled m) <> 0 ->
    statics_intact (memory m) ->
    frame_buffer (oled m) = Ptr (B_ext fbb) fbo ->
    1 <= width (oled m) <= 255 ->
    0 <= num_pages (oled m) <= 255 ->
    let o := oled m in
    let dev := u8 (Z.shiftl (i2c_addr o) 1) in
    let n := Z.to_nat (num_pages o) in
    let sent := pages_frames dev (memory m) (frame_buffer o) (width o) n in
    exists m1 m2 m3,
      OLED_refresh fuel m = Some m1
      /\ hw_events (n * Z.to_nat (width o + 11)) m1 = Some m2
      /\ wire m2 = wire m ++ sent ++ [BusStart]
      /\ busy_lock (oled m2) = 0
      /\ i2c_state (i2c m2) = I2C_STATE_SLAVEADDR
      /\ cur_page (oled m2) = num_pages o
      /\ hw_events 8 m2 = Some m3
      /\ wire m3 = wire m ++ sent ++ select_page_frame dev (num_pages o)
      /\ busy_lock (oled m3) = 1
      /\ i2c_state (i2c m3) = I2C_STATE_IDLE
      /\ (forall p, 0 <= p < 16 -> Z.land (u8 (Z.lor 0xB0 p)) 0x0F = p)
      /\ (forall j mj, hw_events j m1 = Some mj ->
            forall b off, (b, off) <> (B_cmd_setpage, 5) ->
                          memory mj b off = memory m b off).
Proof.
  intros fuel m fbb fbo Hs Hl Hst Hfb Hw Hn o dev n sent.
  destruct (refresh_starts fuel m Hs Hl) as (m1 & E1 & A1 & W1).
  assert (Hnn : Z.of_nat n = num_pages (oled m)) by (subst n o; lia).
  destruct (pages_run (oled m) (memory m) fbb fbo Hst Hfb Hw Hn n 0 m1 (wire m)
              A1 W1) as (m2 & E2 & A2 & W2 & _).
  { cbn [Nat.add]. lia. }
  cbn [Nat.add] in A2. rewrite Hnn in A2.
  destruct (refresh_tail (oled m) (memory m) Hst m2 A2)
    as (m3 & E3 & W3 & L3 & S3 & _).
  exists m1, m2, m3.
  split; [exact E1|]. split; [exact E2|]. split; [exact W2|].
  destruct A2 as (Gi2 & Go2 & _).
  split; [rewrite Go2; reflexivity|]. split; [rewrite Gi2; reflexivity|].
  split; [rewrite Go2; reflexivity|]. split; [exact E3|].
  split.
  - rewrite W3, W2. unfold select_page_frame. cbn [tl].
    rewrite <- !app_assoc. reflexivity.
  - split; [exact L3|]. split; [exact S3|].
    split; [exact select_page_low_nibble|].
    intros j mj Ej b off Hb.
    rewrite (proj1 (hw_events_frame j m1 mj Ej) b off Hb).
    destruct A1 as (_ & _ & _ & Gm1). now apply Gm1.
Qed.

Lemma refresh_chain_witness :
  exists m1 m2,
    OLED_refresh 0 demo_idle = Some m1
    /\ hw_events (Z.to_nat 8 * Z.to_nat (128 + 11)) m1 = Some m2
    /\ busy_lock (oled m2) = 0
    /\ i2c_state (i2c m2) = I2C_STATE_SLAVEADDR.
Proof.
  destruct (refresh_chain 0 demo_idle 0%nat 0)
    as (m1 & m2 & m3 & E1 & E2 & _ & L2 & S2 & _).
  - reflexivity.
  - vm_compute. discriminate.
  - exact statics_intact_demo.
  - reflexivity.
  - vm_compute. split; discriminate.
  - vm_compute. split; discriminate.
  - exists m1, m2. repeat split; assumption.
Defined.


Lemma pages_frames_ext : forall dev h h' fbb fbo w n,
  (forall o, h' (B_ext fbb) o = h (B_ext fbb) o) ->
  pages_frames dev h' (Ptr (B_ext fbb) fbo) w n
  = pages_frames dev h (Ptr (B_ext fbb) fbo) w n.
Proof.
  intros dev h h' fbb fbo w n H. unfold pages_frames.
  apply flat_map_ext. intros i. unfold page_data_frame.
  do 5 f_equal. apply bytes_at_ext. intros k _. cbn [ptr_add load]. apply H.
Qed.

(** X7.  A brightness change requested while a refresh is under way waits
    for it.  [OLED_cmd_setbrightness] called right after [OLED_refresh] has
    started spins through every event of the refresh; its command goes out
    behind the last transaction of the refresh, after the refresh has
    released the lock, so that the two sequences never interleave on the
    bus; the frame buffer bytes the refresh sends are not affected. *)
Theorem setbrightness_waits_for_refresh :
  forall fuel level m fbb fbo,
    i2c_state (i2c m) = I2C_STATE_IDLE ->
    busy_lock (oled m) <> 0 ->
    statics_intact (memory m) ->
    brightness_intact (memory m) ->
    frame_buffer (oled m) = Ptr (B_ext fbb) fbo ->
    1 <= width (oled m) <= 255 ->
    0 <= num_pages (oled m) <= 255 ->
    let o := oled m in
    let dev := u8 (Z.shiftl (i2c_addr o) 1) in
    let n := Z.to_nat (num_pages o) in
    let refresh := pages_frames dev (memory m) (frame_buffer o) (width o) n
                   ++ select_page_frame dev (num_pages o) in
    (n * Z.to_nat (width o + 11) + 8 <= fuel)%nat ->
    exists m1 m2 m3,
      OLED_refresh fuel m = Some m1
      /\ OLED_cmd_setbrightness fuel level m1 = Some m2
      /\ wire m2 = wire m ++ refresh ++ [BusStart]
      /\ busy_lock (oled m2) = 0
      /\ hw_events 6 m2 = Some m3
      /\ wire m3 = wire m ++ refresh ++ brightness_frame dev level
      /\ busy_lock (oled m3) = 1.
Proof.
  intros fuel level m fbb fbo Hs Hl Hst Hbr Hfb Hw Hn o dev n refresh Hf.
  destruct (refresh_starts fuel m Hs Hl) as (m1 & E1 & A1 & W1).
  set (h0 := store (memory m) (Ptr B_cmd_setbrightness 3) (u8 level)).
  set (m0 := set_memory (store (memory m1) (Ptr B_cmd_setbrightness 3)
                               (u8 level)) m1).
  assert (Hh0 : forall b o', (b, o') <> (B_cmd_setbrightness, 3) ->
                             h0 b o' = memory m b o').
  { intros b o' Hbo. subst h0.
    change (store (memory m) (Ptr B_cmd_setbrightness 3) (u8 level) b o')
      with (load (store (memory m) (Ptr B_cmd_setbrightness 3) (u8 level))
                 (Ptr b o')).
    rewrite load_store_other by congruence. reflexivity. }
  assert (Hst0 : statics_intact h0).
  { destruct Hst as (S0 & S1 & S2 & S3 & S4 & S5). unfold statics_intact.
    rewrite !Hh0 by (intro E; inversion E). repeat split; assumption. }
  (* the machine after the patch is still at page 0 of the refresh *)
  assert (A0 : at_page (oled m) h0 0 m0).
  { destruct A1 as (Gi & Go & G5 & Gh). unfold at_page. subst m0.
    cbn [set_memory i2c oled memory]. split; [exact Gi|]. split; [exact Go|].
    assert (St : forall b o',
               store (memory m1) (Ptr B_cmd_setbrightness 3) (u8 level) b o'
               = if block_eqb B_cmd_setbrightness b && (3 =? o')
                 then u8 level else memory m1 b o') by reflexivity.
    split.
    - rewrite St. cbn. exact G5.
    - intros b o' Hbo. rewrite St. subst h0.
      assert (St' : store (memory m) (Ptr B_cmd_setbrightness 3) (u8 level) b o'
                    = if block_eqb B_cmd_setbrightness b && (3 =? o')
                      then u8 level else memory m b o') by reflexivity.
      rewrite St'.
      destruct (block_eqb B_cmd_setbrightness b && (3 =? o')); [reflexivity|].
      now apply Gh. }
  assert (W0 : wire m0 = wire m ++ [BusStart]) by exact W1.
  assert (Hnn : Z.of_nat n = num_pages (oled m)) by (subst n o; lia).
  destruct (pages_run (oled m) h0 fbb fbo Hst0 Hfb Hw Hn n 0 m0 (wire m) A0 W0)
    as (m2 & E2 & A2 & W2 & L2).
  { cbn [Nat.add]. lia. }
  cbn [Nat.add] in A2. rewrite Hnn in A2.
  destruct (refresh_tail (oled m) h0 Hst0 m2 A2) as (m3 & E3 & W3 & L3 & S3 & L7).
  (* the lock is held and the bus busy all along *)
  assert (C0 : in_chain m0).
  { destruct A0 as (Gi & _). unfold in_chain. rewrite Gi. cbn.
    split; [discriminate|]. split; [now left|reflexivity]. }
  pose proof (chain_busy _ m0 C0 (held_through_app _ 7 m0 m2 L2 E2 L7)) as B.
  assert (Et : hw_events (n * Z.to_nat (width (oled m) + 11) + 8) m0 = Some m3)
    by (rewrite hw_events_app, E2; exact E3).
  destruct (setbrightness_after (n * Z.to_nat (width (oled m) + 11) + 8)
              fuel level m1 m3 Hf) as (m4 & E4 & Gi4 & Go4 & Gm4 & Gw4).
  { intros j Hj. apply B. lia. }
  { exact Et. }
  { rewrite L3. discriminate. }
  { exact S3. }
  destruct (hw_events_frame _ _ _ Et) as (M3 & Ad3).
  assert (Ad0 : i2c_addr (oled m0) = i2c_addr (oled m)).
  { destruct A0 as (_ & Go & _). rewrite Go. reflexivity. }
  rewrite Ad0 in Ad3.
  destruct (brightness_completes m4 level) as (m5 & E5 & W5 & O5 & _).
  { rewrite Gi4, Go4. reflexivity. }
  { rewrite Go4. reflexivity. }
  { rewrite Gm4.
    assert (Hb : bytes_at (memory m3) (Ptr B_cmd_setbrightness 0) 4
                 = bytes_at h0 (Ptr B_cmd_setbrightness 0) 4).
    { apply bytes_at_ext. intros i _. cbn [ptr_add load].
      rewrite M3 by (intro E; inversion E).
      destruct A0 as (_ & _ & _ & Gh). apply Gh. intro E. inversion E. }
    rewrite Hb. subst h0. now apply brightness_bytes. }
  assert (Ef : pages_frames dev h0 (frame_buffer (oled m)) (width (oled m)) n
               = pages_frames dev (memory m) (frame_buffer (oled m))
                   (width (oled m)) n).
  { rewrite Hfb. apply pages_frames_ext. intros o'. apply Hh0.
    intro E. inversion E. }
  assert (Ew : wire m4 = wire m ++ refresh ++ [BusStart]).
  { rewrite Gw4, W3, W2. subst refresh o. rewrite <- Ef.
    unfold select_page_frame. cbn [tl].
    repeat (rewrite <- ?app_assoc; cbn [app]). reflexivity. }
  exists m1, m4, m5. split; [exact E1|]. split; [exact E4|].
  split; [exact Ew|]. split; [rewrite Go4; reflexivity|].
  split; [exact E5|]. split.
  - rewrite W5, Ew, Go4. cbn [set_busy_lock i2c_addr]. rewrite Ad3.
    unfold brightness_frame. cbn [tl]. subst dev o.
    repeat (rewrite <- ?app_assoc; cbn [app]). reflexivity.
  - rewrite O5. reflexivity.
Qed.

Lemma setbrightness_waits_for_refresh_witness :
  exists m1 m2,
    OLED_refresh 1120 demo_idle = Some m1
    /\ OLED_cmd_setbrightness 1120 128 m1 = Some m2
    /\ busy_lock (oled m2) = 0.
Proof.
  destruct (setbrightness_waits_for_refresh 1120 128 demo_idle 0 0)
    as (m1 & m2 & m3 & E1 & E2 & _ & L & _).
  - vm_compute. reflexivity.
  - vm_compute. discriminate.
  - vm_compute. repeat split.
  - vm_compute. repeat split.
  - vm_compute. reflexivity.
  - vm_compute. split; discriminate.
  - vm_compute. split; discriminate.
  - apply Nat.leb_le. vm_compute. reflexivity.
  - exists m1, m2. repeat split; assumption.
Defined.

(** ** The bit rate *)

Lemma twps_loop_4 : forall t,
  twps_loop 4 0 t
  = if t <=? 255 then (0, t)
    else if t / 4 <=? 255 then (1, t / 4)
    else if t / 4 / 4 <=? 255 then (2, t / 4 / 4)
    else if t / 4 / 4 / 4 <=? 255 then (3, t / 4 / 4 / 4)
    else (4, t / 4 / 4 / 4 / 4).
Proof.
  intros t. cbn [twps_loop].
  destruct (t <=? 255); [reflexivity|].
  destruct (t / 4 <=? 255); [reflexivity|].
  destruct (t / 4 / 4 <=? 255); [reflexivity|].
  destruct (t / 4 / 4 / 4 <=? 255); reflexivity.
Qed.

Lemma prescaler_bits : forall s k,
  0 <= k <= 3 -> Z.land (Z.lor (Z.land s 0xFC) (Z.land k 0x03)) 3 = k.
Proof.
  intros s k Hk.
  rewrite Z.land_lor_distr_l, <- Z.land_assoc.
  change (Z.land 252 3) with 0. rewrite Z.land_0_r, Z.lor_0_l.
  assert (H : k = 0 \/ k = 1 \/ k = 2 \/ k = 3) by lia.
  destruct H as [->|[->|[->| ->]]]; reflexivity.
Qed.

Lemma I2C_init_frame : forall hz m,
  i2c (I2C_init hz m) = set_state I2C_STATE_IDLE (i2c m)
  /\ TWCR (twi (I2C_init hz m)) = 5
  /\ TWDR (twi (I2C_init hz m)) = TWDR (twi m)
  /\ oled (I2C_init hz m) = oled m
  /\ memory (I2C_init hz m) = memory m
  /\ wire (I2C_init hz m) = wire m.
Proof.
  intros. unfold I2C_init. destruct (twps_loop 4 0 _) as [twps twbr].
  cbn. repeat split.
Qed.

Lemma I2C_init_regs : forall hz m,
  let t := u32 (F_CPU / u32 (2 * hz) - 8) in
  TWBR (twi (I2C_init hz m)) = u8 (snd (twps_loop 4 0 t))
  /\ TWSR (twi (I2C_init hz m))
     = Z.lor (Z.land (TWSR (twi m)) 0xFC) (Z.land (fst (twps_loop 4 0 t)) 0x03).
Proof.
  intros. subst t. unfold I2C_init. destruct (twps_loop 4 0 _) as [twps twbr].
  cbn. split; reflexivity.
Qed.

(** X8.  [I2C_init] for a frequency between 489 Hz and 1 MHz (at the
    16 MHz clock of oled_test.c): with [q = F_CPU / (2 hz) - 8], it selects
    the least prescaler exponent [k] in 0..3 for which [q / 4^k] fits in a
    byte, stores [q / 4^k] in TWBR and [k] in the two low bits of TWSR,
    whose other bits it keeps, enables the interface and its interrupt, and
    leaves the bus state Idle; the request statics, the display, the memory
    and the bus are not touched. *)
Theorem I2C_init_divider :
  forall hz m,
    489 <= hz <= 1000000 ->
    let q := F_CPU / (2 * hz) - 8 in
    let m' := I2C_init hz m in
    exists k,
      0 <= k <= 3
      /\ TWBR (twi m') = q / 4 ^ k
      /\ 0 <= TWBR (twi m') <= 255
      /\ (k = 0 \/ 255 < q / 4 ^ (k - 1))
      /\ Z.land (TWSR (twi m')) 3 = k
      /\ Z.land (TWSR (twi m')) 0xFC = Z.land (TWSR (twi m)) 0xFC
      /\ TWCR (twi m') = Z.lor (Z.shiftl 1 TWEN) (Z.shiftl 1 TWIE)
      /\ i2c m' = set_state I2C_STATE_IDLE (i2c m)
      /\ oled m' = oled m /\ memory m' = memory m /\ wire m' = wire m.
Proof.
  intros hz m Hhz q m'.
  assert (Hq : 0 <= q < 16384).
  { subst q. unfold F_CPU. split.
    - assert (8 <= 16000000 / (2 * hz)); [|lia].
      apply Z.div_le_lower_bound; lia.
    - assert (16000000 / (2 * hz) < 16392); [|lia].
      apply Z.div_lt_upper_bound; lia. }
  assert (Et : u32 (F_CPU / u32 (2 * hz) - 8) = q).
  { unfold u32. rewrite (Z.mod_small (2 * hz)) by lia.
    apply Z.mod_small. change (0 <= q < 2 ^ 32). lia. }
  destruct (I2C_init_frame hz m) as (Gi & Gc & _ & Go & Gm & Gw).
  destruct (I2C_init_regs hz m) as (Gb & Gs). rewrite Et in Gb, Gs.
  rewrite twps_loop_4 in Gb, Gs. subst m'.
  assert (D1 : q / 4 / 4 = q / 4 ^ 2)
    by (rewrite Z.div_div by lia; reflexivity).
  assert (D2 : q / 4 / 4 / 4 = q / 4 ^ 3)
    by (rewrite !Z.div_div by lia; reflexivity).
  assert (B0 : 0 <= q / 4) by (apply Z.div_pos; lia).
  assert (B1 : 0 <= q / 4 ^ 2) by (apply Z.div_pos; lia).
  assert (B2 : 0 <= q / 4 ^ 3) by (apply Z.div_pos; lia).
  assert (B3 : q / 4 ^ 3 <= 255).
  { assert (q / 4 ^ 3 < 256); [|lia]. apply Z.div_lt_upper_bound; lia. }
  assert (Hhi : forall k, 0 <= k <= 3 ->
            Z.land (Z.lor (Z.land (TWSR (twi m)) 252) (Z.land k 3)) 252
            = Z.land (TWSR (twi m)) 252).
  { intros k Hk. rewrite Z.land_lor_distr_l, <- !Z.land_assoc.
    change (Z.land 252 252) with 252.
    assert (H : k = 0 \/ k = 1 \/ k = 2 \/ k = 3) by lia.
    destruct H as [->|[->|[->| ->]]]; cbn; apply Z.lor_0_r. }
  rewrite D2, D1 in Gb, Gs.
  destruct (Z.leb_spec q 255).
  { exists 0. cbn [fst snd] in Gb, Gs. rewrite Gb, Gs, Gc, Gi, Go, Gm, Gw.
    rewrite u8_small, Z.div_1_r by lia. rewrite prescaler_bits, Hhi by lia.
    repeat split; auto; lia. }
  destruct (Z.leb_spec (q / 4) 255).
  { exists 1. cbn [fst snd] in Gb, Gs. rewrite Gb, Gs, Gc, Gi, Go, Gm, Gw.
    rewrite u8_small by lia. rewrite prescaler_bits, Hhi by lia.
    change (4 ^ 1) with 4. change (4 ^ (1 - 1)) with 1. rewrite Z.div_1_r.
    repeat split; auto; lia. }
  destruct (Z.leb_spec (q / 4 ^ 2) 255).
  { exists 2. cbn [fst snd] in Gb, Gs. rewrite Gb, Gs, Gc, Gi, Go, Gm, Gw.
    rewrite u8_small by lia. rewrite prescaler_bits, Hhi by lia.
    change (4 ^ (2 - 1)) with 4.
    repeat split; auto; lia. }
  destruct (Z.leb_spec (q / 4 ^ 3) 255); [|lia].
  exists 3. cbn [fst snd] in Gb, Gs. rewrite Gb, Gs, Gc, Gi, Go, Gm, Gw.
  rewrite u8_small by lia. rewrite prescaler_bits, Hhi by lia.
  change (4 ^ (3 - 1)) with (4 ^ 2).
  repeat split; auto; lia.
Qed.

Lemma I2C_init_divider_witness :
  exists k,
    TWBR (twi (I2C_init 200000 (reset_machine static_mem)))
    = (F_CPU / (2 * 200000) - 8) / 4 ^ k
    /\ Z.land (TWSR (twi (I2C_init 200000 (reset_machine static_mem)))) 3 = k.
Proof.
  destruct (I2C_init_divider 200000 (reset_machine static_mem))
    as (k & _ & B & _ & _ & S & _).
  - lia.
  - exists k. split; assumption.
Defined.

(** X9.  Outside that range the divider is wrong.  Above 1 MHz
    [F_CPU / (2 hz)] is below 8, the unsigned subtraction wraps, and the
    loop ends with TWBR = 255 and the prescaler bits at 0: the slowest
    setting but for the prescaler.  From 1 to 488 Hz the quotient does not
    fit even with the largest prescaler: the loop runs out with the
    exponent 4, of which the two low bits, 0, reach TWSR, and TWBR gets the
    low byte of the quotient divided by 256. *)
Theorem I2C_init_out_of_range :
  forall hz m,
    let q := F_CPU / (2 * hz) - 8 in
    let m' := I2C_init hz m in
    (1000000 < hz < 2147483648 ->
       TWBR (twi m') = 255 /\ Z.land (TWSR (twi m')) 3 = 0)
    /\ (1 <= hz <= 488 ->
       TWBR (twi m') = u8 (q / 256) /\ Z.land (TWSR (twi m')) 3 = 0
       /\ 64 <= q / 256).
Proof.
  intros hz m q m'.
  destruct (I2C_init_regs hz m) as (Gb & Gs). rewrite twps_loop_4 in Gb, Gs.
  subst m'. split; intro Hhz.
  - assert (Hd : 0 <= 16000000 / (2 * hz) < 8).
    { split; [apply Z.div_pos; lia|]. apply Z.div_lt_upper_bound; lia. }
    assert (Et : u32 (F_CPU / u32 (2 * hz) - 8) = 4294967296 + q).
    { unfold u32. rewrite (Z.mod_small (2 * hz)) by lia.
      change (2 ^ 32) with 4294967296. change (F_CPU / (2 * hz) - 8) with q.
      assert (Hq : -8 <= q < 0) by (subst q; unfold F_CPU; lia).
      rewrite <- (Z.mod_add q 1 4294967296) by lia.
      rewrite Z.mod_small; lia. }
    rewrite Et in Gb, Gs.
    assert (Hq : -8 <= q < 0) by (subst q; unfold F_CPU; lia).
    set (t := 4294967296 + q) in *.
    assert (Ht : 4294967288 <= t < 4294967296) by (subst t; lia).
    assert (D : t / 4 / 4 / 4 / 4 = 16777215).
    { rewrite !Z.div_div by lia. change (4 * 4 * 4 * 4) with 256.
      Z.to_euclidean_division_equations; lia. }
    assert (L1 : 255 < t / 4) by (Z.to_euclidean_division_equations; lia).
    assert (L2 : 255 < t / 4 / 4) by (Z.to_euclidean_division_equations; lia).
    assert (L3 : 255 < t / 4 / 4 / 4)
      by (Z.to_euclidean_division_equations; lia).
    destruct (Z.leb_spec t 255); [lia|].
    destruct (Z.leb_spec (t / 4) 255); [lia|].
    destruct (Z.leb_spec (t / 4 / 4) 255); [lia|].
    destruct (Z.leb_spec (t / 4 / 4 / 4) 255); [lia|].
    cbn [fst snd] in Gb, Gs. rewrite D in Gb. rewrite Gb, Gs.
    split; [reflexivity|].
    change (Z.land 4 3) with 0. rewrite Z.lor_0_r, <- Z.land_assoc.
    change (Z.land 252 3) with 0. apply Z.land_0_r.
  - assert (Hd : 16393 <= 16000000 / (2 * hz) <= 8000000).
    { split; [apply Z.div_le_lower_bound; lia|].
      apply Z.div_le_upper_bound; lia. }
    assert (Hq : 16385 <= q < 8000000) by (subst q; unfold F_CPU; lia).
    assert (Et : u32 (F_CPU / u32 (2 * hz) - 8) = q).
    { unfold u32. rewrite (Z.mod_small (2 * hz)) by lia.
      apply Z.mod_small. change (0 <= q < 2 ^ 32). lia. }
    rewrite Et in Gb, Gs.
    assert (D : q / 4 / 4 / 4 / 4 = q / 256)
      by (rewrite !Z.div_div by lia; reflexivity).
    assert (L0 : 255 < q) by lia.
    assert (L1 : 255 < q / 4) by (Z.to_euclidean_division_equations; lia).
    assert (L2 : 255 < q / 4 / 4) by (Z.to_euclidean_division_equations; lia).
    assert (L3 : 255 < q / 4 / 4 / 4)
      by (Z.to_euclidean_division_equations; lia).
    destruct (Z.leb_spec q 255); [lia|].
    destruct (Z.leb_spec (q / 4) 255); [lia|].
    destruct (Z.leb_spec (q / 4 / 4) 255); [lia|].
    destruct (Z.leb_spec (q / 4 / 4 / 4) 255); [lia|].
    cbn [fst snd] in Gb, Gs. rewrite D in Gb. rewrite Gb, Gs.
    split; [reflexivity|]. split.
    + change (Z.land 4 3) with 0. rewrite Z.lor_0_r, <- Z.land_assoc.
      change (Z.land 252 3) with 0. apply Z.land_0_r.
    + Z.to_euclidean_division_equations; lia.
Qed.

Lemma I2C_init_out_of_range_witness :
  (TWBR (twi (I2C_init 2000000 (reset_machine static_mem))) = 255
   /\ Z.land (TWSR (twi (I2C_init 2000000 (reset_machine static_mem)))) 3 = 0)
  /\ TWBR (twi (I2C_init 100 (reset_machine static_mem)))
     = u8 ((F_CPU / (2 * 100) - 8) / 256).
Proof.
  destruct (I2C_init_out_of_range 2000000 (reset_machine static_mem)) as [A _].
  destruct (I2C_init_out_of_range 100 (reset_machine static_mem)) as [_ B].
  split.
  - apply A. lia.
  - apply B. lia.
Defined.

(** * More of the drawing *)

(** ** One pixel *)

Lemma pixel_offset_inj : forall w x y x' y',
  0 <= x < w -> 0 <= x' < w -> 0 <= y -> 0 <= y' ->
  y / 8 * w + x = y' / 8 * w + x' -> y / 8 = y' / 8 /\ x = x'.
Proof.
  intros w x y x' y' Hx Hx' Hy Hy' E.
  assert (0 <= y / 8) by (apply Z.div_pos; lia).
  assert (0 <= y' / 8) by (apply Z.div_pos; lia).
  assert (y / 8 = y' / 8) by nia. split; [assumption|]. nia.
Qed.

(** Putting a pixel of the display leaves the bit of every other pixel of
    the display. *)
Lemma pixel_other : forall o x y x' y' c h,
  0 <= x < width o -> 0 <= y -> 0 <= x' < width o -> 0 <= y' ->
  (x', y') <> (x, y) ->
  pixel_bit o x' y' (OLED_put_pixel_ o x y c h) = pixel_bit o x' y' h.
Proof.
  intros o x y x' y' c h Hx Hy Hx' Hy' N.
  unfold pixel_bit, OLED_put_pixel_, pixel_ptr.
  destruct (frame_buffer o) as [|b off]; cbn [ptr_add store load]; [reflexivity|].
  rewrite block_eqb_refl. cbn [andb].
  destruct (Z.eqb_spec (off + (y / 8 * width o + x))
                       (off + (y' / 8 * width o + x'))) as [E|_]; [|reflexivity].
  destruct (pixel_offset_inj (width o) x y x' y') as [Ey Ex]; try lia.
  subst x'.
  assert (Hm : y' mod 8 <> y mod 8).
  { intro Em. apply N. f_equal.
    rewrite (Z.div_mod y 8), (Z.div_mod y' 8) by lia. congruence. }
  assert (0 <= y mod 8 < 8) by (apply Z.mod_pos_bound; lia).
  assert (0 <= y' mod 8 < 8) by (apply Z.mod_pos_bound; lia).
  rewrite put_byte_bit by lia.
  destruct (Z.eqb_spec (y' mod 8) (y mod 8)); [contradiction|].
  rewrite Ey. reflexivity.
Qed.

(** The byte of a pixel of the display lies in the frame buffer. *)
Lemma pixel_in_frame_buffer : forall o b off x y,
  frame_buffer o = Ptr b off ->
  0 <= x < width o -> 0 <= y < height o ->
  in_frame_buffer o b (off + (y / 8 * width o + x)).
Proof.
  intros o b off x y Hfb Hx Hy. exists b, off.
  split; [exact Hfb|]. split; [reflexivity|].
  assert (0 <= y / 8) by (apply Z.div_pos; lia).
  assert (y / 8 + 1 <= (height o + 7) / 8)
    by (Z.to_euclidean_division_equations; lia).
  nia.
Qed.

Lemma put_pixel__confined : forall o x y c h,
  0 <= x < width o -> 0 <= y < height o ->
  same_outside o h (OLED_put_pixel_ o x y c h).
Proof.
  intros o x y c h Hx Hy b' o' Hout.
  unfold OLED_put_pixel_, pixel_ptr.
  destruct (frame_buffer o) as [|b off] eqn:Hfb; cbn [ptr_add store];
    [reflexivity|].
  destruct (block_eqb b b') eqn:Eb; cbn [andb]; [|reflexivity].
  destruct (Z.eqb_spec (off + (y / 8 * width o + x)) o') as [E|_];
    [|reflexivity].
  exfalso. apply Hout. apply block_eqb_eq in Eb. subst b' o'.
  now apply pixel_in_frame_buffer.
Qed.

(** X10.  [OLED_put_pixel] changes one pixel at most: whatever its
    arguments and its outcome, the bit of every other pixel of the display
    is as before, and no byte outside the [width * ceil (height / 8)] bytes
    of the frame buffer is written. *)
Theorem put_pixel_touches_one_pixel :
  forall o x y pixel_state h,
    0 <= x -> 0 <= y ->
    let h' := snd (OLED_put_pixel o x y pixel_state h) in
    (forall x' y', 0 <= x' < width o -> 0 <= y' -> (x', y') <> (x, y) ->
                   pixel_bit o x' y' h' = pixel_bit o x' y' h)
    /\ same_outside o h h'.
Proof.
  intros o x y c h Hx Hy h'. subst h'. unfold OLED_put_pixel.
  destruct (Z.leb_spec (width o) x); cbn [orb snd].
  - split; [reflexivity | intros b off _; reflexivity].
  - destruct (Z.leb_spec (height o) y); cbn [snd].
    + split; [reflexivity | intros b off _; reflexivity].
    + split.
      * intros x' y' Hx' Hy' N. apply pixel_other; auto; lia.
      * apply put_pixel__confined; lia.
Qed.

Lemma put_pixel_touches_one_pixel_witness :
  pixel_bit small_oled 4 9 (snd (OLED_put_pixel small_oled 3 9 true static_mem))
  = pixel_bit small_oled 4 9 static_mem
  /\ pixel_bit small_oled 3 10
       (snd (OLED_put_pixel small_oled 3 9 true static_mem))
     = pixel_bit small_oled 3 10 static_mem.
Proof.
  destruct (put_pixel_touches_one_pixel small_oled 3 9 true static_mem)
    as [A _]; [lia | lia |].
  split; apply A;
    first [ intro E; inversion E
          | vm_compute; split; [discriminate | reflexivity] ].
Defined.

(** ** Loops, partially *)

(** Whatever a loop over a [uint8_t] counter keeps at each turn, it keeps,
    if it ends. *)
Lemma for_u8_keeps : forall (Q : mem -> Prop) body b,
  b <= 254 ->
  forall fuel a h h',
    0 <= a ->
    (forall x h h1, a <= x <= b -> Q h -> body x h = Some h1 -> Q h1) ->
    Q h -> for_u8 fuel a b body h = Some h' -> Q h'.
Proof.
  intros Q body b Hb.
  induction fuel as [|fuel IH]; intros a h h' Ha Hbody HQ E;
    cbn [for_u8] in E; [discriminate|].
  destruct (Z.leb_spec a b).
  - destruct (body a h) as [h1|] eqn:E1; [|discriminate].
    rewrite u8_small in E by lia.
    apply (IH (a + 1) h1 h'); [lia | | | exact E].
    + intros x h2 h3 Hx. apply Hbody. lia.
    + apply (Hbody a h h1); [lia | exact HQ | exact E1].
  - now injection E as <-.
Qed.

(** A loop whose bound is 255 or more never ends: the counter wraps before
    it can exceed the bound. *)
Lemma for_u8_never_ends : forall fuel body to x h,
  255 <= to -> 0 <= x <= 255 -> for_u8 fuel x to body h = None.
Proof.
  induction fuel as [|fuel IH]; intros body to x h Ht Hx; cbn [for_u8];
    [reflexivity|].
  destruct (Z.leb_spec x to); [|lia].
  destruct (body x h); [|reflexivity].
  apply IH; [exact Ht|]. unfold u8.
  pose proof (Z.mod_pos_bound (x + 1) 256). lia.
Qed.

(** A loop whose bound is below 255 and whose body returns ends. *)
Lemma for_u8_ends : forall body b fuel a h,
  b <= 254 -> 0 <= a <= 255 -> (256 <= fuel)%nat ->
  (forall x h, exists h', body x h = Some h') ->
  exists h', for_u8 fuel a b body h = Some h'.
Proof.
  intros body b fuel a h Hb Ha Hf Hbody.
  destruct (Z.le_gt_cases a (b + 1)).
  - destruct (for_u8_inv (fun _ _ => True) body b Hb) with
      (n := Z.to_nat (b + 1 - a)) (fuel := fuel) (a := a) (h := h)
      as (h' & E & _); try lia; auto.
    + intros x h1 _ _. destruct (Hbody x h1) as (h2 & E2). eauto.
    + eauto.
  - destruct fuel as [|fuel]; [lia|]. cbn [for_u8].
    destruct (Z.leb_spec a b); [lia|]. eauto.
Qed.

(** ** Rectangles, pixel by pixel *)

Lemma min_if : forall a b, (if b <? a then b else a) = Z.min a b.
Proof. intros. destruct (Z.ltb_spec b a); lia. Qed.

Lemma max_if : forall a b, (if a <? b then b else a) = Z.max a b.
Proof. intros. destruct (Z.ltb_spec a b); lia. Qed.

Lemma limit_coords_swap_x : forall o xf yf xt yt,
  limit_coords o xt yf xf yt
  = let '(a, b, c, d, e) := limit_coords o xf yf xt yt in (c, b, a, d, e).
Proof.
  intros. unfold limit_coords.
  destruct (u8 (width o - 1) <? xf), (u8 (width o - 1) <? xt),
    (u8 (height o - 1) <? yf), (u8 (height o - 1) <? yt); reflexivity.
Qed.

Lemma limit_coords_swap_y : forall o xf yf xt yt,
  limit_coords o xf yt xt yf
  = let '(a, b, c, d, e) := limit_coords o xf yf xt yt in (a, d, c, b, e).
Proof.
  intros. unfold limit_coords.
  destruct (u8 (width o - 1) <? xf), (u8 (width o - 1) <? xt),
    (u8 (height o - 1) <? yf), (u8 (height o - 1) <? yt); reflexivity.
Qed.

Section RectangleFacts.

Variable OLED_BLACK OLED_FILL : Z.

(** X11.  The two corners of a rectangle may be given in any order: on
    every display and for all arguments, exchanging the two x coordinates,
    the two y coordinates, or both, gives the same outcome and the same
    memory. *)
Theorem put_rectangle_corners_commute :
  forall fuel o x_from y_from x_to y_to params h,
    let r := OLED_put_rectangle OLED_BLACK OLED_FILL fuel o
               x_from y_from x_to y_to params h in
    OLED_put_rectangle OLED_BLACK OLED_FILL fuel o
      x_to y_from x_from y_to params h = r
    /\ OLED_put_rectangle OLED_BLACK OLED_FILL fuel o
         x_from y_to x_to y_from params h = r
    /\ OLED_put_rectangle OLED_BLACK OLED_FILL fuel o
         x_to y_to x_from y_from params h = r.
Proof.
  intros fuel o xf yf xt yt params h r. subst r.
  assert (X : forall a b c d,
            OLED_put_rectangle OLED_BLACK OLED_FILL fuel o c b a d params h
            = OLED_put_rectangle OLED_BLACK OLED_FILL fuel o a b c d params h).
  { intros a b c d. unfold OLED_put_rectangle.
    destruct (params_max OLED_BLACK OLED_FILL <? params); [reflexivity|].
    rewrite limit_coords_swap_x.
    destruct (limit_coords o a b c d) as [[[[a' b'] c'] d'] e'].
    destruct (4 <=? e'); [reflexivity|].
    rewrite !min_if, !max_if, (Z.min_comm c' a'), (Z.max_comm c' a').
    reflexivity. }
  assert (Y : forall a b c d,
            OLED_put_rectangle OLED_BLACK OLED_FILL fuel o a d c b params h
            = OLED_put_rectangle OLED_BLACK OLED_FILL fuel o a b c d params h).
  { intros a b c d. unfold OLED_put_rectangle.
    destruct (params_max OLED_BLACK OLED_FILL <? params); [reflexivity|].
    rewrite limit_coords_swap_y.
    destruct (limit_coords o a b c d) as [[[[a' b'] c'] d'] e'].
    destruct (4 <=? e'); [reflexivity|].
    rewrite !min_if, !max_if, (Z.min_comm d' b'), (Z.max_comm d' b').
    reflexivity. }
  split; [apply X|]. split; [apply Y|]. rewrite X. apply Y.
Qed.

(** What every pixel store of a rectangle call keeps, the call keeps. *)
Lemma put_rectangle_keeps :
  forall (Q : mem -> Prop) fuel o xf yf xt yt params h e h',
    1 <= width o <= 255 -> 1 <= height o <= 255 ->
    let cxf := Z.min xf (width o - 1) in
    let cyf := Z.min yf (height o - 1) in
    let cxt := Z.min xt (width o - 1) in
    let cyt := Z.min yt (height o - 1) in
    (forall x y c h,
       on_rect (Z.min cxf cxt) (Z.max cxf cxt) (Z.min cyf cyt) (Z.max cyf cyt)
               (negb (Z.land OLED_FILL params =? 0)) x y ->
       Q h -> Q (OLED_put_pixel_ o x y c h)) ->
    0 <= xf -> 0 <= yf -> 0 <= xt -> 0 <= yt ->
    Q h ->
    OLED_put_rectangle OLED_BLACK OLED_FILL fuel o xf yf xt yt params h
    = Some (e, h') ->
    Q h'.
Proof.
  intros Q fuel o xf yf xt yt params h e h' Hw Hh cxf cyf cxt cyt Hput
         Hxf Hyf Hxt Hyt HQ.
  unfold OLED_put_rectangle.
  destruct (params_max OLED_BLACK OLED_FILL <? params).
  { intro E. injection E as _ <-. exact HQ. }
  rewrite limit_coords_spec by assumption. fold cxf cyf cxt cyt.
  destruct (4 <=? out_of_range o xf yf xt yt).
  { intro E. injection E as _ <-. exact HQ. }
  rewrite !min_if, !max_if.
  set (sx := Z.min cxf cxt) in *. set (ex := Z.max cxf cxt) in *.
  set (sy := Z.min cyf cyt) in *. set (ey := Z.max cyf cyt) in *.
  assert (Bx : 0 <= sx /\ ex <= 254) by (subst sx ex cxf cxt; lia).
  assert (By : 0 <= sy /\ ey <= 254) by (subst sy ey cyf cyt; lia).
  set (c := negb (Z.land OLED_BLACK params =? 0)).
  destruct (negb (Z.land OLED_FILL params =? 0)) eqn:Ef.
  - destruct (for_u8 fuel sx ex _ h) as [h1|] eqn:E1; [|discriminate].
    intro E. injection E as _ <-.
    apply (fun K => for_u8_keeps Q _ ex (proj2 Bx) fuel sx h h1 (proj1 Bx)
                      K HQ E1).
    intros x h2 h3 Hx Q2 E2.
    apply (fun K => for_u8_keeps Q _ ey (proj2 By) fuel sy h2 h3 (proj1 By)
                      K Q2 E2).
    intros y h4 h5 Hy Q4 E4. injection E4 as <-.
    apply Hput; [|exact Q4]. unfold on_rect. auto.
  - destruct (for_u8 fuel sx ex _ h) as [h1|] eqn:E1; [|discriminate].
    destruct (for_u8 fuel sy ey _ h1) as [h2|] eqn:E2; [|discriminate].
    intro E. injection E as _ <-.
    assert (Q1 : Q h1).
    { apply (fun K => for_u8_keeps Q _ ex (proj2 Bx) fuel sx h h1 (proj1 Bx)
                        K HQ E1).
      intros x h4 h5 Hx Q4 E4. injection E4 as <-.
      apply Hput; [unfold on_rect; lia|].
      apply Hput; [unfold on_rect; lia|]. exact Q4. }
    apply (fun K => for_u8_keeps Q _ ey (proj2 By) fuel sy h1 h2 (proj1 By)
                      K Q1 E2).
    intros y h4 h5 Hy Q4 E4. injection E4 as <-.
    apply Hput; [unfold on_rect; lia|].
    apply Hput; [unfold on_rect; lia|]. exact Q4.
Qed.

(** X12.  A rectangle call that returns has painted nothing but its
    rectangle: every pixel of the display that is not between the limited
    corners (with the fill flag) or on the four sides they span (without)
    has the bit it had, and no byte outside the frame buffer is written. *)
Theorem put_rectangle_touches_only_rect :
  forall fuel o x_from y_from x_to y_to params h e h',
    1 <= width o <= 255 -> 1 <= height o <= 255 ->
    0 <= x_from -> 0 <= y_from -> 0 <= x_to -> 0 <= y_to ->
    OLED_put_rectangle OLED_BLACK OLED_FILL fuel o x_from y_from x_to y_to
      params h = Some (e, h') ->
    let cx_from := Z.min x_from (width o - 1) in
    let cy_from := Z.min y_from (height o - 1) in
    let cx_to := Z.min x_to (width o - 1) in
    let cy_to := Z.min y_to (height o - 1) in
    same_pixels_off o
      (on_rect (Z.min cx_from cx_to) (Z.max cx_from cx_to)
               (Z.min cy_from cy_to) (Z.max cy_from cy_to)
               (negb (Z.land OLED_FILL params =? 0))) h h'
    /\ same_outside o h h'.
Proof.
  intros fuel o xf yf xt yt params h e h' Hw Hh Hxf Hyf Hxt Hyt E
         cxf cyf cxt cyt.
  split.
  - apply (put_rectangle_keeps
             (same_pixels_off o
                (on_rect (Z.min cxf cxt) (Z.max cxf cxt) (Z.min cyf cyt)
                         (Z.max cyf cyt) (negb (Z.land OLED_FILL params =? 0)))
                h)
             fuel o xf yf xt yt params h e h'); auto.
    + intros x y c h1 R Q1 x' y' Hx' Hy' N.
      rewrite pixel_other; [now apply Q1 | | | exact Hx' | exact Hy' | ].
      * destruct R as (Rx & _). subst cxf cxt. lia.
      * destruct R as (_ & Ry & _). subst cyf cyt. lia.
      * intro Eq. injection Eq as -> ->. contradiction.
    + intros x y _ _ _. reflexivity.
  - apply (put_rectangle_keeps (same_outside o h)
             fuel o xf yf xt yt params h e h'); auto.
    + intros x y c h1 R Q1 b off Hout.
      rewrite put_pixel__confined; [now apply Q1 | | | exact Hout].
      * destruct R as (Rx & _). subst cxf cxt. lia.
      * destruct R as (_ & Ry & _). subst cyf cyt. lia.
    + intros b off _. reflexivity.
Qed.

End RectangleFacts.

Lemma put_rectangle_touches_only_rect_witness :
  exists e h',
    OLED_put_rectangle 1 2 256 small_oled 2 3 200 5 3 static_mem = Some (e, h')
    /\ pixel_bit small_oled 1 4 h' = pixel_bit small_oled 1 4 static_mem.
Proof.
  assert (R : exists e h',
            OLED_put_rectangle 1 2 256 small_oled 2 3 200 5 3 static_mem
            = Some (e, h')) by (vm_compute; do 2 eexists; reflexivity).
  destruct R as (e & h' & E). exists e, h'. split; [exact E|].
  destruct (put_rectangle_touches_only_rect 1 2 256 small_oled 2 3 200 5 3
              static_mem e h') as [A _];
    try lia; try (vm_compute; split; discriminate); [exact E|].
  apply A; [vm_compute; split; [discriminate|reflexivity] | lia |].
  unfold on_rect. vm_compute. intros ((H & _) & _). apply H. reflexivity.
Defined.

(** ** Rounded rectangles *)

Lemma s16_small : forall z, -32768 <= z < 32768 -> s16 z = z.
Proof. intros z Hz. unfold s16. rewrite Z.mod_small; lia. Qed.

Lemma for_u8_body_none : forall fuel body to x h,
  x <= to -> body x h = None -> for_u8 fuel x to body h = None.
Proof.
  intros fuel body to x h Hx E. destruct fuel; cbn [for_u8]; [reflexivity|].
  destruct (Z.leb_spec x to); [|lia]. now rewrite E.
Qed.

Section RoundRectFacts.

Variable OLED_BLACK OLED_FILL : Z.
Variable OLED_put_line : OLED -> Z -> Z -> Z -> Z -> Z -> mem -> mem.

(** The quarter-circle loops end: [x] goes up by one at each turn and [y]
    never goes up. *)
Lemma drawCircle_loop_ends : forall n fuel o x0 y0 cn c f dx dy x y h,
  0 <= x -> y <= 255 -> y - x <= Z.of_nat n -> (n < fuel)%nat ->
  exists h', drawCircle_loop fuel o x0 y0 cn c f dx dy x y h = Some h'.
Proof.
  induction n as [|n IH]; intros fuel o x0 y0 cn c f dx dy x y h Hx Hy Hn Hf;
    (destruct fuel as [|fuel]; [lia|]); cbn [drawCircle_loop].
  - destruct (Z.ltb_spec x y); [lia|]. eauto.
  - destruct (Z.ltb_spec x y); [|eauto].
    rewrite (s16_small (x + 1)) by lia.
    destruct (0 <=? f).
    + rewrite (s16_small (y - 1)) by lia. apply IH; lia.
    + apply IH; lia.
Qed.

Lemma fillCircle_loop_ends : forall n fuel o x0 y0 cn delta params f dx dy x y h,
  0 <= x -> y <= 255 -> y - x <= Z.of_nat n -> (n < fuel)%nat ->
  exists h',
    fillCircle_loop OLED_FILL OLED_put_line fuel o x0 y0 cn delta params
      f dx dy x y h = Some h'.
Proof.
  induction n as [|n IH];
    intros fuel o x0 y0 cn delta params f dx dy x y h Hx Hy Hn Hf;
    (destruct fuel as [|fuel]; [lia|]); cbn [fillCircle_loop].
  - destruct (Z.ltb_spec x y); [lia|]. eauto.
  - destruct (Z.ltb_spec x y); [|eauto].
    rewrite (s16_small (x + 1)) by lia.
    destruct (0 <=? f).
    + rewrite (s16_small (y - 1)) by lia. apply IH; lia.
    + apply IH; lia.
Qed.

Lemma drawCircleHelper_returns : forall fuel o x0 y0 r cn params h,
  0 <= r <= 255 -> (256 <= fuel)%nat ->
  exists h',
    after (drawCircleHelper OLED_BLACK OLED_FILL fuel o x0 y0 r cn params h)
    = Some h'.
Proof.
  intros fuel o x0 y0 r cn params h Hr Hf. unfold drawCircleHelper.
  destruct (params_max OLED_BLACK OLED_FILL <? params); [cbn; eauto|].
  destruct (drawCircle_loop_ends (Z.to_nat r) fuel o x0 y0 cn
              (negb (Z.land OLED_BLACK params =? 0))
              (s16 (1 - r)) 1 (s16 (-2 * r)) 0 r h) as (h' & E); try lia.
  rewrite E. cbn. eauto.
Qed.

Lemma fillCircleHelper_returns : forall fuel o x0 y0 r cn delta params h,
  0 <= r <= 255 -> (256 <= fuel)%nat ->
  exists h',
    after (fillCircleHelper OLED_BLACK OLED_FILL OLED_put_line fuel o x0 y0 r
             cn delta params h) = Some h'.
Proof.
  intros fuel o x0 y0 r cn delta params h Hr Hf. unfold fillCircleHelper.
  destruct (params_max OLED_BLACK OLED_FILL <? params); [cbn; eauto|].
  destruct (fillCircle_loop_ends (Z.to_nat r) fuel o x0 y0 cn delta params
              (s16 (1 - r)) 1 (s16 (-2 * r)) 0 r h) as (h' & E); try lia.
  rewrite E. cbn. eauto.
Qed.

(** X13.  [OLED_put_roundRect] on a display of at least one pixel each
    way, with valid flags and a radius of 8 bits: with all four coordinates
    out of range it returns Bounds and leaves the memory; otherwise it
    returns Ok, always without the fill flag, and with the fill flag when
    the limited [x_to] plus the radius and the limited [y_to] plus twice the
    radius stay below 255. *)
Theorem put_roundRect_returns :
  forall fuel o x_from y_from x_to y_to r params h,
    1 <= width o <= 255 -> 1 <= height o <= 255 ->
    0 <= x_from -> 0 <= y_from -> 0 <= x_to -> 0 <= y_to -> 0 <= r <= 255 ->
    params <= params_max OLED_BLACK OLED_FILL -> (256 <= fuel)%nat ->
    let res := OLED_put_roundRect OLED_BLACK OLED_FILL OLED_put_line fuel o
                 x_from y_from x_to y_to r params h in
    (out_of_range o x_from y_from x_to y_to = 4 ->
       res = Some (OLED_EBOUNDS, h))
    /\ (out_of_range o x_from y_from x_to y_to < 4 ->
        Z.land OLED_FILL params = 0
        \/ (Z.min x_to (width o - 1) + r <= 254
            /\ Z.min y_to (height o - 1) + 2 * r <= 254) ->
        exists h', res = Some (OLED_EOK, h')).
Proof.
  intros fuel o xf yf xt yt r params h Hw Hh Hxf Hyf Hxt Hyt Hr Hp Hf res.
  subst res. unfold OLED_put_roundRect.
  destruct (Z.ltb_spec (params_max OLED_BLACK OLED_FILL) params); [lia|].
  rewrite limit_coords_spec by assumption.
  set (cxf := Z.min xf (width o - 1)). set (cyf := Z.min yf (height o - 1)).
  set (cxt := Z.min xt (width o - 1)). set (cyt := Z.min yt (height o - 1)).
  split.
  - intros ->. reflexivity.
  - intros Ho Hfill.
    destruct (Z.leb_spec 4 (out_of_range o xf yf xt yt)); [lia|].
    set (c := negb (Z.land OLED_BLACK params =? 0)).
    destruct (Z.eqb_spec (Z.land OLED_FILL params) 0) as [Ez|Ez]; cbn [negb].
    + (* the outline *)
      destruct (for_u8_ends
                  (fun x h =>
                     Some (OLED_put_pixel_ o (u8 (x + r)) (u8 (cyt + r * 2)) c
                             (OLED_put_pixel_ o (u8 (x + r)) cyf c h)))
                  cxt fuel cxf h) as (h1 & E1);
        [subst cxt; lia | subst cxf; lia | exact Hf | eauto |].
      rewrite E1. cbn [bind].
      destruct (for_u8_ends
                  (fun y h =>
                     Some (OLED_put_pixel_ o (u8 (cxt + 2 * r)) (u8 (y + r)) c
                             (OLED_put_pixel_ o cxf (u8 (y + r)) c h)))
                  cyt fuel cyf h1) as (h2 & E2);
        [subst cyt; lia | subst cyf; lia | exact Hf | eauto |].
      rewrite E2. cbn [bind].
      destruct (drawCircleHelper_returns fuel o (s16 (cxf + r)) (s16 (cyf + r))
                  r 1 (bool_param c) h2 Hr Hf) as (h3 & E3).
      rewrite E3. cbn [bind].
      destruct (drawCircleHelper_returns fuel o (s16 (cxf + cxt - r - 1))
                  (s16 (cyf + r)) r 2 (bool_param c) h3 Hr Hf) as (h4 & E4).
      rewrite E4. cbn [bind].
      destruct (drawCircleHelper_returns fuel o (s16 (cxf + cxt - r - 1))
                  (s16 (cyf + cyt - r - 1)) r 4 (bool_param c) h4 Hr Hf)
        as (h5 & E5).
      rewrite E5. cbn [bind].
      destruct (drawCircleHelper_returns fuel o (s16 (cxf + r))
                  (s16 (cyf + cyt - r - 1)) r 8 (bool_param c) h5 Hr Hf)
        as (h6 & E6).
      rewrite E6. eauto.
    + (* the filled area *)
      destruct Hfill as [Hz|[Bx By]]; [contradiction|].
      fold cxt in Bx. fold cyt in By.
      destruct (for_u8_ends
                  (fun x =>
                     for_u8 fuel cyf (cyt + 2 * r)
                       (fun y h => Some (OLED_put_pixel_ o x y c h)))
                  (cxt + r) fuel (u8 (cxf + r)) h) as (h1 & E1);
        [ lia
        | unfold u8; pose proof (Z.mod_pos_bound (cxf + r) 256); lia
        | exact Hf | | ].
      { intros x h0. apply for_u8_ends; [lia | subst cyf; lia | exact Hf|].
        eauto. }
      rewrite E1. cbn [bind].
      destruct (fillCircleHelper_returns fuel o (s16 (cxf + cxt - r - 1))
                  (s16 (cyf + r)) r 1 (s16 (cyt - 2 * r - 1)) (bool_param c)
                  h1 Hr Hf) as (h2 & E2).
      rewrite E2. cbn [bind].
      destruct (fillCircleHelper_returns fuel o (s16 (cxf + r))
                  (s16 (cyf + r)) r 2 (s16 (cyt - 2 * r - 1)) (bool_param c)
                  h2 Hr Hf) as (h3 & E3).
      rewrite E3. eauto.
Qed.

(** X14.  With the fill flag the filling loops of [OLED_put_roundRect] run
    a [uint8_t] counter up to a bound that may reach 255: when the limited
    [x_to] plus the radius is 255 or more, or when the limited [y_to] plus
    twice the radius is and the outer loop is entered, the call never
    returns. *)
Theorem put_roundRect_fill_never_returns :
  forall fuel o x_from y_from x_to y_to r params h,
    1 <= width o <= 255 -> 1 <= height o <= 255 ->
    0 <= y_from ->
    params <= params_max OLED_BLACK OLED_FILL ->
    Z.land OLED_FILL params <> 0 ->
    out_of_range o x_from y_from x_to y_to < 4 ->
    255 <= Z.min x_to (width o - 1) + r
    \/ (255 <= Z.min y_to (height o - 1) + 2 * r
        /\ u8 (Z.min x_from (width o - 1) + r)
           <= Z.min x_to (width o - 1) + r) ->
    OLED_put_roundRect OLED_BLACK OLED_FILL OLED_put_line fuel o
      x_from y_from x_to y_to r params h = None.
Proof.
  intros fuel o xf yf xt yt r params h Hw Hh Hyf Hp Hfill Ho Hb.
  unfold OLED_put_roundRect.
  destruct (Z.ltb_spec (params_max OLED_BLACK OLED_FILL) params); [lia|].
  rewrite limit_coords_spec by assumption.
  destruct (Z.leb_spec 4 (out_of_range o xf yf xt yt)); [lia|].
  destruct (Z.eqb_spec (Z.land OLED_FILL params) 0); [contradiction|].
  cbn [negb].
  assert (Hu : 0 <= u8 (Z.min xf (width o - 1) + r) <= 255)
    by (unfold u8; pose proof (Z.mod_pos_bound (Z.min xf (width o - 1) + r) 256);
        lia).
  destruct Hb as [Bx|[By Bx]].
  - rewrite for_u8_never_ends by assumption. reflexivity.
  - rewrite for_u8_body_none; [reflexivity | exact Bx |].
    apply for_u8_never_ends; lia.
Qed.

End RoundRectFacts.

Lemma put_roundRect_returns_witness :
  exists h', OLED_put_roundRect 1 2 no_line 256 small_oled 2 3 9 5 2 1 static_mem
             = Some (OLED_EOK, h').
Proof.
  destruct (put_roundRect_returns 1 2 no_line 256 small_oled 2 3 9 5 2 1
              static_mem) as [_ A];
    try lia; try (vm_compute; split; discriminate);
    try (vm_compute; discriminate); try apply Nat.le_refl.
  apply A; [vm_compute; reflexivity | left; reflexivity].
Defined.

Lemma put_roundRect_fill_never_returns_witness :
  OLED_put_roundRect 1 2 no_line 1000 small_oled 2 3 9 5 250 3 static_mem
  = None.
Proof.
  apply (put_roundRect_fill_never_returns 1 2 no_line 1000 small_oled
           2 3 9 5 250 3 static_mem);
    try lia; try (vm_compute; split; discriminate);
    try (vm_compute; discriminate).
  left. vm_compute. discriminate.
Defined.

(** ** Quarter circles *)

Section CircleFacts.

Variable OLED_BLACK OLED_FILL : Z.

Lemma drawCircle_loop_keeps : forall (Q : mem -> Prop) o c,
  (forall a b h, Q h -> Q (OLED_put_pixel_ o a b c h)) ->
  forall fuel x0 y0 cn f dx dy x y h h',
    Q h -> drawCircle_loop fuel o x0 y0 cn c f dx dy x y h = Some h' -> Q h'.
Proof.
  intros Q o c Hput.
  induction fuel as [|fuel IH]; intros x0 y0 cn f dx dy x y h h' HQ E;
    cbn [drawCircle_loop] in E; [discriminate|].
  destruct (x <? y); [|now injection E as <-].
  destruct (0 <=? f);
    (eapply IH; [|exact E]);
    repeat match goal with
           | |- Q (if ?b then _ else _) => destruct b
           | |- Q (OLED_put_pixel_ _ _ _ _ _) => apply Hput
           end; exact HQ.
Qed.

Lemma drawCircle_loop_no_corner : forall fuel o x0 y0 cn c f dx dy x y h h',
  Z.land cn 0x4 = 0 -> Z.land cn 0x2 = 0 -> Z.land cn 0x8 = 0 ->
  Z.land cn 0x1 = 0 ->
  drawCircle_loop fuel o x0 y0 cn c f dx dy x y h = Some h' -> h' = h.
Proof.
  induction fuel as [|fuel IH];
    intros o x0 y0 cn c f dx dy x y h h' H4 H2 H8 H1 E;
    cbn [drawCircle_loop] in E; [discriminate|].
  destruct (x <? y); [|now injection E as <-].
  rewrite H4, H2, H8, H1 in E. cbn [Z.eqb] in E.
  destruct (0 <=? f); apply IH in E; auto.
Qed.

(** X15.  [drawCircleHelper] for a radius of 8 bits and valid flags returns
    Ok.  It stores pixels of one colour only, the one its flags give: a
    pixel that has this colour before the call has it after, wherever the
    arcs fall.  With a radius of 0, or with none of the four quadrant bits
    in [cornername], it stores nothing. *)
Theorem drawCircleHelper_draws_one_colour :
  forall fuel o x0 y0 r cornername params h,
    0 <= r <= 255 -> params <= params_max OLED_BLACK OLED_FILL ->
    (256 <= fuel)%nat ->
    let c := negb (Z.land OLED_BLACK params =? 0) in
    exists h',
      drawCircleHelper OLED_BLACK OLED_FILL fuel o x0 y0 r cornername params h
      = Some (OLED_EOK, h')
      /\ (forall x y, pixel_bit o x y h = c -> pixel_bit o x y h' = c)
      /\ (r = 0 \/ Z.land cornername 0xF = 0 -> h' = h).
Proof.
  intros fuel o x0 y0 r cn params h Hr Hp Hf c.
  unfold drawCircleHelper.
  destruct (Z.ltb_spec (params_max OLED_BLACK OLED_FILL) params); [lia|].
  fold c.
  destruct (drawCircle_loop_ends (Z.to_nat r) fuel o x0 y0 cn c
              (s16 (1 - r)) 1 (s16 (-2 * r)) 0 r h) as (h' & E); try lia.
  rewrite E. exists h'. split; [reflexivity|]. split.
  - intros x y Hc.
    apply (drawCircle_loop_keeps (fun h => pixel_bit o x y h = c) o c)
      with (3 := E); [|exact Hc].
    intros a b h1 H1. now apply pixel_stable.
  - intros [->|Hcn].
    + destruct fuel as [|fuel]; [lia|]. cbn in E. now injection E as <-.
    + assert (B : forall k, Z.land 15 k = k -> Z.land cn k = 0).
      { intros k Hk. rewrite <- Hk, Z.land_assoc, Hcn. apply Z.land_0_l. }
      apply (drawCircle_loop_no_corner _ _ _ _ _ _ _ _ _ _ _ _ _
               (B 4 eq_refl) (B 2 eq_refl) (B 8 eq_refl) (B 1 eq_refl) E).
Qed.

End CircleFacts.

Lemma drawCircleHelper_draws_one_colour_witness :
  exists h',
    drawCircleHelper 1 2 256 small_oled 8 8 5 0xF 1 static_mem
    = Some (OLED_EOK, h').
Proof.
  destruct (drawCircleHelper_draws_one_colour 1 2 256 small_oled 8 8 5 0xF 1
              static_mem) as (h' & E & _).
  - lia.
  - vm_compute. discriminate.
  - apply Nat.le_refl.
  - exists h'. exact E.
Defined.

(** * More of the initialisation and of the handler *)

(** X16.  [__OLED_init] sends the bring-up sequence, whatever the machine
    was doing: it sets up the display with the lock free and the page
    cursor at 0, resets the bus state, and submits the twelve command bytes
    with the empty callback; 14 events later the bus has seen the start
    condition, the address, the twelve bytes and the stop condition, and is
    idle again, display and memory as initialisation left them.  A request
    that was in flight is dropped without a stop condition or a call
    back. *)
Theorem init_sends_bring_up :
  forall w h fb f a m0,
    init_intact (memory m0) ->
    exists m1 m2,
      __OLED_init w h fb f a m0 = (OLED_EOK, m1)
      /\ i2c m1 = mkI2C (u8 (Z.shiftl a 1)) (Ptr B_cmd_init 0) 12 NULL 0 true
                        Cbk_empty Arg_NULL I2C_STATE_SLAVEADDR
      /\ wire m1 = wire m0 ++ [BusStart]
      /\ hw_events 14 m1 = Some m2
      /\ wire m2 = wire m0 ++ init_frame (u8 (Z.shiftl a 1))
      /\ i2c_state (i2c m2) = I2C_STATE_IDLE
      /\ oled m2 = mkOLED w h fb 1 a 0 8
      /\ memory m2 = memory m0.
Proof.
  intros w h fb f a m0 Hin.
  destruct (OLED_init_accepted w h fb f a m0) as (m1 & E1 & Go).
  assert (G : i2c m1 = mkI2C (u8 (Z.shiftl a 1)) (Ptr B_cmd_init 0) 12 NULL 0
                             true Cbk_empty Arg_NULL I2C_STATE_SLAVEADDR
              /\ memory m1 = memory m0 /\ wire m1 = wire m0 ++ [BusStart]).
  { unfold __OLED_init, I2C_init in E1.
    destruct (twps_loop 4 0 _) as [twps twbr] in E1.
    unfold OLED_i2c_tx_shed in E1. cbn in E1. injection E1 as <-. cbn.
    repeat split. }
  destruct G as (Gi & Gm & Gw).
  destruct (transaction_hw_of m1 _ _ _ _ _ _ _ _ 13%nat Gi)
    as (m2 & m3 & E2 & H2 & C3 & Gs3 & Go3 & Gm3 & Gw3);
    [lia | lia | reflexivity |].
  change (Z.to_nat (sent_count (Ptr B_cmd_init 0) 12)) with 12%nat in Gw3.
  change (Z.to_nat (sent_count NULL 0)) with 0%nat in Gw3.
  change (bytes_at (memory m1) NULL 0) with (@nil bus_event) in Gw3.
  cbn [call_cbk OLED_cbk_empty] in C3.
  rewrite Gm in Gw3. unfold init_intact in Hin. rewrite Hin in Gw3.
  exists m1, m3. split; [exact E1|]. split; [exact Gi|]. split; [exact Gw|].
  split.
  { change 14%nat with (13 + 1)%nat. rewrite hw_events_app, H2.
    cbn [hw_events]. now rewrite C3. }
  split.
  { rewrite Gw3, Gw. unfold init_frame.
    repeat (rewrite <- ?app_assoc; cbn [app]). reflexivity. }
  split; [exact Gs3|]. split; [now rewrite Go3|]. now rewrite Gm3.
Qed.

Lemma init_sends_bring_up_witness :
  exists m2,
    hw_events 14 demo_busy = Some m2
    /\ wire m2 = [] ++ init_frame (u8 (Z.shiftl 0x3C 1)).
Proof.
  destruct (init_sends_bring_up 128 64 demo_fb 200000 0x3C
              (reset_machine static_mem))
    as (m1 & m2 & E1 & _ & _ & E2 & W & _).
  - vm_compute. reflexivity.
  - exists m2. split; [|exact W].
    assert (Em : m1 = demo_busy).
    { unfold demo_busy, demo_init. now rewrite E1. }
    now rewrite <- Em.
Defined.

(** X17.  The callbacks of [oled.c] spin on a rejected submission, and the
    handler runs them with interrupts blocked; yet with a callback of
    [oled.c] pending the handler always returns: it has set the bus state
    to Idle before it calls back, so that the submission of a chained
    callback is accepted at its first attempt. *)
Theorem handler_never_spins :
  forall m,
    own_callback (i2c_callback (i2c m)) (i2c_callback_args (i2c m)) ->
    exists m', ISR m = Some m'.
Proof.
  intros m Hc. unfold ISR.
  destruct (ISR_fsm m) as [m0 f] eqn:E0. destruct f as [[cb arg]|]; [|eauto].
  destruct (ISR_fsm_calls _ _ _ _ E0) as (-> & -> & S0).
  destruct Hc as [Hc|([Hc|[Hc|Hc]] & Ha)]; rewrite Hc;
    try rewrite Ha; cbn [call_cbk].
  - unfold OLED_cbk_empty. eauto.
  - unfold OLED_cbk_unlock. eauto.
  - destruct (Z.le_gt_cases (num_pages (oled m0)) (cur_page (oled m0))).
    + rewrite (writepage_terminates spin_in_isr) by assumption. eauto.
    + destruct (writepage_advances spin_in_isr spin_in_isr_accepts m0 S0
                  ltac:(lia)) as (m1 & E1 & _). eauto.
  - destruct (setwritepage_submits spin_in_isr spin_in_isr_accepts m0 S0)
      as (m1 & E1 & _). eauto.
Qed.

Lemma handler_never_spins_witness :
  i2c_state (i2c demo_page_selected) = I2C_STATE_STOP
  /\ i2c_callback (i2c demo_page_selected) = Cbk_writepage
  /\ exists m', ISR demo_page_selected = Some m'.
Proof.
  split; [vm_compute; reflexivity|]. split; [vm_compute; reflexivity|].
  apply (handler_never_spins demo_page_selected).
  right. split; [right; left|]; vm_compute; reflexivity.
Defined.

(** * From the rasteriser to the bus *)

Lemma solid_byte : forall b (c : bool),
  0 <= b < 256 ->
  (forall j, 0 <= j < 8 -> Z.testbit b j = c) ->
  b = if c then 255 else 0.
Proof.
  intros b c Hb Hbits. apply Z.bits_inj'. intros j Hj.
  destruct (Z.lt_ge_cases j 8) as [Hlt|Hge].
  - rewrite Hbits by lia. destruct c.
    + change 255 with (Z.ones 8). symmetry. apply Z.ones_spec_low. lia.
    + symmetry. apply Z.bits_0.
  - replace b with (b mod 2 ^ 8) by (apply Z.mod_small; exact Hb).
    rewrite Z.mod_pow2_bits_high by lia. destruct c.
    + change 255 with (Z.ones 8). symmetry. apply Z.ones_spec_high. lia.
    + symmetry. apply Z.bits_0.
Qed.

Lemma map_seq_repeat : forall (A : Type) (f : nat -> A) (v : A) n k,
  (forall i, (k <= i < k + n)%nat -> f i = v) ->
  map f (seq k n) = repeat v n.
Proof.
  intros A f v. induction n as [|n IH]; intros k H; [reflexivity|].
  cbn [seq map repeat]. rewrite (H k) by lia. f_equal.
  apply IH. intros i Hi. apply H. lia.
Qed.

Lemma put_pixel__bytes : forall o fbb fbo x y c h,
  frame_buffer o = Ptr (B_ext fbb) fbo ->
  statics_intact h /\ bytes_only h ->
  statics_intact (OLED_put_pixel_ o x y c h)
  /\ bytes_only (OLED_put_pixel_ o x y c h).
Proof.
  intros o fbb fbo x y c h Hfb [Hs Hb].
  unfold OLED_put_pixel_, pixel_ptr. rewrite Hfb. cbn [ptr_add]. split.
  - exact Hs.
  - intros b' o'. unfold store.
    destruct (block_eqb (B_ext fbb) b' && (fbo + (y / 8 * width o + x) =? o'));
      [|apply Hb].
    unfold u8. apply Z.mod_pos_bound. lia.
Qed.

(** A painted page of the frame buffer, as the bus sees it. *)
Lemma painted_page : forall o b off (c : bool) h p,
  frame_buffer o = Ptr b off ->
  bytes_only h ->
  0 <= width o -> 0 <= p ->
  (forall x y, 0 <= x <= width o - 1 -> 0 <= y <= 8 * p + 7 ->
               pixel_bit o x y h = c) ->
  bytes_at h (ptr_add (frame_buffer o) (p * width o)) (Z.to_nat (width o))
  = repeat (BusByte (if c then 255 else 0)) (Z.to_nat (width o)).
Proof.
  intros o b off c h p Hfb Hb Hw Hp Hpaint. unfold bytes_at.
  apply map_seq_repeat. intros i Hi. f_equal.
  rewrite Hfb. cbn [ptr_add load].
  apply solid_byte; [apply Hb|]. intros j Hj.
  specialize (Hpaint (Z.of_nat i) (8 * p + j) ltac:(lia) ltac:(lia)).
  unfold pixel_bit, pixel_ptr in Hpaint. rewrite Hfb in Hpaint.
  cbn [ptr_add load] in Hpaint.
  replace ((8 * p + j) / 8) with p in Hpaint
    by (Z.to_euclidean_division_equations; lia).
  replace ((8 * p + j) mod 8) with j in Hpaint
    by (Z.to_euclidean_division_equations; lia).
  rewrite <- Hpaint. do 2 f_equal. lia.
Qed.

Section FillRefresh.

Variable OLED_BLACK OLED_FILL : Z.

(** X18.  From the rasteriser to the bus.  On a display whose height covers
    its pages ([8 * num_pages <= height]), a filled rectangle over the whole display followed by a
    refresh puts on the bus, for each page in increasing order, the
    select-page command and a transfer of [width] bytes that are all 0xFF
    (colour flag set) or all 0x00 (colour flag clear), whatever the frame
    buffer held before; the trailing select-page command follows and the
    lock is free again. *)
Theorem fill_then_refresh :
  forall fuel m fbb fbo params,
    i2c_state (i2c m) = I2C_STATE_IDLE ->
    busy_lock (oled m) <> 0 ->
    statics_intact (memory m) ->
    bytes_only (memory m) ->
    frame_buffer (oled m) = Ptr (B_ext fbb) fbo ->
    1 <= width (oled m) <= 255 ->
    0 <= num_pages (oled m) ->
    8 * num_pages (oled m) <= height (oled m) ->
    1 <= height (oled m) <= 255 ->
    params <= params_max OLED_BLACK OLED_FILL ->
    Z.land OLED_FILL params <> 0 ->
    (256 <= fuel)%nat ->
    let o := oled m in
    let dev := u8 (Z.shiftl (i2c_addr o) 1) in
    let n := Z.to_nat (num_pages o) in
    let v := if Z.land OLED_BLACK params =? 0 then 0 else 255 in
    exists h' m1 m2,
      OLED_put_rectangle OLED_BLACK OLED_FILL fuel o
        0 0 (width o - 1) (height o - 1) params (memory m)
      = Some (OLED_EOK, h')
      /\ OLED_refresh fuel (set_memory h' m) = Some m1
      /\ hw_events (n * Z.to_nat (width o + 11) + 8) m1 = Some m2
      /\ wire m2 = wire m ++ solid_frames dev (width o) v n
                   ++ select_page_frame dev (num_pages o)
      /\ busy_lock (oled m2) = 1
      /\ i2c_state (i2c m2) = I2C_STATE_IDLE.
Proof.
  intros fuel m fbb fbo params Hs Hl Hst Hby Hfb Hw Hn Hh Hh1 Hp Hfill Hf
         o dev n v.
  destruct (put_rectangle_in_range OLED_BLACK OLED_FILL fuel o (B_ext fbb) fbo
              0 0 (width o - 1) (height o - 1) params (memory m))
    as (h' & Er & Hpaint); subst o; try assumption; try lia.
  set (o := oled m) in *.
  assert (Q : statics_intact h' /\ bytes_only h').
  { apply (put_rectangle_keeps OLED_BLACK OLED_FILL
             (fun h => statics_intact h /\ bytes_only h)
             fuel o 0 0 (width o - 1) (height o - 1) params (memory m)
             OLED_EOK h'); subst o; try assumption; try lia.
    - intros x y c h _. now apply (put_pixel__bytes _ fbb fbo).
    - split; assumption. }
  destruct Q as [Hst' Hby'].
  unfold rect_painted in Hpaint.
  destruct (Z.eqb_spec (Z.land OLED_FILL params) 0) as [E|_];
    [contradiction|]. cbn [negb] in Hpaint.
  replace (Z.min 0 (width o - 1)) with 0 in Hpaint by (subst o; lia).
  replace (Z.max 0 (width o - 1)) with (width o - 1) in Hpaint
    by (subst o; lia).
  replace (Z.min 0 (height o - 1)) with 0 in Hpaint by (subst o; lia).
  replace (Z.max 0 (height o - 1)) with (height o - 1) in Hpaint
    by (subst o; lia).
  set (m0 := set_memory h' m).
  destruct (refresh_starts fuel m0 Hs Hl) as (m1 & E1 & A1 & W1).
  change (oled m0) with o in A1. change (memory m0) with h' in A1.
  change (wire m0) with (wire m) in W1.
  assert (Hnn : Z.of_nat n = num_pages o) by (subst n o; lia).
  assert (Hn255 : 0 <= num_pages o <= 255) by (subst o; lia).
  destruct (pages_run o h' fbb fbo Hst' Hfb Hw Hn255 n 0 m1 (wire m) A1 W1)
    as (m2 & E2 & A2 & W2 & _).
  { cbn [Nat.add]. lia. }
  cbn [Nat.add] in A2. rewrite Hnn in A2.
  destruct (refresh_tail o h' Hst' m2 A2) as (m3 & E3 & W3 & L3 & S3 & _).
  exists h', m1, m3.
  split; [exact Er|]. split; [exact E1|]. split.
  { rewrite hw_events_app. fold o. rewrite E2. exact E3. }
  split; [|split; [exact L3 | exact S3]].
  rewrite W3, W2. unfold select_page_frame at 2. cbn [tl].
  rewrite <- !app_assoc. f_equal.
  replace (flat_map _ (seq 0 n)) with (solid_frames dev (width o) v n).
  { unfold select_page_frame. reflexivity. }
  unfold solid_frames. rewrite !flat_map_concat_map. f_equal.
  apply map_ext_in. intros i Hi. apply in_seq in Hi. f_equal.
  unfold page_data_frame, solid_page_frame. do 3 f_equal.
  rewrite (painted_page o (B_ext fbb) fbo
             (negb (Z.land OLED_BLACK params =? 0)) h' (Z.of_nat i) Hfb Hby');
    try lia.
  - subst v. destruct (Z.land OLED_BLACK params =? 0); reflexivity.
  - intros x y Hx Hy. apply Hpaint; [lia|]. lia.
Qed.

End FillRefresh.

Lemma forall_nth_byte : forall l k,
  Forall (fun z => 0 <= z < 256) l -> 0 <= nth k l 0 < 256.
Proof.
  intros l k H. revert k. induction H as [|z l Hz _ IH]; intros [|k];
    cbn [nth]; try lia; apply IH.
Qed.

Lemma bytes_only_static : bytes_only static_mem.
Proof.
  intros b off. unfold static_mem. destruct (off <? 0); [lia|].
  destruct b; try lia; apply forall_nth_byte; repeat constructor; lia.
Qed.

Lemma fill_then_refresh_witness :
  exists h' m1,
    OLED_put_rectangle 1 2 256 (oled demo_idle)
      0 0 (width (oled demo_idle) - 1) (height (oled demo_idle) - 1) 3
      (memory demo_idle)
    = Some (OLED_EOK, h')
    /\ OLED_refresh 256 (set_memory h' demo_idle) = Some m1.
Proof.
  assert (Em : memory demo_idle = static_mem) by (vm_compute; reflexivity).
  destruct (fill_then_refresh 1 2 256 demo_idle 0 0 3)
    as (h' & m1 & m2 & Er & E1 & _).
  - reflexivity.
  - vm_compute. discriminate.
  - exact statics_intact_demo.
  - rewrite Em. exact bytes_only_static.
  - reflexivity.
  - vm_compute. split; discriminate.
  - vm_compute. discriminate.
  - vm_compute. discriminate.
  - vm_compute. split; discriminate.
  - vm_compute. discriminate.
  - vm_compute. discriminate.
  - apply Nat.le_refl.
  - exists h', m1. split; assumption.
Defined.
